(** * The change-detection, classification and alert-routing pipeline

    A shallow embedding of the pipeline of the competitor watchdog
    (src/diff, src/classifier, src/alerting, src/storage/models.py) and the
    properties its specification states about it.

    Conventions of the embedding.
    - A Python [str] is a [string]; [str.lower] acts on the ASCII letters.
    - A Python [float] is a binary64 [float] of the kernel, compared with
      [<=?] and [<?] as Python compares them.
    - A Python [int] is a [Z].
    - A dict that the code uses as a struct (change data, text diff, semantic
      analysis, classification) is a record of optional, typed fields:
      [None] is an absent key, and [dict.get(k, d)] is [get_or d].
    - A JSON column or a free-form dict is a [json] value.
    - Code that can raise returns a [result]; [try ... except] is
      [try_except].
    - The database is a record of tables, each a list of rows in row-id
      order; a session query is a function of that record.
    - An object that is used after the block of its session is expired and
      detached ([Orm.obj]): reading one of its attributes raises.
    - What lies outside the repository (difflib, the text-understanding
      service, json parsing of its answer, the Slack webhook, the clock) is a
      class or a record field whose members the code calls. *)

From Stdlib Require Import List String Ascii ZArith Bool Lia Floats DecimalString.
Import ListNotations.
Set Warnings "-inexact-float,-register-all,-abstract-large-number".
Open Scope string_scope.

(** ** Python values and built-ins *)

Module Py.

Inductive exn : Type :=
| JSONDecodeError (msg : string)
| AttributeError (msg : string)
| Exception (msg : string).

(** [str(e)] *)
Definition str_exn (e : exn) : string :=
  match e with
  | JSONDecodeError m => m
  | AttributeError m => m
  | Exception m => m
  end.

Inductive result (A : Type) : Type :=
| Ok (a : A)
| Raise (e : exn).
Arguments Ok {A} a.
Arguments Raise {A} e.

Definition bind {A B : Type} (r : result A) (k : A -> result B) : result B :=
  match r with
  | Ok a => k a
  | Raise e => Raise e
  end.

(** [try: body except Exception as e: handler(e)] *)
Definition try_except {A : Type} (body : result A) (handler : exn -> result A)
  : result A :=
  match body with
  | Ok a => Ok a
  | Raise e => handler e
  end.

(** [d.get(k, default)] on a struct-like dict *)
Definition get_or {A : Type} (default : A) (o : option A) : A :=
  match o with
  | Some a => a
  | None => default
  end.

(** Truth value of an optional string: [None] and the empty string are false. *)
Definition truthy_str (o : option string) : bool :=
  match o with
  | Some s => negb (s =? "")
  | None => false
  end.

(** [x or y] on optional strings *)
Definition or_str (x y : option string) : option string :=
  if truthy_str x then x else y.

(** [x or 'literal'] *)
Definition or_lit (x : option string) (lit : string) : string :=
  match x with
  | Some s => if s =? "" then lit else s
  | None => lit
  end.

Definition lower_ascii (c : ascii) : ascii :=
  let n := nat_of_ascii c in
  if (65 <=? n)%nat && (n <=? 90)%nat then ascii_of_nat (n + 32) else c.

(** [s.lower()] *)
Fixpoint lower (s : string) : string :=
  match s with
  | EmptyString => EmptyString
  | String c t => String (lower_ascii c) (lower t)
  end.

(** [s.startswith(p)] *)
Definition startswith (s p : string) : bool := prefix p s.

(** [s.endswith(p)] *)
Fixpoint endswith (s p : string) : bool :=
  (s =? p) ||
  match s with
  | EmptyString => false
  | String _ t => endswith t p
  end.

(** [needle in hay] *)
Fixpoint contains (needle hay : string) : bool :=
  prefix needle hay ||
  match hay with
  | EmptyString => false
  | String _ t => contains needle t
  end.

(** [any(k in text for k in keywords)] *)
Definition any_in (keywords : list string) (text : string) : bool :=
  existsb (fun k => contains k text) keywords.

(** [x in [a, b, ...]] *)
Definition str_in (x : string) (l : list string) : bool :=
  existsb (String.eqb x) l.

(** [s.split(sep)] for a separator that is not empty: [skip] counts the
    characters of a separator just matched that are still to be passed,
    [cur] is the piece being read. *)
Fixpoint split_go (sep : string) (skip : nat) (s cur : string) : list string :=
  match s with
  | EmptyString => [cur]
  | String c t =>
      match skip with
      | S k => split_go sep k t cur
      | O =>
          if prefix sep s
          then cur :: split_go sep (String.length sep - 1) t EmptyString
          else split_go sep 0 t (cur ++ String c EmptyString)
      end
  end.

Definition split (sep s : string) : list string := split_go sep 0 s EmptyString.

(** [sep.join(l)] *)
Definition join (sep : string) (l : list string) : string := String.concat sep l.

(** [s[:n]] *)
Definition slice_to (n : nat) (s : string) : string := substring 0 n s.

(** [s[n:]] *)
Fixpoint slice_from (n : nat) (s : string) : string :=
  match n, s with
  | O, _ => s
  | S k, String _ t => slice_from k t
  | S _, EmptyString => EmptyString
  end.

Definition is_space (c : ascii) : bool :=
  let n := nat_of_ascii c in
  ((9 <=? n)%nat && (n <=? 13)%nat) || (n =? 32)%nat || ((28 <=? n)%nat && (n <=? 31)%nat).

Fixpoint lstrip (s : string) : string :=
  match s with
  | EmptyString => EmptyString
  | String c t => if is_space c then lstrip t else s
  end.

Fixpoint rstrip (s : string) : string :=
  match s with
  | EmptyString => EmptyString
  | String c t =>
      match rstrip t with
      | EmptyString => if is_space c then EmptyString else String c EmptyString
      | t' => String c t'
      end
  end.

(** [s.strip()] *)
Definition strip (s : string) : string := rstrip (lstrip s).

(** [str(n)] of an integer *)
Definition str_int (z : Z) : string := NilZero.string_of_int (Z.to_int z).

(** The double-quote character as a string. *)
Definition dq : string := String (ascii_of_nat 34) EmptyString.

(** The newline character as a string. *)
Definition nl : string := String (ascii_of_nat 10) EmptyString.

(** [l[1:-1]] *)
Definition slice_inner {A : Type} (l : list A) : list A := removelast (tl l).

(** [max(a, b)] and [min(a, b)] as the built-ins compute them: the first
    argument stays unless the second is strictly better. *)
Definition max_float (a b : float) : float := if (a <? b)%float then b else a.
Definition min_float (a b : float) : float := if (b <? a)%float then b else a.

(** JSON values, for the JSON columns and the structured diffs. *)
Inductive json : Type :=
| JNull
| JBool (b : bool)
| JInt (z : Z)
| JFloat (f : float)
| JStr (s : string)
| JList (l : list json)
| JDict (d : list (string * json)).

Definition jdict : Type := list (string * json).

(** Truth value of a JSON value *)
Definition truthy (j : json) : bool :=
  match j with
  | JNull => false
  | JBool b => b
  | JInt z => negb (z =? 0)%Z
  | JFloat f => negb (f =? 0)%float
  | JStr s => negb (s =? "")
  | JList l => match l with [] => false | _ => true end
  | JDict d => match d with [] => false | _ => true end
  end.

Definition truthy_opt (o : option json) : bool :=
  match o with
  | Some j => truthy j
  | None => false
  end.

(** Truth value of an optional dict: [None] and [{}] are false. *)
Definition truthy_dict (o : option jdict) : bool :=
  match o with
  | Some (_ :: _) => true
  | _ => false
  end.

(** [d.get(k)] *)
Fixpoint dict_get (k : string) (d : jdict) : option json :=
  match d with
  | [] => None
  | (k', v) :: rest => if k =? k' then Some v else dict_get k rest
  end.

(** [k in d] *)
Definition dict_has (k : string) (d : jdict) : bool :=
  match dict_get k d with
  | Some _ => true
  | None => false
  end.

End Py.

Import Py.

Notation "x <- e ;; k" := (Py.bind e (fun x => k))
  (at level 61, e at next level, right associativity).

(** ** The data model (src/storage/models.py)

    Timestamps are integers (microseconds); a nullable column is an option. *)

Module Competitor.
Record t : Type := mk {
  id : Z;
  name : string;
  base_url : string;
  created_at : option Z
}.
End Competitor.

Module Asset.
Record t : Type := mk {
  id : Z;
  competitor_id : Z;
  asset_type : string;
  url : string;
  crawl_frequency : string;
  priority_threshold : option string;
  created_at : option Z
}.
End Asset.

Module Snapshot.
Record t : Type := mk {
  id : Z;
  asset_id : Z;
  content_hash : string;
  content_text : option string;
  content_html : option string;
  metadata_json : option json;
  crawl_timestamp : Z;
  http_status : option Z
}.
End Snapshot.

Module Change.
Record t : Type := mk {
  id : Z;
  asset_id : Z;
  snapshot_before_id : Z;
  snapshot_after_id : Z;
  change_type : option string;
  priority : option string;
  summary : option string;
  why_it_matters : option string;
  before_content : option string;
  after_content : option string;
  diff_metadata_json : option json;
  detected_at : option Z;
  alert_sent : bool;
  alert_sent_at : option Z
}.

(** [change.alert_sent = True; change.alert_sent_at = now] *)
Definition mark_sent (now : Z) (c : t) : t :=
  mk (id c) (asset_id c) (snapshot_before_id c) (snapshot_after_id c)
     (change_type c) (priority c) (summary c) (why_it_matters c)
     (before_content c) (after_content c) (diff_metadata_json c)
     (detected_at c) true (Some now).
End Change.

Module Alert.
Record t : Type := mk {
  id : Z;
  change_id : Z;
  priority : string;
  slack_message_id : option string;
  sent_at : option Z;
  delivery_type : option string
}.
End Alert.

(** The database: one list of rows per table, in row-id order. *)
Module Db.
Record t : Type := mk {
  competitors : list Competitor.t;
  assets : list Asset.t;
  snapshots : list Snapshot.t;
  changes : list Change.t;
  alerts : list Alert.t
}.

(** [session.query(Asset).filter(Asset.id == i).first()] *)
Definition asset_by_id (db : t) (i : Z) : option Asset.t :=
  find (fun a => (Asset.id a =? i)%Z) (assets db).

Definition competitor_by_id (db : t) (i : Z) : option Competitor.t :=
  find (fun c => (Competitor.id c =? i)%Z) (competitors db).

Definition change_by_id (db : t) (i : Z) : option Change.t :=
  find (fun c => (Change.id c =? i)%Z) (changes db).

(** The value an auto-increment key takes for a new row. *)
Definition next_id (ids : list Z) : Z := 1 + fold_right Z.max 0%Z ids.

Definition add_change (db : t) (c : Change.t) : t :=
  mk (competitors db) (assets db) (snapshots db) (changes db ++ [c]) (alerts db).

Definition add_alert (db : t) (a : Alert.t) : t :=
  mk (competitors db) (assets db) (snapshots db) (changes db) (alerts db ++ [a]).

(** Rewrite the rows of [changes] whose id is [i]. *)
Definition update_change (db : t) (i : Z) (f : Change.t -> Change.t) : t :=
  mk (competitors db) (assets db) (snapshots db)
     (map (fun c => if (Change.id c =? i)%Z then f c else c) (changes db))
     (alerts db).
End Db.

(** ** The diff engine (src/diff/diff_engine.py) *)

(** [difflib]: the lines [Differ().compare] yields, and
    [SequenceMatcher(None, a, b).ratio()]. *)
Class Difflib : Type := {
  differ_compare : list string -> list string -> list string;
  sequence_matcher_ratio : string -> string -> float
}.

(** Built-ins on floats: [round(x, 2)] and the text an f-string prints. *)
Class FloatBuiltins : Type := {
  round2 : float -> float;
  float_str : float -> string
}.

(** The comparators of structured metadata, one per asset type. Each yields
    a dict of differences or [None], and raises on metadata of a shape it
    does not expect. Their lists come out of Python sets, in an order the
    language leaves open, so they are given as an interface. *)
Class StructuredComparators : Type := {
  _compare_pricing : json -> json -> result (option jdict);
  _compare_features : json -> json -> result (option jdict);
  _compare_changelog : json -> json -> result (option jdict);
  _compare_sitemap : json -> json -> result (option jdict);
  _compare_blog : json -> json -> result (option jdict);
  _compare_compliance : json -> json -> result (option jdict);
  _compare_twitter : json -> json -> result (option jdict);
  _compare_news : json -> json -> result (option jdict)
}.

(** The dict [_text_diff] returns. *)
Module TextDiff.
Record t : Type := mk {
  added_count : option Z;
  removed_count : option Z;
  modified_count : option Z;
  added_lines : option (list string);
  removed_lines : option (list string);
  total_lines_before : option Z;
  total_lines_after : option Z
}.
(** [{}] *)
Definition empty : t := mk None None None None None None None.

Definition opt_key {A : Type} (k : string) (f : A -> json) (o : option A) : jdict :=
  match o with
  | Some a => [(k, f a)]
  | None => []
  end.

(** The dict as a JSON value, as it is stored in a JSON column. *)
Definition to_json (d : t) : json :=
  let strs := fun l => JList (map JStr l) in
  JDict (opt_key "added_count" JInt (added_count d)
         ++ opt_key "removed_count" JInt (removed_count d)
         ++ opt_key "modified_count" JInt (modified_count d)
         ++ opt_key "added_lines" strs (added_lines d)
         ++ opt_key "removed_lines" strs (removed_lines d)
         ++ opt_key "total_lines_before" JInt (total_lines_before d)
         ++ opt_key "total_lines_after" JInt (total_lines_after d)).
End TextDiff.

(** The dict [compare_snapshots] returns ([change_data]). *)
Module ChangeData.
Record t : Type := mk {
  before_content : option string;
  after_content : option string;
  text_diff : option TextDiff.t;
  structured_diff : option jdict;
  content_change_percentage : option float
}.
End ChangeData.

Module DiffEngine.
Section Engine.
Context `{Difflib} `{FloatBuiltins} `{StructuredComparators}.

(** [sum(1 for line in diff if line.startswith(p))] *)
Definition count_prefixed (p : string) (diff : list string) : Z :=
  Z.of_nat (List.length (filter (fun line => startswith line p) diff)).

Definition _text_diff (text_before text_after : string) : TextDiff.t :=
  let lines_before := split nl text_before in
  let lines_after := split nl text_after in
  let diff := differ_compare lines_before lines_after in
  let added := count_prefixed "+ " diff in
  let removed := count_prefixed "- " diff in
  let modified := count_prefixed "? " diff in
  let added_lines :=
    map (slice_from 2)
        (filter (fun line => startswith line "+ " && negb (startswith line "+++")) diff) in
  let removed_lines :=
    map (slice_from 2)
        (filter (fun line => startswith line "- " && negb (startswith line "---")) diff) in
  TextDiff.mk (Some added) (Some removed) (Some modified)
              (Some (firstn 20 added_lines)) (Some (firstn 20 removed_lines))
              (Some (Z.of_nat (List.length lines_before)))
              (Some (Z.of_nat (List.length lines_after))).

Definition _compare_structured_data (metadata_before metadata_after : json)
    (asset_type : string) : result (option jdict) :=
  if asset_type =? "pricing" then _compare_pricing metadata_before metadata_after
  else if asset_type =? "features" then _compare_features metadata_before metadata_after
  else if asset_type =? "changelog" then _compare_changelog metadata_before metadata_after
  else if asset_type =? "sitemap" then _compare_sitemap metadata_before metadata_after
  else if asset_type =? "blog" then _compare_blog metadata_before metadata_after
  else if asset_type =? "compliance" then _compare_compliance metadata_before metadata_after
  else if asset_type =? "twitter" then _compare_twitter metadata_before metadata_after
  else if asset_type =? "news" then _compare_news metadata_before metadata_after
  else Ok None.

Definition _calculate_change_percentage (text_before text_after : string) : float :=
  if text_before =? "" then (if text_after =? "" then 0%float else 100%float)
  else if text_after =? "" then 100%float
  else
    let similarity := sequence_matcher_ratio text_before text_after in
    let change_percentage := ((1 - similarity) * 100)%float in
    round2 change_percentage.

(** [snapshot.asset.asset_type]: the relationship is read through the
    session; without the row, the attribute access raises. *)
Definition snapshot_asset_type (db : Db.t) (s : Snapshot.t) : result string :=
  match Db.asset_by_id db (Snapshot.asset_id s) with
  | Some a => Ok (Asset.asset_type a)
  | None => Raise (AttributeError "'NoneType' object has no attribute 'asset_type'")
  end.

Definition compare_snapshots (db : Db.t) (snapshot_before snapshot_after : Snapshot.t)
  : result (option ChangeData.t) :=
  (* Fast path: hash comparison *)
  if Snapshot.content_hash snapshot_before =? Snapshot.content_hash snapshot_after
  then Ok None
  else
  (* If either snapshot has no content, can't compare *)
  if negb (truthy_str (Snapshot.content_text snapshot_before))
     || negb (truthy_str (Snapshot.content_text snapshot_after))
  then Ok None
  else
    let text_before := get_or "" (Snapshot.content_text snapshot_before) in
    let text_after := get_or "" (Snapshot.content_text snapshot_after) in
    let diff_result := _text_diff text_before text_after in
    structured_diff <-
      (if truthy_opt (Snapshot.metadata_json snapshot_before)
          && truthy_opt (Snapshot.metadata_json snapshot_after)
       then
         asset_type <- snapshot_asset_type db snapshot_before ;;
         _compare_structured_data
           (get_or JNull (Snapshot.metadata_json snapshot_before))
           (get_or JNull (Snapshot.metadata_json snapshot_after))
           asset_type
       else Ok None) ;;
    Ok (Some (ChangeData.mk
                (Some text_before) (Some text_after)
                (Some diff_result) structured_diff
                (Some (_calculate_change_percentage text_before text_after)))).

End Engine.

(** [is_significant_change(change_data, threshold=5.0)] *)
Definition default_threshold : float := 5%float.

Definition is_significant_change (change_data : ChangeData.t) (threshold : float) : bool :=
  (* If structured diff exists and has changes, it's significant *)
  if truthy_dict (ChangeData.structured_diff change_data) then true
  else
    let change_percentage :=
      get_or 0%float (ChangeData.content_change_percentage change_data) in
    if (threshold <=? change_percentage)%float then true
    else
      let text_diff := get_or TextDiff.empty (ChangeData.text_diff change_data) in
      let added := get_or 0%Z (TextDiff.added_count text_diff) in
      let removed := get_or 0%Z (TextDiff.removed_count text_diff) in
      if (10 <? added + removed)%Z then true else false.

End DiffEngine.

(** ** Semantic analysis (src/diff/semantic_diff.py) *)

(** The dict the text-understanding service answers with, and the degraded
    dicts the adapter builds: the keys of the contract, and under [extra]
    whatever other keys an answer carries. *)
Module SemanticAnalysis.
Record t : Type := mk {
  summary : option string;
  change_type : option string;
  why_it_matters : option string;
  significance : option string;
  error : option string;
  extra : jdict
}.

(** Truth value of the dict: [{}] is false. *)
Definition truthy (a : t) : bool :=
  match summary a, change_type a, why_it_matters a, significance a, error a, extra a with
  | None, None, None, None, None, [] => false
  | _, _, _, _, _, _ => true
  end.
End SemanticAnalysis.

(** [json.loads] of an answer, read as the dict of the contract. *)
Class JsonAnalysis : Type := {
  json_loads : string -> result SemanticAnalysis.t
}.

Module SemanticDiff.

(** The object: which client is in use, and the two calls to the service. *)
Record t : Type := mk {
  use_openai : bool;
  _call_openai : string -> result string;
  _call_anthropic : string -> result string
}.

Definition max_length : nat := 5000.

Definition _build_prompt (before_content after_content asset_type url : string) : string :=
  let before_content :=
    if (max_length <? String.length before_content)%nat
    then slice_to max_length before_content ++ "... [truncated]"
    else before_content in
  let after_content :=
    if (max_length <? String.length after_content)%nat
    then slice_to max_length after_content ++ "... [truncated]"
    else after_content in
  join nl [
    "You are analyzing changes to a competitor's " ++ asset_type ++ " page.";
    "";
    "URL: " ++ url;
    "Asset Type: " ++ asset_type;
    "";
    "BEFORE (previous version):";
    before_content;
    "";
    "AFTER (current version):";
    after_content;
    "";
    "Analyze these changes and provide:";
    "1. A brief summary (≤3 sentences) describing what changed (Before → After format)";
    "2. The type of change (pricing, feature, compliance, content, other)";
    "3. Why this change matters for competitive intelligence (be specific and non-speculative)";
    "4. Significance level (high, medium, low)";
    "";
    "Respond in JSON format:";
    "{";
    "    " ++ dq ++ "summary" ++ dq ++ ": " ++ dq ++ "Brief summary of the change" ++ dq ++ ",";
    "    " ++ dq ++ "change_type" ++ dq ++ ": " ++ dq ++ "pricing|feature|compliance|content|other" ++ dq ++ ",";
    "    " ++ dq ++ "why_it_matters" ++ dq ++ ": " ++ dq ++ "Specific reason why this change is important" ++ dq ++ ",";
    "    " ++ dq ++ "significance" ++ dq ++ ": " ++ dq ++ "high|medium|low" ++ dq;
    "}";
    EmptyString
  ].

(** The first statements of [_parse_response]: the answer stripped, and
    without its first and last line when it opens a markdown code block. *)
Definition strip_code_block (response_text : string) : string :=
  let response_text := strip response_text in
  if startswith response_text "```"
  then
    let lines := split nl response_text in
    if (2 <? List.length lines)%nat then join nl (slice_inner lines) else response_text
  else response_text.

Section Adapter.
Context `{JsonAnalysis}.

Definition _parse_response (response_text : string) : result SemanticAnalysis.t :=
  let response_text := strip_code_block response_text in
  match json_loads response_text with
  | Ok result => Ok result
  | Raise (JSONDecodeError _) =>
      (* If JSON parsing fails, try to extract key information *)
      Ok (SemanticAnalysis.mk
            (Some (if (200 <? String.length response_text)%nat
                   then slice_to 200 response_text ++ "..."
                   else response_text))
            (Some "unknown")
            None
            (Some "medium")
            (Some "Failed to parse JSON response")
            [])
  | Raise e => Raise e
  end.

Definition analyze_change (self : t) (before_content after_content asset_type url : string)
  : result SemanticAnalysis.t :=
  let prompt := _build_prompt before_content after_content asset_type url in
  try_except
    (response <- (if use_openai self
                  then _call_openai self prompt
                  else _call_anthropic self prompt) ;;
     _parse_response response)
    (fun e =>
       (* If LLM call fails, return basic analysis *)
       Ok (SemanticAnalysis.mk
             (Some ("Change detected on " ++ asset_type ++ " page"))
             (Some "unknown")
             None
             (Some "medium")
             (Some (str_exn e))
             [])).

End Adapter.

Definition filter_noise (change_data : ChangeData.t) (semantic_analysis : SemanticAnalysis.t)
  : bool :=
  (* If LLM says it's low significance and change percentage is small, filter *)
  let significance :=
    lower (get_or "medium" (SemanticAnalysis.significance semantic_analysis)) in
  let change_percentage :=
    get_or 0%float (ChangeData.content_change_percentage change_data) in
  if (significance =? "low") && (change_percentage <? 2)%float then true
  else
    (* If change type is other and percentage is very small, might be noise *)
    let change_type :=
      lower (get_or "" (SemanticAnalysis.change_type semantic_analysis)) in
    if (change_type =? "other") && (change_percentage <? 1)%float then true
    else false.

End SemanticDiff.

(** ** Classification (src/classifier/change_classifier.py) *)

(** The classification dict. *)
Module Classification.
Record t : Type := mk {
  priority : option string;
  change_type : option string;
  summary : option string;
  why_it_matters : option string;
  confidence : option float
}.
End Classification.

Module ChangeClassifier.

(** [len(x)] of a JSON value; numbers, booleans and null have no length. *)
Definition json_len (j : json) : result Z :=
  match j with
  | JList l => Ok (Z.of_nat (List.length l))
  | JDict d => Ok (Z.of_nat (List.length d))
  | JStr s => Ok (Z.of_nat (String.length s))
  | _ => Raise (Exception "object has no len()")
  end.

Definition _validate_classification (result : Classification.t) (change_data : ChangeData.t)
  : Classification.t :=
  (* Ensure priority is valid *)
  let priority := lower (get_or "medium" (Classification.priority result)) in
  let priority := if str_in priority ["high"; "medium"; "low"] then priority else "medium" in
  (* Ensure summary is at most 3 sentences *)
  let summary := get_or "" (Classification.summary result) in
  let sentences := split ". " summary in
  let summary' :=
    if (3 <? List.length sentences)%nat
    then
      (* Truncate to 3 sentences *)
      let summary := join ". " (firstn 3 sentences) in
      let summary := if endswith summary "." then summary else summary ++ "." in
      Some summary
    else Classification.summary result in
  (* Ensure confidence is in valid range *)
  let confidence := get_or 0.5%float (Classification.confidence result) in
  Classification.mk
    (Some priority)
    (Classification.change_type result)
    summary'
    (Classification.why_it_matters result)
    (Some (max_float 0 (min_float 1 confidence))).

Section RuleBased.
Context `{FloatBuiltins}.

(** [change_type == 'lit'] for an optional [change_type] *)
Definition is_type (change_type : option string) (lit : string) : bool :=
  match change_type with
  | Some s => s =? lit
  | None => false
  end.

Definition _rule_based_classification_static (change_data : ChangeData.t)
    (asset_type : string) (change_type : option string) : result Classification.t :=
  let structured_diff := ChangeData.structured_diff change_data in
  let sd := get_or [] structured_diff in
  (* Determine priority based on change type and structured diff *)
  priority <-
    (if is_type change_type "pricing"
        || (truthy_dict structured_diff && dict_has "tier_changes" sd)
     then Ok "high"
     else if is_type change_type "compliance"
        || (truthy_dict structured_diff && dict_has "new_certifications" sd)
     then Ok "high"
     else if is_type change_type "feature" && truthy_dict structured_diff
     then
       n <- json_len (get_or (JList []) (dict_get "features_added" sd)) ;;
       Ok (if (0 <? n)%Z then "high" else "medium")
     else if is_type change_type "changelog" then Ok "medium"
     else if is_type change_type "blog" || is_type change_type "content" then Ok "low"
     else Ok "medium") ;;
  (* Generate basic summary *)
  let change_percentage :=
    get_or 0%float (ChangeData.content_change_percentage change_data) in
  let summary :=
    "Change detected on " ++ asset_type ++ " page ("
      ++ float_str change_percentage ++ "% change)" in
  let why_it_matters :=
    "Monitor " ++ asset_type ++ " changes for competitive intelligence" in
  Ok (Classification.mk
        (Some priority)
        (Some (or_lit change_type asset_type))
        (Some summary)
        (Some why_it_matters)
        (Some 0.6%float)).

End RuleBased.
End ChangeClassifier.

(** ** Priority assignment and the quality gate
       (src/classifier/priority_assigner.py) *)

Module PriorityAssigner.

Definition HIGH_PRIORITY_KEYWORDS : list string :=
  ["pricing"; "price"; "tier"; "plan"; "free tier";
   "certification"; "compliance"; "SOC"; "ISO"; "GDPR"; "HIPAA";
   "integration"; "launch"; "release"; "feature"].

Definition MEDIUM_PRIORITY_KEYWORDS : list string :=
  ["changelog"; "update"; "news"; "press release";
   "case study"; "customer"; "logo"; "twitter"; "tweet"].

Definition LOW_PRIORITY_KEYWORDS : list string :=
  ["homepage"; "landing"; "testimonial"; "blog";
   "thought leadership"; "industry"].

(** [(classification.get(k) or change.k or '').lower()] *)
Definition field_lower (from_classification from_change : option string) : string :=
  lower (or_lit (or_str from_classification from_change) "").

(** The text [_rule_based_priority] matches the keywords against:
    [f"{change_type} {summary} {why_it_matters}"]. *)
Definition combined_text (change : Change.t) (classification : Classification.t) : string :=
  let change_type :=
    field_lower (Classification.change_type classification) (Change.change_type change) in
  let summary :=
    field_lower (Classification.summary classification) (Change.summary change) in
  let why_it_matters :=
    field_lower (Classification.why_it_matters classification) (Change.why_it_matters change) in
  change_type ++ " " ++ summary ++ " " ++ why_it_matters.

Definition _rule_based_priority (change : Change.t) (classification : Classification.t)
  : string :=
  let change_type :=
    field_lower (Classification.change_type classification) (Change.change_type change) in
  let combined_text := combined_text change classification in
  (* Check for high priority indicators, but exclude a clearly low priority context *)
  if any_in HIGH_PRIORITY_KEYWORDS combined_text
     && negb (any_in LOW_PRIORITY_KEYWORDS combined_text)
  then "high"
  (* Check for medium priority indicators *)
  else if any_in MEDIUM_PRIORITY_KEYWORDS combined_text then "medium"
  (* Check for low priority indicators *)
  else if any_in LOW_PRIORITY_KEYWORDS combined_text then "low"
  (* Default based on change type *)
  else if str_in change_type ["pricing"; "compliance"] then "high"
  else if str_in change_type ["changelog"; "news"] then "medium"
  else "low".

Definition assign_priority (change : Change.t) (classification : Classification.t)
  : string :=
  (* Use classification priority if available and confident *)
  if (0.7 <=? get_or 0 (Classification.confidence classification))%float
  then
    let priority := lower (get_or "medium" (Classification.priority classification)) in
    if str_in priority ["high"; "medium"; "low"] then priority
    else _rule_based_priority change classification
  else
    (* Fallback to rule-based assignment *)
    _rule_based_priority change classification.

Definition speculative_words : list string :=
  ["might"; "could"; "possibly"; "perhaps"; "maybe"; "potentially"].

Section Quality.
Context `{FloatBuiltins}.

Definition validate_quality (change : Change.t) (classification : Classification.t)
  : bool * option string :=
  (* Check summary length (at most 3 sentences) *)
  let summary := or_str (Classification.summary classification) (Change.summary change) in
  if negb (truthy_str summary) then (false, Some "Summary is missing")
  else
  let sentences := split ". " (get_or "" summary) in
  if (3 <? List.length sentences)%nat
  then (false, Some ("Summary has " ++ str_int (Z.of_nat (List.length sentences))
                       ++ " sentences (max 3)"))
  else
  (* Check that why it matters is present and non-empty *)
  let why_it_matters :=
    or_str (Classification.why_it_matters classification) (Change.why_it_matters change) in
  if negb (truthy_str why_it_matters)
     || (String.length (strip (get_or "" why_it_matters)) <? 10)%nat
  then (false, Some "Why it matters is missing or too short")
  else
  (* Check for speculative language (common patterns) *)
  let why_lower := lower (get_or "" why_it_matters) in
  if any_in speculative_words why_lower
     && negb (any_in ["could indicate"; "might suggest"] why_lower)
  then (false, Some "Why it matters contains speculative language")
  else
  (* Check confidence threshold *)
  let confidence := get_or 0%float (Classification.confidence classification) in
  if (confidence <? 0.3)%float
  then (false, Some ("Classification confidence too low: " ++ float_str confidence))
  else
  (* Check that before/after content exists *)
  if negb (truthy_str (Change.before_content change))
     || negb (truthy_str (Change.after_content change))
  then (false, Some "Before/after content is missing")
  else (true, None).

Definition priority_levels : list (string * Z) :=
  [("high", 3%Z); ("medium", 2%Z); ("low", 1%Z)].

(** [priority_levels.get(k, 2)] *)
Definition level_of (k : string) : Z :=
  match find (fun kv => fst kv =? k) priority_levels with
  | Some kv => snd kv
  | None => 2%Z
  end.

Definition should_alert (change : Change.t) (classification : Classification.t)
    (priority_threshold : option string) : bool :=
  (* Validate quality first *)
  let '(is_valid, error) := validate_quality change classification in
  if negb is_valid then false
  else
    (* Assign priority *)
    let priority := assign_priority change classification in
    (* Check against threshold *)
    if truthy_str priority_threshold
    then
      let threshold_level := level_of (lower (get_or "" priority_threshold)) in
      let change_level := level_of priority in
      if (change_level <? threshold_level)%Z then false else true
    else true.

End Quality.
End PriorityAssigner.

(** ** The orchestrator (src/diff/change_detector.py) *)

Module ChangeDetector.

(** The object: the semantic adapter when its construction succeeded. *)
Record t : Type := mk {
  semantic_diff : option SemanticDiff.t;
  has_llm : bool
}.

(** Rows of one asset by capture time, latest first; rows of equal time keep
    their row order. *)
Fixpoint insert_desc (s : Snapshot.t) (l : list Snapshot.t) : list Snapshot.t :=
  match l with
  | [] => [s]
  | x :: r =>
      if (Snapshot.crawl_timestamp x <=? Snapshot.crawl_timestamp s)%Z
      then s :: l
      else x :: insert_desc s r
  end.

Definition order_by_crawl_timestamp_desc (l : list Snapshot.t) : list Snapshot.t :=
  fold_right insert_desc [] l.

(** [session.query(Snapshot).filter(Snapshot.asset_id == asset.id)
      .order_by(Snapshot.crawl_timestamp.desc()).limit(2).all()] *)
Definition last_two_snapshots (db : Db.t) (asset : Asset.t) : list Snapshot.t :=
  firstn 2
    (order_by_crawl_timestamp_desc
       (filter (fun s => (Snapshot.asset_id s =? Asset.id asset)%Z) (Db.snapshots db))).

(** [session.query(Change).filter(Change.snapshot_after_id == i).first()] *)
Definition change_for_snapshot_after (db : Db.t) (i : Z) : option Change.t :=
  find (fun c => (Change.snapshot_after_id c =? i)%Z) (Db.changes db).

Definition _infer_change_type (asset_type : string) (change_data : ChangeData.t) : string :=
  (* Check structured diff first *)
  let structured_diff := ChangeData.structured_diff change_data in
  let sd := get_or [] structured_diff in
  if truthy_dict structured_diff
  then
    if dict_has "tier_changes" sd || dict_has "free_tier_changed" sd then "pricing"
    else if dict_has "features_added" sd || dict_has "features_removed" sd then "feature"
    else if dict_has "new_certifications" sd || dict_has "new_standards" sd then "compliance"
    else if dict_has "new_entries" sd then "changelog"
    else if dict_has "new_urls" sd then "sitemap"
    else if dict_has "new_posts" sd then "blog"
    else asset_type
  else
    (* Fallback to asset type *)
    asset_type.

Section Detector.
Context `{Difflib} `{FloatBuiltins} `{StructuredComparators} `{JsonAnalysis}.

Definition _generate_basic_summary (change_data : ChangeData.t) (asset_type : string)
  : string :=
  let text_diff := get_or TextDiff.empty (ChangeData.text_diff change_data) in
  let added := get_or 0%Z (TextDiff.added_count text_diff) in
  let removed := get_or 0%Z (TextDiff.removed_count text_diff) in
  let change_pct :=
    float_str (get_or 0%float (ChangeData.content_change_percentage change_data)) in
  if (0 <? added)%Z && (0 <? removed)%Z
  then "Content updated on " ++ asset_type ++ " page: " ++ str_int added
         ++ " lines added, " ++ str_int removed ++ " lines removed ("
         ++ change_pct ++ "% change)"
  else if (0 <? added)%Z
  then "Content added to " ++ asset_type ++ " page: " ++ str_int added
         ++ " new lines (" ++ change_pct ++ "% change)"
  else if (0 <? removed)%Z
  then "Content removed from " ++ asset_type ++ " page: " ++ str_int removed
         ++ " lines removed (" ++ change_pct ++ "% change)"
  else "Change detected on " ++ asset_type ++ " page (" ++ change_pct ++ "% change)".

(** [change_data.get('structured_diff') or change_data.get('text_diff')] *)
Definition diff_metadata (change_data : ChangeData.t) : option json :=
  if truthy_dict (ChangeData.structured_diff change_data)
  then option_map JDict (ChangeData.structured_diff change_data)
  else option_map TextDiff.to_json (ChangeData.text_diff change_data).

(** Builds the row, adds it and commits: the new database and the row as
    refreshed, with its key. *)
Definition _create_change_record (now : Z) (session : Db.t) (asset : Asset.t)
    (snapshot_before snapshot_after : Snapshot.t) (change_data : ChangeData.t)
    (semantic_analysis : option SemanticAnalysis.t) : Change.t * Db.t :=
  let '(change_type, summary, why_it_matters) :=
    match semantic_analysis with
    | Some sa =>
        if SemanticAnalysis.truthy sa
        then (get_or "unknown" (SemanticAnalysis.change_type sa),
              get_or "Change detected" (SemanticAnalysis.summary sa),
              get_or "" (SemanticAnalysis.why_it_matters sa))
        else (_infer_change_type (Asset.asset_type asset) change_data,
              _generate_basic_summary change_data (Asset.asset_type asset),
              "Change detected on " ++ Asset.asset_type asset ++ " page")
    | None =>
        (* Fallback to basic analysis *)
        (_infer_change_type (Asset.asset_type asset) change_data,
         _generate_basic_summary change_data (Asset.asset_type asset),
         "Change detected on " ++ Asset.asset_type asset ++ " page")
    end in
  (* Truncate content for storage (keep first 10000 chars) *)
  let before_content := slice_to 10000 (get_or "" (ChangeData.before_content change_data)) in
  let after_content := slice_to 10000 (get_or "" (ChangeData.after_content change_data)) in
  let change :=
    Change.mk
      (Db.next_id (map Change.id (Db.changes session)))
      (Asset.id asset)
      (Snapshot.id snapshot_before)
      (Snapshot.id snapshot_after)
      (Some change_type)
      None (* Will be set by classifier *)
      (Some summary)
      (Some why_it_matters)
      (Some before_content)
      (Some after_content)
      (diff_metadata change_data)
      (Some now)
      false
      None in
  (change, Db.add_change session change).

(** The semantic step of [detect_changes_for_asset]: [None] when the change
    is filtered as noise, else the analysis to record, if any. An exception
    of the step is caught there and the analysis obtained so far is kept. *)
Definition semantic_step (self : t) (asset : Asset.t)
    (snapshot_before snapshot_after : Snapshot.t) (change_data : ChangeData.t)
  : option (option SemanticAnalysis.t) :=
  if has_llm self
     && truthy_str (Snapshot.content_text snapshot_before)
     && truthy_str (Snapshot.content_text snapshot_after)
  then
    match semantic_diff self with
    | None => Some None
    | Some sd =>
        match SemanticDiff.analyze_change sd
                (get_or "" (Snapshot.content_text snapshot_before))
                (get_or "" (Snapshot.content_text snapshot_after))
                (Asset.asset_type asset) (Asset.url asset) with
        | Ok semantic_analysis =>
            (* Filter noise *)
            if SemanticDiff.filter_noise change_data semantic_analysis
            then None
            else Some (Some semantic_analysis)
        | Raise _ => Some None
        end
    end
  else Some None.

(** [detect_changes_for_asset(asset)] at time [now], on the database [db]:
    what it returns or raises, and the database it leaves. *)
Definition detect_changes_for_asset (self : t) (now : Z) (db : Db.t) (asset : Asset.t)
  : result (list Change.t) * Db.t :=
  (* Reload asset in this session *)
  match Db.asset_by_id db (Asset.id asset) with
  | None => (Ok [], db)
  | Some asset =>
      (* Get last two snapshots *)
      match last_two_snapshots db asset with
      | [snapshot_after; snapshot_before] =>
          (* Check if change already detected *)
          match change_for_snapshot_after db (Snapshot.id snapshot_after) with
          | Some existing_change => (Ok [], db)
          | None =>
              (* Compare snapshots *)
              match DiffEngine.compare_snapshots db snapshot_before snapshot_after with
              | Raise e => (Raise e, db)
              | Ok None => (Ok [], db)
              | Ok (Some change_data) =>
                  (* Check if change is significant *)
                  if negb (DiffEngine.is_significant_change
                             change_data DiffEngine.default_threshold)
                  then (Ok [], db)
                  else
                    (* Perform semantic analysis if LLM available *)
                    match semantic_step self asset snapshot_before snapshot_after
                            change_data with
                    | None => (Ok [], db)
                    | Some semantic_analysis =>
                        (* Create change record *)
                        let '(change, db') :=
                          _create_change_record now db asset snapshot_before
                            snapshot_after change_data semantic_analysis in
                        (Ok [change], db')
                    end
              end
          end
      | _ =>
          (* Need at least 2 snapshots to compare *)
          (Ok [], db)
      end
  end.

End Detector.
End ChangeDetector.

(** ** Objects and their session (src/storage/database.py)

    Leaving a [with DatabaseSession()] block commits, which expires every
    object the session loaded, and closes, which detaches them: an object
    that is used after the block of its session cannot be read any more.
    Inside the block a query result is read as its row. *)

Module Orm.

Record obj (A : Type) : Type := mk {
  row : A;
  attached : bool
}.
Arguments mk {A} _ _.
Arguments row {A} _.
Arguments attached {A} _.

(** What reading an attribute of an expired, detached object raises. *)
Definition DetachedInstanceError : exn :=
  Exception "Instance is not bound to a Session; attribute refresh operation cannot proceed".

(** [o.attr] *)
Definition get {A B : Type} (o : obj A) (attr : A -> B) : result B :=
  if attached o then Ok (attr (row o)) else Raise DetachedInstanceError.

(** The attributes of [o], read. *)
Definition read {A : Type} (o : obj A) : result A := get o (fun r => r).

(** The object of a row while its session is open, and once it is left. *)
Definition loaded {A : Type} (r : A) : obj A := mk r true.
Definition expired {A : Type} (r : A) : obj A := mk r false.

End Orm.

(** ** Alert delivery (src/alerting/alert_manager.py) *)

(** What the notification sink is handed ([send_alert], [send_digest]). *)
Module Slack.

Record alert : Type := mk_alert {
  company : string;
  priority : string;
  asset : string;
  change_type : string;
  summary : string;
  why_it_matters : string;
  url : string;
  timestamp : option Z
}.

Inductive message : Type :=
| Single (a : alert)
| Digest (alerts : list alert) (title : string) (priority : string).

(** The integration object: whether the webhook accepts a message. *)
Record t : Type := mk {
  post_ok : message -> bool
}.

End Slack.

Module AlertManager.

Record t : Type := mk {
  slack : option Slack.t;
  has_slack : bool
}.

(** The state delivery acts on: the database, and the messages posted to
    the webhook so far, oldest first. *)
Record world : Type := mk_world {
  db : Db.t;
  posted : list Slack.message
}.

Definition day : Z := 86400000000.

(** [self.slack.send_alert(...)] and [self.slack.send_digest(...)]: the
    message is posted and the webhook's verdict returned; a digest of no
    alerts is not posted and counts as sent. *)
Definition post (self : t) (w : world) (m : Slack.message) : result (bool * world) :=
  match slack self with
  | None => Raise (AttributeError "'NoneType' object has no attribute 'send_alert'")
  | Some s =>
      match m with
      | Slack.Digest [] _ _ => Ok (true, w)
      | _ => Ok (Slack.post_ok s m, mk_world (db w) (posted w ++ [m]))
      end
  end.

(** [priority != 'high'] *)
Definition is_priority (p : option string) (lit : string) : bool :=
  match p with
  | Some s => s =? lit
  | None => false
  end.

Definition alert_of (change : Change.t) (asset : Asset.t) (competitor : Competitor.t)
    (priority : string) (timestamp : option Z) : Slack.alert :=
  Slack.mk_alert
    (Competitor.name competitor)
    priority
    (Asset.asset_type asset)
    (or_lit (Change.change_type change) "unknown")
    (or_lit (Change.summary change) "Change detected")
    (or_lit (Change.why_it_matters change) "Monitor for competitive intelligence")
    (Asset.url asset)
    timestamp.

(** [send_immediate_alert(change)] at time [now] (the clock is read once
    per call): what it returns or raises, and the state it leaves. The
    change, the asset and the competitor it sends are read after the block
    that loaded them. A write of a session takes effect at its commit. *)
Definition send_immediate_alert (self : t) (now : Z) (w : world)
    (change : Orm.obj Change.t) : result bool * world :=
  if negb (has_slack self) then (Ok false, w)
  else
  match Orm.get change Change.priority with
  | Raise e => (Raise e, w)
  | Ok priority =>
  if negb (is_priority priority "high") then (Ok false, w)
  else
    (* Get asset and competitor info *)
    match Orm.get change Change.id with
    | Raise e => (Raise e, w)
    | Ok change_id =>
    match Db.change_by_id (db w) change_id with
    | None => (Raise (AttributeError "'NoneType' object has no attribute 'asset_id'"), w)
    | Some change =>
        match Db.asset_by_id (db w) (Change.asset_id change) with
        | None => (Ok false, w)
        | Some asset =>
            match Db.competitor_by_id (db w) (Asset.competitor_id asset) with
            | None => (Ok false, w)
            | Some competitor =>
                (* the block is left *)
                let change := Orm.expired change in
                let asset := Orm.expired asset in
                let competitor := Orm.expired competitor in
                (* Send alert *)
                match slack self with
                | None =>
                    (Raise (AttributeError
                              "'NoneType' object has no attribute 'send_alert'"), w)
                | Some _ =>
                match
                  (competitor <- Orm.read competitor ;;
                   change <- Orm.read change ;;
                   asset <- Orm.read asset ;;
                   Ok (Slack.Single
                         (alert_of change asset competitor
                            (or_lit (Change.priority change) "medium")
                            (Some (get_or now (Change.detected_at change)))))) with
                | Raise e => (Raise e, w)
                | Ok message =>
                match post self w message with
                | Raise e => (Raise e, w)
                | Ok (success, w1) =>
                    if success
                    then
                      (* Record alert *)
                      match Orm.read change with
                      | Raise e => (Raise e, w1)
                      | Ok change =>
                      let alert :=
                        Alert.mk
                          (Db.next_id (map Alert.id (Db.alerts (db w1))))
                          (Change.id change)
                          (or_lit (Change.priority change) "medium")
                          None
                          (Some now)
                          (Some "immediate") in
                      (* Mark change as alerted *)
                      match Db.change_by_id (db w1) (Change.id change) with
                      | None =>
                          (Raise (AttributeError
                                    "'NoneType' object has no attribute 'alert_sent'"),
                           w1)
                      | Some change =>
                          let w2 :=
                            mk_world
                              (Db.update_change (Db.add_alert (db w1) alert)
                                 (Change.id change) (Change.mark_sent now))
                              (posted w1) in
                          (* the block is left; the log line reads [change.id] *)
                          match Orm.get (Orm.expired (Change.mark_sent now change))
                                        Change.id with
                          | Raise e => (Raise e, w2)
                          | Ok _ => (Ok success, w2)
                          end
                      end
                      end
                    else (Ok success, w1)
                end
                end
                end
            end
        end
    end
    end
  end.

(** [get_pending_alerts(priority, since)]: the rows of the query. *)
Definition get_pending_alerts (session : Db.t) (priority : option string)
    (since : option Z) : list Change.t :=
  let joined :=
    filter (fun c => match Db.asset_by_id session (Change.asset_id c) with
                     | Some _ => true
                     | None => false
                     end) (Db.changes session) in
  let query :=
    filter (fun c => negb (Change.alert_sent c)
                     && match Change.priority c with Some _ => true | None => false end)
           joined in
  let query :=
    if truthy_str priority
    then filter (fun c => is_priority (Change.priority c) (get_or "" priority)) query
    else query in
  match since with
  | Some t =>
      filter (fun c => match Change.detected_at c with
                       | Some d => (t <=? d)%Z
                       | None => false
                       end) query
  | None => query
  end.

(** What a caller of [get_pending_alerts] holds: the objects of those rows,
    the block of the query being left. *)
Definition pending_alerts (session : Db.t) (priority : option string)
    (since : option Z) : list (Orm.obj Change.t) :=
  map Orm.expired (get_pending_alerts session priority since).

(** The loop that formats the alerts of a sweep: the asset and the
    competitor are loaded in its block, the changes are the caller's. *)
Fixpoint format_alerts (session : Db.t) (changes : list (Orm.obj Change.t))
  : result (list Slack.alert * list Z) :=
  match changes with
  | [] => Ok ([], [])
  | change :: rest =>
      asset_id <- Orm.get change Change.asset_id ;;
      match Db.asset_by_id session asset_id with
      | None => Raise (AttributeError "'NoneType' object has no attribute 'competitor_id'")
      | Some asset =>
          match Db.competitor_by_id session (Asset.competitor_id asset) with
          | None => Raise (AttributeError "'NoneType' object has no attribute 'name'")
          | Some competitor =>
              change <- Orm.read change ;;
              r <- format_alerts session rest ;;
              Ok (alert_of change asset competitor
                    (get_or "" (Change.priority change))
                    (Change.detected_at change) :: fst r,
                  Change.id change :: snd r)
          end
      end
  end.

(** The loop that marks the changes of a sweep as alerted. *)
Fixpoint mark_alerted (now : Z) (delivery_type : string) (session : Db.t)
    (change_ids : list Z) : Db.t :=
  match change_ids with
  | [] => session
  | change_id :: rest =>
      match Db.change_by_id session change_id with
      | Some change =>
          let session := Db.update_change session change_id (Change.mark_sent now) in
          let alert :=
            Alert.mk
              (Db.next_id (map Alert.id (Db.alerts session)))
              (Change.id change)
              (get_or "" (Change.priority change))
              None
              (Some now)
              (Some delivery_type) in
          mark_alerted now delivery_type (Db.add_alert session alert) rest
      | None => mark_alerted now delivery_type session rest
      end
  end.

(** The body [send_daily_digest] and [send_weekly_summary] share, which
    differ in the tier, the lookback, the title and the channel tag. *)
Definition send_sweep (tier : string) (lookback : Z) (title delivery_type : string)
    (self : t) (now : Z) (w : world) : result unit * world :=
  if negb (has_slack self) then (Ok tt, w)
  else
    let since := (now - lookback)%Z in
    let changes := pending_alerts (db w) (Some tier) (Some since) in
    match changes with
    | [] => (Ok tt, w)
    | _ =>
        (* Format alerts *)
        match format_alerts (db w) changes with
        | Raise e => (Raise e, w)
        | Ok (alerts, change_ids) =>
            (* Send digest *)
            match post self w (Slack.Digest alerts title tier) with
            | Raise e => (Raise e, w)
            | Ok (success, w1) =>
                if success
                then
                  (* Mark changes as alerted *)
                  (Ok tt,
                   mk_world (mark_alerted now delivery_type (db w1) change_ids)
                            (posted w1))
                else (Ok tt, w1)
            end
        end
    end.

Definition send_daily_digest : t -> Z -> world -> result unit * world :=
  send_sweep "medium" (1 * day) "Daily Competitive Intelligence Digest" "daily_digest".

Definition send_weekly_summary : t -> Z -> world -> result unit * world :=
  send_sweep "low" (7 * day) "Weekly Competitive Intelligence Summary" "weekly_summary".

(** The loop of [process_pending_alerts]: an exception of one change goes
    to the handler, whose log line reads [change.id]. *)
Fixpoint send_each (self : t) (now : Z) (w : world) (changes : list (Orm.obj Change.t))
  : result unit * world :=
  match changes with
  | [] => (Ok tt, w)
  | change :: rest =>
      match send_immediate_alert self now w change with
      | (Ok _, w1) => send_each self now w1 rest
      | (Raise _, w1) =>
          match Orm.get change Change.id with
          | Raise e => (Raise e, w1)
          | Ok _ => send_each self now w1 rest
          end
      end
  end.

(** [process_pending_alerts()]: every pending high-priority change is sent
    at once. *)
Definition process_pending_alerts (self : t) (now : Z) (w : world)
  : result unit * world :=
  let high_priority := pending_alerts (db w) (Some "high") None in
  send_each self now w high_priority.

End AlertManager.

(** ** The rules as the specification words them *)

Module Spec.

(** Ordinals of the priority tiers: high=3, medium=2, low=1, anything else
    counts as medium. *)
Definition ordinal (p : string) : Z :=
  if p =? "high" then 3%Z
  else if p =? "medium" then 2%Z
  else if p =? "low" then 1%Z
  else 2%Z.

(** Default priority by change type: pricing/compliance high,
    changelog/news medium, else low. *)
Definition default_by_type (change_type : string) : string :=
  if (change_type =? "pricing") || (change_type =? "compliance") then "high"
  else if (change_type =? "changelog") || (change_type =? "news") then "medium"
  else "low".

(** Keyword matching with its tie-break order: high wins unless a
    low-priority keyword also matches; else medium; else low; else the
    default by change type. *)
Definition keyword_priority (text change_type : string) : string :=
  let high := any_in PriorityAssigner.HIGH_PRIORITY_KEYWORDS text in
  let medium := any_in PriorityAssigner.MEDIUM_PRIORITY_KEYWORDS text in
  let low := any_in PriorityAssigner.LOW_PRIORITY_KEYWORDS text in
  match high, medium, low with
  | true, _, false => "high"
  | _, true, _ => "medium"
  | _, false, true => "low"
  | false, false, false => default_by_type change_type
  end.

End Spec.

(** ** Instances and data to run the model on *)

Module Examples.

(** A crude line diff: every old line removed, every new line added. *)
#[local] Instance difflib : Difflib := {
  differ_compare a b := (map (append "- ") a ++ map (append "+ ") b)%list;
  sequence_matcher_ratio a b := if a =? b then 1%float else 0%float
}.

#[local] Instance float_builtins : FloatBuiltins := {
  round2 f := f;
  float_str f := if (f =? 0)%float then "0.0" else "x"
}.

(** Comparators that fail on every input. *)
#[local] Instance failing_comparators : StructuredComparators := {
  _compare_pricing _ _ := Raise (Exception "pricing");
  _compare_features _ _ := Raise (Exception "features");
  _compare_changelog _ _ := Raise (Exception "changelog");
  _compare_sitemap _ _ := Raise (Exception "sitemap");
  _compare_blog _ _ := Raise (Exception "blog");
  _compare_compliance _ _ := Raise (Exception "compliance");
  _compare_twitter _ _ := Raise (Exception "twitter");
  _compare_news _ _ := Raise (Exception "news")
}.

(** A decoder that knows one answer and rejects the rest. *)
#[local] Instance json_analysis : JsonAnalysis := {
  json_loads s :=
    if s =? "{}" then Ok (SemanticAnalysis.mk None None None None None [])
    else Raise (JSONDecodeError "Expecting value")
}.

Definition acme : Competitor.t := Competitor.mk 1 "Acme" "https://acme.test" None.

Definition pricing_page : Asset.t :=
  Asset.mk 1 1 "pricing" "https://acme.test/pricing" "daily" (Some "high") None.

Definition snapshot1 : Snapshot.t :=
  Snapshot.mk 1 1 "h1" (Some "Plan A: $10/mo, 5 seats") None None 100 (Some 200%Z).

Definition snapshot2 : Snapshot.t :=
  Snapshot.mk 2 1 "h2" (Some "Plan A: $15/mo, 5 seats") None None 200 (Some 200%Z).

(** Same hash as [snapshot1], other text. *)
Definition snapshot1' : Snapshot.t :=
  Snapshot.mk 3 1 "h1" (Some "other text") None (Some (JDict [("tiers", JList [])])) 300
              (Some 200%Z).

(** Two snapshots with structured metadata and hashes that differ. *)
Definition snapshot5 : Snapshot.t :=
  Snapshot.mk 5 1 "h5" (Some "tiers: A") None (Some (JDict [("tiers", JList [JStr "A"])])) 500
              (Some 200%Z).

Definition snapshot6 : Snapshot.t :=
  Snapshot.mk 6 1 "h6" (Some "tiers: A, B") None
              (Some (JDict [("tiers", JList [JStr "A"; JStr "B"])])) 600 (Some 200%Z).

(** The same capture as [snapshot5], taken again: same hash, same metadata. *)
Definition snapshot5' : Snapshot.t :=
  Snapshot.mk 7 1 "h5" (Some "tiers: A") None (Some (JDict [("tiers", JList [JStr "A"])])) 700
              (Some 200%Z).

(** A snapshot without extracted text. *)
Definition snapshot_no_text : Snapshot.t :=
  Snapshot.mk 4 1 "h4" None None None 400 (Some 200%Z).

Definition db0 : Db.t := Db.mk [acme] [pricing_page] [snapshot1; snapshot2] [] [].

(** A service that is down, and one that answers with text that is not JSON. *)
Definition service_down : SemanticDiff.t :=
  SemanticDiff.mk true (fun _ => Raise (Exception "timeout"))
                  (fun _ => Raise (Exception "timeout")).

Definition service_garbled : SemanticDiff.t :=
  SemanticDiff.mk true (fun _ => Ok "not json") (fun _ => Ok "not json").

Definition detector_no_llm : ChangeDetector.t := ChangeDetector.mk None false.

Definition detector_down : ChangeDetector.t := ChangeDetector.mk (Some service_down) true.

(** A classified high-priority change and a medium-priority one, neither
    sent yet. *)
Definition high_change : Change.t :=
  Change.mk 1 1 1 2 (Some "pricing") (Some "high")
            (Some "Plan A: $10/mo -> $15/mo.")
            (Some "Pricing moved up by half.")
            (Some "Plan A: $10/mo, 5 seats") (Some "Plan A: $15/mo, 5 seats")
            None (Some 250%Z) false None.

Definition medium_change : Change.t :=
  Change.mk 1 1 1 2 (Some "changelog") (Some "medium")
            (Some "Release notes gained an entry.")
            (Some "A new release was announced.")
            (Some "v1") (Some "v1, v2")
            None (Some 250%Z) false None.

Definition slack_up : AlertManager.t :=
  AlertManager.mk (Some (Slack.mk (fun _ => true))) true.

Definition world_high : AlertManager.world :=
  AlertManager.mk_world
    (Db.mk [acme] [pricing_page] [snapshot1; snapshot2] [high_change] []) [].

Definition world_medium : AlertManager.world :=
  AlertManager.mk_world
    (Db.mk [acme] [pricing_page] [snapshot1; snapshot2] [medium_change] []) [].

(** Evidence and classifications. *)
Definition evidence_small : ChangeData.t :=
  ChangeData.mk (Some "a") (Some "b") None None (Some 0.5%float).

Definition evidence_structured : ChangeData.t :=
  ChangeData.mk (Some "a") (Some "b") None
                (Some [("tier_changes", JList [JStr "Plan A"])]) (Some 0%float).

Definition analysis_low_other : SemanticAnalysis.t :=
  SemanticAnalysis.mk (Some "Footer reworded") (Some "other") None (Some "low") None [].

Definition change_unclassified : Change.t :=
  Change.mk 1 1 1 2 (Some "pricing") None
            (Some "Plan A: $10/mo -> $15/mo.")
            (Some "Pricing moved up by half.")
            (Some "Plan A: $10/mo, 5 seats") (Some "Plan A: $15/mo, 5 seats")
            None (Some 250%Z) false None.

Definition classification_medium : Classification.t :=
  Classification.mk (Some "medium") (Some "pricing")
                    (Some "Plan A: $10/mo -> $15/mo.")
                    (Some "Pricing moved up by half.")
                    (Some 0.9%float).

Definition classification_long : Classification.t :=
  Classification.mk (Some "high") (Some "pricing")
                    (Some "One. Two. Three. Four. Five")
                    (Some "Pricing moved up by half.")
                    (Some 0.9%float).

End Examples.

(** ** Reading a text up to its first separator

    [find_sep sep s] is what [s.partition(sep)] finds: the text before the
    first occurrence of [sep] and the text after it, or [None] when [sep]
    does not occur. The pieces of [split] are described through it. *)

Module StrFacts.

Fixpoint strip_prefix (p s : string) : option string :=
  match p with
  | EmptyString => Some s
  | String a p' =>
      match s with
      | EmptyString => None
      | String b s' =>
          match ascii_dec a b with
          | left _ => strip_prefix p' s'
          | right _ => None
          end
      end
  end.

Fixpoint find_sep (sep s : string) : option (string * string) :=
  match strip_prefix sep s with
  | Some rest => Some (EmptyString, rest)
  | None =>
      match s with
      | EmptyString => None
      | String c t =>
          match find_sep sep t with
          | Some (a, b) => Some (String c a, b)
          | None => None
          end
      end
  end.

End StrFacts.

(** ** What a pending change is

    The test [get_pending_alerts] applies to a row, all its filters taken
    together. *)

Module AlertFacts.

Definition is_pending (session : Db.t) (priority : option string) (since : option Z)
    (c : Change.t) : bool :=
  match Db.asset_by_id session (Change.asset_id c) with
  | Some _ => true
  | None => false
  end
  && (negb (Change.alert_sent c)
      && match Change.priority c with Some _ => true | None => false end)
  && (if truthy_str priority
      then AlertManager.is_priority (Change.priority c) (get_or "" priority)
      else true)
  && match since with
     | Some t =>
         match Change.detected_at c with
         | Some d => (t <=? d)%Z
         | None => false
         end
     | None => true
     end.

End AlertFacts.

(** ** Detection over all assets (src/diff/change_detector.py) *)

Module ChangeDetectorAll.
Section Loop.
Context `{Difflib} `{FloatBuiltins} `{StructuredComparators} `{JsonAnalysis}.

(** The loop of [detect_changes_for_all_assets] over the keys read at its
    start; [clock i] is the time at which the asset of key [i] is
    processed. An exception of one asset is logged and the loop goes on. *)
Fixpoint detect_each (self : ChangeDetector.t) (clock : Z -> Z) (db : Db.t)
    (asset_ids : list Z) : list Change.t * Db.t :=
  match asset_ids with
  | [] => ([], db)
  | asset_id :: rest =>
      match Db.asset_by_id db asset_id with
      | Some asset =>
          let '(r, db') :=
            ChangeDetector.detect_changes_for_asset self (clock asset_id) db asset in
          let changes :=
            match r with
            | Ok changes => changes
            | Raise _ => []
            end in
          let '(more, db'') := detect_each self clock db' rest in
          ((changes ++ more)%list, db'')
      | None => detect_each self clock db rest
      end
  end.

Definition detect_changes_for_all_assets (self : ChangeDetector.t) (clock : Z -> Z)
    (db : Db.t) : list Change.t * Db.t :=
  (* Get asset IDs first to avoid detached instance issues *)
  let asset_ids := map Asset.id (Db.assets db) in
  detect_each self clock db asset_ids.

End Loop.
End ChangeDetectorAll.

(** ** The keyword rules as they act

    [_rule_based_priority] matches its keywords against a text in lower
    case; these are the entries of [HIGH_PRIORITY_KEYWORDS] that can occur
    in one, and the rules with nothing but the keyword lists. *)

Module PriorityFacts.

Definition effective_high_keywords : list string :=
  ["pricing"; "price"; "tier"; "plan"; "free tier";
   "certification"; "compliance";
   "integration"; "launch"; "release"; "feature"].

Definition keyword_rules (text : string) : string :=
  if any_in PriorityAssigner.HIGH_PRIORITY_KEYWORDS text
     && negb (any_in PriorityAssigner.LOW_PRIORITY_KEYWORDS text)
  then "high"
  else if any_in PriorityAssigner.MEDIUM_PRIORITY_KEYWORDS text then "medium"
  else "low".

(** [max(0.0, min(1.0, confidence))] *)
Definition clamp (confidence : float) : float :=
  max_float 0 (min_float 1 confidence).

End PriorityFacts.

(** ** The classifier with its service (src/classifier/change_classifier.py)

    [json.loads] on an answer of the service, read as a classification (the
    fields the object has), and the prompt, which is text for the service
    alone. *)

Class ClassifierService : Type := {
  json_loads_classification : string -> result Classification.t;
  _build_classification_prompt :
    string -> string -> option string -> option string -> option string ->
    option jdict -> json -> float -> string
}.

Module ChangeClassifierLLM.

Record t : Type := mk {
  use_openai : bool;
  _call_openai : string -> result string;
  _call_anthropic : string -> result string
}.

Section Service.
Context `{FloatBuiltins} `{ClassifierService}.

Definition _parse_classification_response (response_text : string)
  : result Classification.t :=
  (* Remove markdown code blocks if present *)
  let response_text := SemanticDiff.strip_code_block response_text in
  result <- json_loads_classification response_text ;;
  (* Validate required fields *)
  Ok (Classification.mk
        (Some (get_or "medium" (Classification.priority result)))
        (Some (get_or "unknown" (Classification.change_type result)))
        (Some (get_or "unknown" (Classification.summary result)))
        (Some (get_or "unknown" (Classification.why_it_matters result)))
        (Some (get_or 0.5%float (Classification.confidence result)))).

(** [classify_change(change_data, asset_type, url, change_type, summary,
    why_it_matters)]; [text_diff] is [change_data.get('text_diff', {})],
    which only the prompt reads, given beside the record as the JSON value
    the caller stored there. *)
Definition classify_change (self : t) (change_data : ChangeData.t) (text_diff : json)
    (asset_type url : string) (change_type summary why_it_matters : option string)
  : result Classification.t :=
  (* Build context for classification *)
  let structured_diff := ChangeData.structured_diff change_data in
  let change_percentage :=
    get_or 0%float (ChangeData.content_change_percentage change_data) in
  (* Prepare prompt *)
  let prompt :=
    _build_classification_prompt asset_type url change_type summary why_it_matters
      structured_diff text_diff change_percentage in
  try_except
    (response <- (if use_openai self
                  then _call_openai self prompt
                  else _call_anthropic self prompt) ;;
     result <- _parse_classification_response response ;;
     (* Validate and refine result *)
     Ok (ChangeClassifier._validate_classification result change_data))
    (fun e =>
       (* Fallback to rule-based classification *)
       ChangeClassifier._rule_based_classification_static change_data asset_type
         change_type).

End Service.
End ChangeClassifierLLM.

(** ** The classifier manager (src/classifier/classifier_manager.py) *)

Module ClassifierManager.

Record t : Type := mk {
  classifier : option ChangeClassifierLLM.t;
  has_llm : bool;
  alert_manager : option AlertManager.t
}.

(** [x if isinstance(x, dict) else None] *)
Definition as_dict (x : option json) : option jdict :=
  match x with
  | Some (JDict d) => Some d
  | _ => None
  end.

(** The assignments of [classify_change] to the row it read again. *)
Definition classified (priority : string) (classification : Classification.t)
    (change : Change.t) : Change.t :=
  Change.mk (Change.id change) (Change.asset_id change)
    (Change.snapshot_before_id change) (Change.snapshot_after_id change)
    (match Classification.change_type classification with
     | Some x => Some x
     | None => Change.change_type change
     end)
    (Some priority)
    (match Classification.summary classification with
     | Some x => Some x
     | None => Change.summary change
     end)
    (match Classification.why_it_matters classification with
     | Some x => Some x
     | None => Change.why_it_matters change
     end)
    (Change.before_content change) (Change.after_content change)
    (Change.diff_metadata_json change) (Change.detected_at change)
    (Change.alert_sent change) (Change.alert_sent_at change).

(** The handler of [classify_change]: its log line reads [change.id] of
    what the name [change] is bound to when the exception arrives, then
    [False] is returned. *)
Definition handler (change : option (Orm.obj Change.t)) (w : AlertManager.world)
  : result bool * AlertManager.world :=
  match change with
  | None => (Raise (AttributeError "'NoneType' object has no attribute 'id'"), w)
  | Some change =>
      match Orm.get change Change.id with
      | Raise e => (Raise e, w)
      | Ok _ => (Ok false, w)
      end
  end.

Section Manager.
Context `{FloatBuiltins} `{ClassifierService}.

(** The change data [classify_change] puts together from the row. *)
Definition change_data_of (change : Change.t) : ChangeData.t :=
  ChangeData.mk (Change.before_content change) (Change.after_content change) None
    (as_dict (Change.diff_metadata_json change)) (Some 0%float).

Definition classify (self : t) (asset : Asset.t) (change : Change.t)
  : result Classification.t :=
  let change_data := change_data_of change in
  if has_llm self
  then
    match classifier self with
    | Some classifier =>
        ChangeClassifierLLM.classify_change classifier change_data
          (JDict (get_or [] (as_dict (Change.diff_metadata_json change))))
          (Asset.asset_type asset) (Asset.url asset)
          (Change.change_type change) (Change.summary change)
          (Change.why_it_matters change)
    | None =>
        Raise (AttributeError "'NoneType' object has no attribute 'classify_change'")
    end
  else
    (* Use rule-based classification (fallback when LLM unavailable) *)
    ChangeClassifier._rule_based_classification_static change_data
      (Asset.asset_type asset) (Change.change_type change).

(** What follows the update in [classify_change], the block of the update
    being left: [change] is the object of the row that was read again. *)
Definition after_update (self : t) (now : Z) (w : AlertManager.world)
    (change : Orm.obj Change.t) (priority : string) (should_alert : bool)
  : result bool * AlertManager.world :=
  if should_alert
  then
    match Orm.get change Change.id with
    | Raise e => (Raise e, w)
    | Ok _ =>
        (* Send immediate alert for high-priority changes *)
        if priority =? "high"
        then
          match alert_manager self with
          | Some am =>
              match AlertManager.send_immediate_alert am now w change with
              | (Ok _, w1) => (Ok should_alert, w1)
              | (Raise _, w1) =>
                  match Orm.get change Change.id with
                  | Raise e => (Raise e, w1)
                  | Ok _ => (Ok should_alert, w1)
                  end
              end
          | None => (Ok should_alert, w)
          end
        else (Ok should_alert, w)
    end
  else
    match Orm.get change Change.id with
    | Raise e => (Raise e, w)
    | Ok _ => (Ok should_alert, w)
    end.

(** [classify_change(change)] at time [now]: what it returns or raises, and
    the state it leaves. The first log line, before the [try], reads the
    change passed in. *)
Definition classify_change (self : t) (now : Z) (w : AlertManager.world)
    (change : Orm.obj Change.t) : result bool * AlertManager.world :=
  match Orm.read change with
  | Raise e => (Raise e, w)
  | Ok row =>
      (* Get asset for context *)
      match Db.asset_by_id (AlertManager.db w) (Change.asset_id row) with
      | None => (Ok false, w)
      | Some asset =>
          match classify self asset row with
          | Raise _ => handler (Some change) w
          | Ok classification =>
              (* Assign priority *)
              let priority := PriorityAssigner.assign_priority row classification in
              (* Check if should alert *)
              let should_alert :=
                PriorityAssigner.should_alert row classification
                  (Asset.priority_threshold asset) in
              (* Update change record *)
              match Db.change_by_id (AlertManager.db w) (Change.id row) with
              | None => handler None w
              | Some stored =>
                  let w1 :=
                    AlertManager.mk_world
                      (Db.update_change (AlertManager.db w) (Change.id row)
                         (classified priority classification))
                      (AlertManager.posted w) in
                  (* the block of the update is left *)
                  let change := Orm.expired (classified priority classification stored) in
                  match after_update self now w1 change priority should_alert with
                  | (Raise _, w2) => handler (Some change) w2
                  | (Ok alert, w2) => (Ok alert, w2)
                  end
              end
          end
      end
  end.

(** The loop of [classify_pending_changes] over the objects it holds: an
    exception of one change goes to the handler of the loop, whose log line
    reads [change.id]. *)
Fixpoint classify_each (self : t) (now : Z) (w : AlertManager.world)
    (pending_changes : list (Orm.obj Change.t))
  : result (list (Orm.obj Change.t)) * AlertManager.world :=
  match pending_changes with
  | [] => (Ok [], w)
  | change :: rest =>
      match classify_change self now w change with
      | (Ok alert, w1) =>
          match classify_each self now w1 rest with
          | (Ok changes_to_alert, w2) =>
              (Ok (if alert then change :: changes_to_alert else changes_to_alert), w2)
          | (Raise e, w2) => (Raise e, w2)
          end
      | (Raise _, w1) =>
          match Orm.get change Change.id with
          | Raise e => (Raise e, w1)
          | Ok _ => classify_each self now w1 rest
          end
      end
  end.

(** A row that waits for its classification: no priority, not sent. *)
Definition unclassified (c : Change.t) : bool :=
  match Change.priority c with None => true | Some _ => false end
  && negb (Change.alert_sent c).

(** [classify_pending_changes()]: the rows are read in a block of their
    own, which is left before the loop. *)
Definition classify_pending_changes (self : t) (now : Z) (w : AlertManager.world)
  : result (list (Orm.obj Change.t)) * AlertManager.world :=
  let pending_changes :=
    map Orm.expired
      (filter (fun c => negb (Change.alert_sent c))
         (filter (fun c => match Change.priority c with None => true | Some _ => false end)
            (Db.changes (AlertManager.db w)))) in
  classify_each self now w pending_changes.

(** [reclassify_change(change_id)]: the row is read in a block of its own,
    which is left before [classify_change] is called. *)
Definition reclassify_change (self : t) (now : Z) (w : AlertManager.world)
    (change_id : Z) : result bool * AlertManager.world :=
  match Db.change_by_id (AlertManager.db w) change_id with
  | None => (Ok false, w)
  | Some change => classify_change self now w (Orm.expired change)
  end.

End Manager.
End ClassifierManager.

(** ** The payload of a digest (src/alerting/slack_integration.py)

    The blocks of a Slack message, as far as the digest builds them: a
    header (plain text), a section (markdown text) and a divider. *)

Module SlackFormat.

Inductive block : Type :=
| Header (text : string)
| Section (text : string)
| Divider.

Record payload : Type := mk_payload {
  text : string;
  blocks : list block
}.

(** [{'high': ..., 'medium': ..., 'low': ...}.get(priority.lower(), ...)] *)
Definition priority_emoji (priority : string) : string :=
  let p := lower priority in
  if p =? "high" then "🔴"
  else if p =? "medium" then "🟡"
  else if p =? "low" then "🟢"
  else "⚪".

(** [by_company[company].append(alert)], with a new key put last: a dict
    keeps its keys in the order of their first insertion. *)
Fixpoint add_to_company (company : string) (alert : Slack.alert)
    (by_company : list (string * list Slack.alert)) : list (string * list Slack.alert) :=
  match by_company with
  | [] => [(company, [alert])]
  | (c, company_alerts) :: rest =>
      if c =? company
      then (c, (company_alerts ++ [alert])%list) :: rest
      else (c, company_alerts) :: add_to_company company alert rest
  end.

(** Group by company *)
Definition group_by_company (alerts : list Slack.alert)
  : list (string * list Slack.alert) :=
  fold_left (fun by_company alert => add_to_company (Slack.company alert) alert by_company)
            alerts [].

Definition alert_block (alert : Slack.alert) : block :=
  Section (priority_emoji (Slack.priority alert) ++ " *" ++ Slack.change_type alert
             ++ "*: " ++ Slack.summary alert ++ nl
             ++ "<" ++ Slack.url alert ++ "|View changes>").

Definition company_blocks (entry : string * list Slack.alert) : list block :=
  let '(company, company_alerts) := entry in
  (Section ("*" ++ company ++ "* ("
              ++ str_int (Z.of_nat (List.length company_alerts)) ++ " change(s))")
     :: map alert_block company_alerts ++ [Divider])%list.

Definition format_digest (alerts : list Slack.alert) (title : string)
    (priority : option string) : option payload :=
  match alerts with
  | [] => None
  | _ =>
      (* Build digest blocks *)
      let blocks :=
        [Header ("📊 " ++ title);
         Section ("*" ++ str_int (Z.of_nat (List.length alerts)) ++ " change(s) detected*");
         Divider] in
      (* Add sections for each company *)
      let blocks := (blocks ++ flat_map company_blocks (group_by_company alerts))%list in
      Some (mk_payload
              (title ++ ": " ++ str_int (Z.of_nat (List.length alerts)) ++ " changes")
              blocks)
  end.

End SlackFormat.

(** The values of a list in the order in which they first appear, each
    one once: the order of the keys of a dict filled by a loop over the
    list. *)
Module DigestFacts.

Fixpoint first_appearances (l : list string) : list string :=
  match l with
  | [] => []
  | x :: rest => x :: filter (fun y => negb (y =? x)) (first_appearances rest)
  end.

End DigestFacts.

(** ** The configuration (src/config/loader.py)

    The configuration as [validate_competitor_config] admits it, with the
    keys the scheduler reads: a competitor has a name, a base url and
    assets; an asset has a type, a url (which may be null), a crawl
    frequency and, if stated, a priority threshold. *)

Module Config.

Record asset : Type := mk_asset {
  type : string;
  url : option string;
  crawl_frequency : string;
  priority_threshold : option string
}.

Record competitor : Type := mk_competitor {
  name : string;
  base_url : string;
  assets : list asset
}.

(** [config['competitors']] *)
Definition t : Type := list competitor.

(** An asset with [competitor_name] and [competitor_base_url] added. *)
Record asset_with_competitor : Type := mk_asset_with_competitor {
  the_asset : asset;
  competitor_name : string;
  competitor_base_url : string
}.

Definition get_all_assets (config : t) : list asset_with_competitor :=
  flat_map
    (fun competitor =>
       map (fun asset =>
              mk_asset_with_competitor asset (name competitor) (base_url competitor))
           (assets competitor))
    config.

End Config.

(** ** The crawl scheduler (src/crawler/scheduler.py): what is due, and the
       rows of the configuration *)

Module CrawlScheduler.

(** [session.query(Snapshot).filter(Snapshot.asset_id == asset_id)
      .order_by(Snapshot.crawl_timestamp.desc()).first()] *)
Definition _get_last_snapshot (session : Db.t) (asset_id : Z) : option Snapshot.t :=
  hd_error
    (ChangeDetector.order_by_crawl_timestamp_desc
       (filter (fun s => (Snapshot.asset_id s =? asset_id)%Z) (Db.snapshots session))).

(** [timedelta(weeks=1)] *)
Definition week : Z := 7 * AlertManager.day.

(** [_is_crawl_due(asset, session)] at time [now] *)
Definition _is_crawl_due (session : Db.t) (now : Z) (asset : Asset.t) : bool :=
  match _get_last_snapshot session (Asset.id asset) with
  | None =>
      (* No previous snapshot, crawl is due *)
      true
  | Some last_snapshot =>
      (* Calculate time since last crawl *)
      let time_since_last := (now - Snapshot.crawl_timestamp last_snapshot)%Z in
      (* Check frequency *)
      if Asset.crawl_frequency asset =? "daily"
      then (1 * AlertManager.day <=? time_since_last)%Z
      else if Asset.crawl_frequency asset =? "weekly"
      then (week <=? time_since_last)%Z
      else
        (* Unknown frequency, default to daily *)
        (1 * AlertManager.day <=? time_since_last)%Z
  end.

Definition add_competitor (db : Db.t) (c : Competitor.t) : Db.t :=
  Db.mk (Db.competitors db ++ [c]) (Db.assets db) (Db.snapshots db) (Db.changes db)
        (Db.alerts db).

Definition add_asset (db : Db.t) (a : Asset.t) : Db.t :=
  Db.mk (Db.competitors db) (Db.assets db ++ [a]) (Db.snapshots db) (Db.changes db)
        (Db.alerts db).

(** Rewrite the rows of [assets] whose id is [i]. *)
Definition update_asset (db : Db.t) (i : Z) (f : Asset.t -> Asset.t) : Db.t :=
  Db.mk (Db.competitors db)
        (map (fun a => if (Asset.id a =? i)%Z then f a else a) (Db.assets db))
        (Db.snapshots db) (Db.changes db) (Db.alerts db).

Definition _get_or_create_competitor (now : Z) (session : Db.t)
    (competitor_name base_url : string) : Competitor.t * Db.t :=
  match find (fun c => Competitor.name c =? competitor_name) (Db.competitors session) with
  | Some competitor => (competitor, session)
  | None =>
      let competitor :=
        Competitor.mk (Db.next_id (map Competitor.id (Db.competitors session)))
                      competitor_name base_url (Some now) in
      (competitor, add_competitor session competitor)
  end.

(** The assignments of [_get_or_create_asset] to a row that exists. *)
Definition configured (asset_config : Config.asset) (asset : Asset.t) : Asset.t :=
  Asset.mk (Asset.id asset) (Asset.competitor_id asset)
           (Config.type asset_config) (Asset.url asset)
           (Config.crawl_frequency asset_config)
           (Config.priority_threshold asset_config)
           (Asset.created_at asset).

Definition _get_or_create_asset (now : Z) (session : Db.t) (competitor : Competitor.t)
    (asset_config : Config.asset) : option Asset.t * Db.t :=
  (* Skip assets with null or missing URLs *)
  if negb (truthy_str (Config.url asset_config)) then (None, session)
  else
    let url := get_or "" (Config.url asset_config) in
    match find (fun a => (Asset.competitor_id a =? Competitor.id competitor)%Z
                         && (Asset.url a =? url))
               (Db.assets session) with
    | None =>
        let asset :=
          Asset.mk (Db.next_id (map Asset.id (Db.assets session)))
                   (Competitor.id competitor)
                   (Config.type asset_config) url
                   (Config.crawl_frequency asset_config)
                   (Config.priority_threshold asset_config)
                   (Some now) in
        (Some asset, add_asset session asset)
    | Some asset =>
        (* Update asset configuration if it changed *)
        (Some (configured asset_config asset),
         update_asset session (Asset.id asset) (configured asset_config))
    end.

(** One turn of the loop of [_sync_assets_from_config]. *)
Definition sync_asset (now : Z) (session : Db.t)
    (asset_config : Config.asset_with_competitor) : Db.t :=
  let competitor_name := Config.competitor_name asset_config in
  let base_url := Config.competitor_base_url asset_config in
  (* Get or create competitor *)
  let '(competitor, session) :=
    _get_or_create_competitor now session competitor_name base_url in
  (* Get or create asset (skip if None returned) *)
  snd (_get_or_create_asset now session competitor (Config.the_asset asset_config)).

Definition _sync_assets_from_config (config : Config.t) (now : Z) (session : Db.t) : Db.t :=
  let all_assets_config := Config.get_all_assets config in
  fold_left (sync_asset now) all_assets_config session.

End CrawlScheduler.

(** ** Keys of the configured rows

    The constraints of the schema on competitors and assets (primary keys,
    unique names, one asset per competitor and url), and what it is for a
    database to hold the rows of another, with their keys, and more. *)

Module SyncFacts.

Definition asset_key (a : Asset.t) : Z * string := (Asset.competitor_id a, Asset.url a).

Definition well_keyed (db : Db.t) : Prop :=
  NoDup (map Competitor.id (Db.competitors db))
  /\ NoDup (map Competitor.name (Db.competitors db))
  /\ NoDup (map Asset.id (Db.assets db))
  /\ NoDup (map asset_key (Db.assets db)).

Definition extends (db db' : Db.t) : Prop :=
  (exists new, Db.competitors db' = (Db.competitors db ++ new)%list)
  /\ (exists new, map Asset.id (Db.assets db') = (map Asset.id (Db.assets db) ++ new)%list)
  /\ (exists new, map asset_key (Db.assets db') = (map asset_key (Db.assets db) ++ new)%list)
  /\ (exists new, map Asset.created_at (Db.assets db')
                  = (map Asset.created_at (Db.assets db) ++ new)%list)
  /\ Db.snapshots db' = Db.snapshots db
  /\ Db.changes db' = Db.changes db
  /\ Db.alerts db' = Db.alerts db.

(** The rows of a configured asset are there: its competitor by name, and,
    when the asset has a url, its row under that competitor. *)
Definition synced (db : Db.t) (asset_config : Config.asset_with_competitor) : Prop :=
  exists competitor,
    find (fun c => Competitor.name c =? Config.competitor_name asset_config)
         (Db.competitors db) = Some competitor
    /\ (truthy_str (Config.url (Config.the_asset asset_config)) = true ->
        exists asset,
          find (fun a => (Asset.competitor_id a =? Competitor.id competitor)%Z
                         && (Asset.url a
                             =? get_or "" (Config.url (Config.the_asset asset_config))))
               (Db.assets db) = Some asset).

End SyncFacts.

(** ** More data to run the model on *)

Module Fixtures.

(** A high-priority change that is marked as sent, and the object of its
    row while a session holds it. *)
Definition sent_change : Change.t := Change.mark_sent 260 Examples.high_change.

Definition world_sent : AlertManager.world :=
  AlertManager.mk_world
    (Db.mk [Examples.acme] [Examples.pricing_page]
           [Examples.snapshot1; Examples.snapshot2] [sent_change]
           [Alert.mk 1 1 "high" None (Some 260%Z) (Some "immediate")])
    [].

(** Two captures of the same content: the hashes agree. *)
Definition db_same_hash : Db.t :=
  Db.mk [Examples.acme] [Examples.pricing_page]
        [Examples.snapshot1; Examples.snapshot1'] [] [].

(** Texts longer than the prompt shows, which differ in their last
    character only. *)
Fixpoint repeat_char (c : ascii) (n : nat) : string :=
  match n with
  | O => EmptyString
  | S k => String c (repeat_char c k)
  end.

Definition long_text (last : string) : string := repeat_char "a" 5000 ++ last.

(** A service for the classifier that knows one answer, and the prompt as
    the url of the asset. *)
Definition classifier_service : ClassifierService := {|
  json_loads_classification s :=
    if s =? "{}" then Ok (Classification.mk None None None None None)
    else Raise (JSONDecodeError "Expecting value");
  _build_classification_prompt _ url _ _ _ _ _ _ := url
|}.

(** A manager without a service for the classifier, which alerts through
    [Examples.slack_up]. *)
Definition manager_rules : ClassifierManager.t :=
  ClassifierManager.mk None false (Some Examples.slack_up).

(** A change that waits for its classification. *)
Definition world_unclassified : AlertManager.world :=
  AlertManager.mk_world
    (Db.mk [Examples.acme] [Examples.pricing_page]
           [Examples.snapshot1; Examples.snapshot2] [Examples.change_unclassified] [])
    [].

(** What the rules make of that change. *)
Definition change_classified : Change.t :=
  Change.mk 1 1 1 2 (Some "pricing") (Some "high")
            (Some "Change detected on pricing page (0.0% change)")
            (Some "Monitor pricing changes for competitive intelligence")
            (Some "Plan A: $10/mo, 5 seats") (Some "Plan A: $15/mo, 5 seats")
            None (Some 250%Z) false None.

(** An alert of a digest, of a company and with a summary. *)
Definition digest_alert (company summary : string) : Slack.alert :=
  Slack.mk_alert company "medium" "pricing" "pricing" summary "" "https://acme.test/pricing"
    None.

End Fixtures.

(** * Properties *)

(** ** Facts about the built-ins *)

Lemma str_in_3 (x a b c : string) :
  str_in x [a; b; c] = (x =? a) || (x =? b) || (x =? c).
Proof.
  unfold str_in; simpl. rewrite orb_false_r, orb_assoc. reflexivity.
Qed.

Lemma str_in_2 (x a b : string) :
  str_in x [a; b] = (x =? a) || (x =? b).
Proof.
  unfold str_in; simpl. rewrite orb_false_r. reflexivity.
Qed.

(** The built-ins on the texts they are used on. *)
Example split_sentences :
  split ". " "A. B. C. D." = ["A"; "B"; "C"; "D."]
  /\ split ". " "" = [""]
  /\ split ". " "A. " = ["A"; ""]
  /\ split ". " "A.. B" = ["A."; "B"]
  /\ split nl ("a" ++ nl ++ "b" ++ nl) = ["a"; "b"; ""].
Proof. repeat split; reflexivity. Qed.

Example text_builtins :
  lower "SOC 2 and HiPAA" = "soc 2 and hipaa"
  /\ strip ("  a b " ++ nl) = "a b"
  /\ contains "tier" "free tier added" = true
  /\ contains "" "x" = true
  /\ endswith "Three." "." = true
  /\ endswith "Three" "." = false
  /\ join ". " ["A"; "B"; "C"] = "A. B. C"
  /\ slice_to 3 "abcdef" = "abc"
  /\ slice_from 2 "+ added" = "added".
Proof. repeat split; reflexivity. Qed.

(** ** The diff engine *)

(** The comparison is really reached when the hashes differ: with
    comparators that fail, the comparison fails. *)
Example compare_snapshots_reaches_the_comparators :
  @DiffEngine.compare_snapshots Examples.difflib Examples.float_builtins
    Examples.failing_comparators Examples.db0 Examples.snapshot5 Examples.snapshot6
  = Raise (Exception "pricing").
Proof. vm_compute. reflexivity. Qed.

(** C3. When the two snapshots have the same content hash, or when either
    of them has no extracted text ([None] or the empty text),
    [compare_snapshots] returns [None]; it does so whatever difflib and the
    structured comparators are, also when they would fail: no diff is
    computed. *)
Theorem compare_snapshots_absent :
  forall `{Difflib} `{FloatBuiltins} `{StructuredComparators}
         (db : Db.t) (snapshot_before snapshot_after : Snapshot.t),
    Snapshot.content_hash snapshot_before = Snapshot.content_hash snapshot_after
    \/ truthy_str (Snapshot.content_text snapshot_before) = false
    \/ truthy_str (Snapshot.content_text snapshot_after) = false ->
    DiffEngine.compare_snapshots db snapshot_before snapshot_after = Ok None.
Proof.
  intros D F C db b a Hcase.
  unfold DiffEngine.compare_snapshots.
  destruct (Snapshot.content_hash b =? Snapshot.content_hash a) eqn:Hhash;
    [reflexivity|].
  destruct Hcase as [Heq | [Hb | Ha]].
  - apply String.eqb_neq in Hhash. contradiction.
  - rewrite Hb. reflexivity.
  - rewrite Ha, orb_true_r. reflexivity.
Qed.

Lemma compare_snapshots_absent_witness :
  @DiffEngine.compare_snapshots Examples.difflib Examples.float_builtins
    Examples.failing_comparators Examples.db0 Examples.snapshot5 Examples.snapshot5'
  = Ok None
  /\ @DiffEngine.compare_snapshots Examples.difflib Examples.float_builtins
       Examples.failing_comparators Examples.db0 Examples.snapshot_no_text Examples.snapshot6
     = Ok None.
Proof.
  split.
  - apply (@compare_snapshots_absent Examples.difflib Examples.float_builtins
             Examples.failing_comparators).
    left. reflexivity.
  - apply (@compare_snapshots_absent Examples.difflib Examples.float_builtins
             Examples.failing_comparators).
    right. left. reflexivity.
Defined.

(** C4. [is_significant_change] is true exactly when the structured diff is
    present and not empty, or the change percentage is at least the
    threshold, or more than 10 lines were added and removed together; a
    structured diff that is not empty forces true whatever the percentage. *)
Theorem is_significant_change_iff :
  forall (change_data : ChangeData.t) (threshold : float),
    let change_percentage :=
      get_or 0%float (ChangeData.content_change_percentage change_data) in
    let text_diff := get_or TextDiff.empty (ChangeData.text_diff change_data) in
    let added := get_or 0%Z (TextDiff.added_count text_diff) in
    let removed := get_or 0%Z (TextDiff.removed_count text_diff) in
    (DiffEngine.is_significant_change change_data threshold = true <->
       truthy_dict (ChangeData.structured_diff change_data) = true
       \/ (threshold <=? change_percentage)%float = true
       \/ (10 < added + removed)%Z)
    /\ (truthy_dict (ChangeData.structured_diff change_data) = true ->
        DiffEngine.is_significant_change change_data threshold = true).
Proof.
  intros cd threshold pct td added removed.
  unfold DiffEngine.is_significant_change.
  fold pct. fold td. fold added. fold removed.
  destruct (truthy_dict (ChangeData.structured_diff cd)) eqn:Hsd.
  - split; [split; auto | reflexivity].
  - destruct (threshold <=? pct)%float eqn:Hpct.
    + split; [split; auto | discriminate].
    + destruct (10 <? added + removed)%Z eqn:Hlines.
      * apply Z.ltb_lt in Hlines. split; [split; auto | discriminate].
      * apply Z.ltb_ge in Hlines.
        split; [split | discriminate].
        -- discriminate.
        -- intros [Hf | [Hf | Hf]]; try discriminate. lia.
Qed.

(** A structured diff with one tier change and 0 percent of text change. *)
Lemma is_significant_change_iff_witness :
  DiffEngine.is_significant_change Examples.evidence_structured
    DiffEngine.default_threshold = true.
Proof.
  apply (proj2 (is_significant_change_iff Examples.evidence_structured
                  DiffEngine.default_threshold)).
  reflexivity.
Defined.

(** ** The noise filter *)

(** C8. [filter_noise] is true exactly when the semantic result calls the
    significance low and the change percentage is below 2.0, or calls the
    change type other and the change percentage is below 1.0. The two
    fields are read in lower case; a missing significance counts as medium,
    a missing change type as none. With significance low, type other and
    0.5 percent the change is filtered. *)
Theorem filter_noise_iff :
  forall (change_data : ChangeData.t) (semantic_analysis : SemanticAnalysis.t),
    let significance :=
      lower (get_or "medium" (SemanticAnalysis.significance semantic_analysis)) in
    let change_type :=
      lower (get_or "" (SemanticAnalysis.change_type semantic_analysis)) in
    let change_percentage :=
      get_or 0%float (ChangeData.content_change_percentage change_data) in
    (SemanticDiff.filter_noise change_data semantic_analysis = true <->
       (significance = "low" /\ (change_percentage <? 2)%float = true)
       \/ (change_type = "other" /\ (change_percentage <? 1)%float = true))
    /\ SemanticDiff.filter_noise Examples.evidence_small Examples.analysis_low_other = true.
Proof.
  intros cd sa significance change_type pct.
  split; [|reflexivity].
  unfold SemanticDiff.filter_noise.
  fold significance. fold change_type. fold pct.
  destruct (String.eqb_spec significance "low") as [Hs | Hs];
    destruct (pct <? 2)%float eqn:H2;
    destruct (String.eqb_spec change_type "other") as [Hc | Hc];
    destruct (pct <? 1)%float eqn:H1;
    simpl; split; intro Hx; try reflexivity; try discriminate; auto;
    destruct Hx as [[Ha Hb] | [Ha Hb]]; try discriminate; contradiction.
Qed.

(** ** Priority assignment and the quality gate *)

Lemma level_of_ordinal (k : string) : PriorityAssigner.level_of k = Spec.ordinal k.
Proof.
  unfold PriorityAssigner.level_of, PriorityAssigner.priority_levels, Spec.ordinal.
  cbn [find fst snd].
  rewrite (String.eqb_sym "high" k), (String.eqb_sym "medium" k),
    (String.eqb_sym "low" k).
  destruct (k =? "high"); [reflexivity|].
  destruct (k =? "medium"); [reflexivity|].
  destruct (k =? "low"); reflexivity.
Qed.

Lemma _rule_based_priority_keyword (change : Change.t) (classification : Classification.t) :
  PriorityAssigner._rule_based_priority change classification
  = Spec.keyword_priority
      (PriorityAssigner.combined_text change classification)
      (PriorityAssigner.field_lower (Classification.change_type classification)
                                    (Change.change_type change)).
Proof.
  unfold PriorityAssigner._rule_based_priority, Spec.keyword_priority,
    Spec.default_by_type.
  rewrite str_in_2, str_in_2.
  destruct (any_in PriorityAssigner.HIGH_PRIORITY_KEYWORDS _);
    destruct (any_in PriorityAssigner.MEDIUM_PRIORITY_KEYWORDS _);
    destruct (any_in PriorityAssigner.LOW_PRIORITY_KEYWORDS _);
    reflexivity.
Qed.

(** Every priority the keyword rules give is one of the three tiers. *)
Lemma keyword_priority_tier (text change_type : string) :
  str_in (Spec.keyword_priority text change_type) ["high"; "medium"; "low"] = true.
Proof.
  unfold Spec.keyword_priority, Spec.default_by_type.
  destruct (any_in PriorityAssigner.HIGH_PRIORITY_KEYWORDS text);
    destruct (any_in PriorityAssigner.MEDIUM_PRIORITY_KEYWORDS text);
    destruct (any_in PriorityAssigner.LOW_PRIORITY_KEYWORDS text);
    try reflexivity;
    destruct ((change_type =? "pricing") || (change_type =? "compliance"));
    try reflexivity;
    destruct ((change_type =? "changelog") || (change_type =? "news"));
    reflexivity.
Qed.

Lemma lower_ascii_not_upper (c x : ascii) :
  (65 <=? nat_of_ascii c)%nat && (nat_of_ascii c <=? 90)%nat = true ->
  lower_ascii x <> c.
Proof.
  intros Hc Heq. subst c. revert Hc.
  destruct x as [[] [] [] [] [] [] [] []]; vm_compute; discriminate.
Qed.

(** A keyword that begins with a capital letter occurs in no lower-cased
    text: SOC, ISO, GDPR and HIPAA never count. *)
Lemma capital_keyword_never_matches (c : ascii) (k text : string) :
  (65 <=? nat_of_ascii c)%nat && (nat_of_ascii c <=? 90)%nat = true ->
  contains (String c k) (lower text) = false.
Proof.
  intro Hc. induction text as [|x text IH]; [reflexivity|].
  simpl lower. cbn [contains prefix].
  destruct (ascii_dec c (lower_ascii x)) as [Heq | Hne].
  - exfalso. apply (lower_ascii_not_upper c x Hc). symmetry. exact Heq.
  - simpl. exact IH.
Qed.

Lemma lower_app (a b : string) : lower (a ++ b) = lower a ++ lower b.
Proof. induction a as [|c a IH]; simpl; [reflexivity | rewrite IH; reflexivity]. Qed.

Lemma lower_idem (s : string) : lower (lower s) = lower s.
Proof.
  induction s as [|c s IH]; simpl; [reflexivity|]. rewrite IH. f_equal.
  destruct c as [[] [] [] [] [] [] [] []]; reflexivity.
Qed.

Remark capital_keywords_are_dead (change : Change.t) (classification : Classification.t) :
  let text := PriorityAssigner.combined_text change classification in
  contains "SOC" text = false /\ contains "ISO" text = false
  /\ contains "GDPR" text = false /\ contains "HIPAA" text = false.
Proof.
  intro text.
  assert (Hlow : text = lower text).
  { unfold text, PriorityAssigner.combined_text, PriorityAssigner.field_lower.
    rewrite !lower_app, !lower_idem. reflexivity. }
  rewrite Hlow.
  repeat split; apply capital_keyword_never_matches; reflexivity.
Qed.

(** C6. [assign_priority] returns the priority the classification states
    (read in lower case, medium when none is stated) when the confidence is
    at least 0.7 and that priority is high, medium or low; in every other
    case it is the keyword rule on the text made of change type, summary and
    rationale, each in lower case and joined by spaces: high when a
    high-priority keyword occurs and no low-priority one, else medium when a
    medium-priority keyword occurs, else low when a low-priority keyword
    occurs, else the default of the change type. *)
Theorem assign_priority_selection :
  forall (change : Change.t) (classification : Classification.t),
    let confidence := get_or 0%float (Classification.confidence classification) in
    let stated := lower (get_or "medium" (Classification.priority classification)) in
    let change_type :=
      lower (or_lit (or_str (Classification.change_type classification)
                            (Change.change_type change)) "") in
    let summary :=
      lower (or_lit (or_str (Classification.summary classification)
                            (Change.summary change)) "") in
    let why_it_matters :=
      lower (or_lit (or_str (Classification.why_it_matters classification)
                            (Change.why_it_matters change)) "") in
    let text := change_type ++ " " ++ summary ++ " " ++ why_it_matters in
    let high := any_in PriorityAssigner.HIGH_PRIORITY_KEYWORDS text in
    let medium := any_in PriorityAssigner.MEDIUM_PRIORITY_KEYWORDS text in
    let low := any_in PriorityAssigner.LOW_PRIORITY_KEYWORDS text in
    let trusted :=
      (0.7 <=? confidence)%float && str_in stated ["high"; "medium"; "low"] in
    let result := PriorityAssigner.assign_priority change classification in
    (trusted = true -> result = stated)
    /\ (trusted = false ->
        result = Spec.keyword_priority text change_type
        /\ (high = true -> low = false -> result = "high")
        /\ (~ (high = true /\ low = false) -> medium = true -> result = "medium")
        /\ (~ (high = true /\ low = false) -> medium = false -> low = true ->
            result = "low")
        /\ (high = false -> medium = false -> low = false ->
            result = Spec.default_by_type change_type))
    /\ str_in result ["high"; "medium"; "low"] = true.
Proof.
  intros change classification confidence stated change_type summary why_it_matters
    text high medium low trusted result.
  assert (Hrule : PriorityAssigner._rule_based_priority change classification
                  = Spec.keyword_priority text change_type)
    by apply _rule_based_priority_keyword.
  assert (Hres : result = if trusted then stated
                          else Spec.keyword_priority text change_type).
  { unfold result, PriorityAssigner.assign_priority.
    rewrite Hrule. fold confidence. fold stated. unfold trusted.
    destruct (0.7 <=? confidence)%float; simpl; [|reflexivity].
    destruct (str_in stated ["high"; "medium"; "low"]); reflexivity. }
  split; [|split].
  - intro Ht. rewrite Hres, Ht. reflexivity.
  - intro Ht. rewrite Hres, Ht.
    unfold Spec.keyword_priority. fold high. fold medium. fold low.
    split; [reflexivity|].
    destruct high, medium, low; repeat split; intros;
      try reflexivity; try discriminate; tauto.
  - rewrite Hres. destruct trusted eqn:Ht.
    + unfold trusted in Ht. apply andb_true_iff in Ht. apply Ht.
    + apply keyword_priority_tier.
Qed.

(** Confidence 0.9 and stated priority medium: the stated priority is kept,
    though the text holds the high-priority keyword pricing. *)
Lemma assign_priority_selection_witness :
  PriorityAssigner.assign_priority Examples.change_unclassified
    Examples.classification_medium = "medium"
  /\ PriorityAssigner._rule_based_priority Examples.change_unclassified
       Examples.classification_medium = "high".
Proof.
  split.
  - apply (proj1 (assign_priority_selection Examples.change_unclassified
                    Examples.classification_medium)).
    vm_compute. reflexivity.
  - vm_compute. reflexivity.
Defined.

(** C5. For a change that passes the quality gate and a threshold that is
    set, [should_alert] is false exactly when the ordinal of the assigned
    priority is below the ordinal of the threshold (read in lower case),
    with high=3, medium=2, low=1 and any other threshold counted as
    medium=2. *)
Theorem should_alert_threshold_gate :
  forall `{FloatBuiltins} (change : Change.t) (classification : Classification.t)
         (priority_threshold : option string),
    fst (PriorityAssigner.validate_quality change classification) = true ->
    truthy_str priority_threshold = true ->
    let P := PriorityAssigner.assign_priority change classification in
    let T := lower (get_or "" priority_threshold) in
    (PriorityAssigner.should_alert change classification priority_threshold = false
     <-> (Spec.ordinal P < Spec.ordinal T)%Z)
    /\ Spec.ordinal "high" = 3%Z /\ Spec.ordinal "medium" = 2%Z
    /\ Spec.ordinal "low" = 1%Z
    /\ (T <> "high" -> T <> "medium" -> T <> "low" -> Spec.ordinal T = 2%Z).
Proof.
  intros F change classification priority_threshold Hvalid Hset P T.
  split; [|repeat split].
  - unfold PriorityAssigner.should_alert.
    destruct (PriorityAssigner.validate_quality change classification)
      as [is_valid error].
    simpl in Hvalid. subst is_valid. simpl.
    rewrite Hset. fold P. fold T.
    rewrite !level_of_ordinal.
    destruct (Spec.ordinal P <? Spec.ordinal T)%Z eqn:Hlt.
    + apply Z.ltb_lt in Hlt. split; auto.
    + apply Z.ltb_ge in Hlt. split; [discriminate | lia].
  - intros Hh Hm Hl. unfold Spec.ordinal.
    apply String.eqb_neq in Hh, Hm, Hl. rewrite Hh, Hm, Hl. reflexivity.
Qed.

(** Confidence 0.9, stated priority medium, threshold high: suppressed. *)
Lemma should_alert_threshold_gate_witness :
  (@PriorityAssigner.should_alert Examples.float_builtins
     Examples.change_unclassified Examples.classification_medium (Some "high") = false
   <-> (Spec.ordinal (PriorityAssigner.assign_priority
                        Examples.change_unclassified Examples.classification_medium)
        < Spec.ordinal (lower "high"))%Z)
  /\ (Spec.ordinal "medium" < Spec.ordinal "high")%Z.
Proof.
  split.
  - apply (@should_alert_threshold_gate Examples.float_builtins
             Examples.change_unclassified Examples.classification_medium (Some "high")).
    + vm_compute. reflexivity.
    + reflexivity.
  - reflexivity.
Defined.

(** Without a threshold (none, or the empty text) nothing is gated: the
    verdict of [should_alert] is the verdict of the quality gate. *)
Lemma should_alert_without_threshold `{FloatBuiltins} (change : Change.t)
    (classification : Classification.t) (priority_threshold : option string) :
  truthy_str priority_threshold = false ->
  PriorityAssigner.should_alert change classification priority_threshold
  = fst (PriorityAssigner.validate_quality change classification).
Proof.
  intro Hnone. unfold PriorityAssigner.should_alert.
  destruct (PriorityAssigner.validate_quality change classification) as [[] error];
    simpl; [rewrite Hnone|]; reflexivity.
Qed.

(** ** The rule-based fallback classification *)

Lemma _rule_based_classification_confidence :
  forall `{FloatBuiltins} (change_data : ChangeData.t) (asset_type : string)
         (change_type : option string) (classification : Classification.t),
    ChangeClassifier._rule_based_classification_static change_data asset_type change_type
    = Ok classification ->
    Classification.confidence classification = Some 0.6%float.
Proof.
  intros F cd asset_type change_type cl.
  unfold ChangeClassifier._rule_based_classification_static.
  match goal with
  | |- Py.bind ?p _ = _ -> _ => destruct p as [priority | e]
  end; simpl; intro Heq; [|discriminate].
  injection Heq as <-. reflexivity.
Qed.

(** C10. The rule-based fallback classification returns, with confidence
    exactly 0.6 (for a structured diff whose [features_added], if present,
    has a length). As 0.3 < 0.6 < 0.7, the confidence test of the quality
    gate is passed and never the reason of a rejection, the trust test of
    [assign_priority] fails, and the priority is the one of the keyword
    rules, not the priority field of the fallback. *)
Theorem fallback_classification_confidence :
  forall `{FloatBuiltins} (change_data : ChangeData.t) (asset_type : string)
         (change_type : option string),
    (forall v,
        dict_get "features_added" (get_or [] (ChangeData.structured_diff change_data))
        = Some v ->
        exists n, ChangeClassifier.json_len v = Ok n) ->
    exists classification,
      ChangeClassifier._rule_based_classification_static change_data asset_type change_type
      = Ok classification
      /\ Classification.confidence classification = Some 0.6%float
      /\ (0.3 <? 0.6)%float = true
      /\ (0.6 <? 0.7)%float = true
      /\ (get_or 0%float (Classification.confidence classification) <? 0.3)%float = false
      /\ (0.7 <=? get_or 0%float (Classification.confidence classification))%float = false
      /\ (forall change,
             snd (PriorityAssigner.validate_quality change classification)
             <> Some ("Classification confidence too low: " ++ float_str 0.6%float))
      /\ (forall change,
             PriorityAssigner.assign_priority change classification
             = PriorityAssigner._rule_based_priority change classification).
Proof.
  intros F cd asset_type change_type Hlen.
  destruct (ChangeClassifier._rule_based_classification_static cd asset_type change_type)
    as [cl | e] eqn:Hrun.
  - pose proof (_rule_based_classification_confidence _ _ _ _ Hrun) as Hconf.
    exists cl. repeat split; auto.
    + rewrite Hconf. reflexivity.
    + rewrite Hconf. reflexivity.
    + intro change. unfold PriorityAssigner.validate_quality.
      rewrite Hconf. simpl get_or.
      replace (0.6 <? 0.3)%float with false by reflexivity.
      repeat match goal with
             | |- context [if ?b then _ else _] => destruct b
             end; simpl; discriminate.
    + intro change. unfold PriorityAssigner.assign_priority.
      rewrite Hconf. simpl get_or.
      replace (0.7 <=? 0.6)%float with false by reflexivity.
      reflexivity.
  - exfalso. revert Hrun.
    unfold ChangeClassifier._rule_based_classification_static.
    repeat match goal with
           | |- context [if ?b then _ else _] => destruct b
           end; simpl; try discriminate.
    destruct (dict_get "features_added" (get_or [] (ChangeData.structured_diff cd)))
      as [v |] eqn:Hget; simpl.
    + destruct (Hlen v eq_refl) as [n Hn]. rewrite Hn. simpl. discriminate.
    + discriminate.
Qed.

Lemma fallback_classification_confidence_witness :
  exists classification,
    @ChangeClassifier._rule_based_classification_static Examples.float_builtins
      Examples.evidence_structured "pricing" (Some "pricing")
    = Ok classification
    /\ Classification.confidence classification = Some 0.6%float
    /\ (0.3 <? 0.6)%float = true
    /\ (0.6 <? 0.7)%float = true
    /\ (get_or 0%float (Classification.confidence classification) <? 0.3)%float = false
    /\ (0.7 <=? get_or 0%float (Classification.confidence classification))%float = false
    /\ (forall change,
           snd (@PriorityAssigner.validate_quality Examples.float_builtins
                  change classification)
           <> Some ("Classification confidence too low: "
                      ++ @float_str Examples.float_builtins 0.6%float))
    /\ (forall change,
           PriorityAssigner.assign_priority change classification
           = PriorityAssigner._rule_based_priority change classification).
Proof.
  apply (@fallback_classification_confidence Examples.float_builtins
           Examples.evidence_structured "pricing" (Some "pricing")).
  intros v Hv. simpl in Hv. discriminate Hv.
Defined.

(** ** Splitting and joining sentences *)

Import StrFacts.

Lemma append_nil_r (s : string) : s ++ "" = s.
Proof. induction s as [|c s IH]; simpl; [reflexivity | rewrite IH; reflexivity]. Qed.

Lemma append_assoc (a b c : string) : (a ++ b) ++ c = a ++ b ++ c.
Proof. induction a as [|x a IH]; simpl; [reflexivity | rewrite IH; reflexivity]. Qed.

Lemma prefix_strip (p s : string) :
  prefix p s = match strip_prefix p s with Some _ => true | None => false end.
Proof.
  revert s. induction p as [|a p IH]; intro s.
  - destruct s; reflexivity.
  - destruct s as [|b s]; simpl; [reflexivity|].
    destruct (ascii_dec a b); [apply IH | reflexivity].
Qed.

Lemma strip_prefix_app (p s r : string) :
  strip_prefix p s = Some r <-> s = p ++ r.
Proof.
  revert s. induction p as [|a p IH]; intro s; simpl.
  - split; intro Heq; [injection Heq as ->; reflexivity | subst; reflexivity].
  - destruct s as [|b s].
    + split; discriminate.
    + destruct (ascii_dec a b) as [-> | Hne].
      * rewrite IH. split; intro Heq; [subst; reflexivity | injection Heq as ->; reflexivity].
      * split; [discriminate | intro Heq; injection Heq as Hab _; congruence].
Qed.

(** A prefix test looks no further than the text it is given. *)
Lemma strip_prefix_none_short (p w y : string) :
  strip_prefix p (w ++ y) = None -> strip_prefix p w = None.
Proof.
  revert w. induction p as [|a p IH]; intros w Hn; simpl in *.
  - discriminate.
  - destruct w as [|b w]; [reflexivity|]. simpl in Hn.
    destruct (ascii_dec a b); [apply IH; assumption | reflexivity].
Qed.

Lemma strip_prefix_none_long (p w y : string) :
  (String.length p <= String.length w)%nat ->
  strip_prefix p w = None -> strip_prefix p (w ++ y) = None.
Proof.
  revert w. induction p as [|a p IH]; intros w Hlen Hn; simpl in *.
  - discriminate.
  - destruct w as [|b w]; simpl in *; [lia|].
    destruct (ascii_dec a b); [apply IH; [lia | assumption] | reflexivity].
Qed.

Lemma length_append (a b : string) :
  String.length (a ++ b) = (String.length a + String.length b)%nat.
Proof. induction a as [|c a IH]; simpl; [reflexivity | rewrite IH; reflexivity]. Qed.

Lemma split_go_skip (sep u x cur : string) :
  split_go sep (String.length u) (u ++ x) cur = split_go sep 0 x cur.
Proof.
  induction u as [|c u IH]; simpl; [destruct x; reflexivity | exact IH].
Qed.

Lemma split_go_find (sep : string) :
  sep <> "" ->
  forall s cur,
    split_go sep 0 s cur =
    match find_sep sep s with
    | None => [cur ++ s]
    | Some (a, rest) => (cur ++ a) :: split_go sep 0 rest ""
    end.
Proof.
  intros Hsep s. induction s as [|c t IH]; intro cur.
  - destruct sep as [|a sep]; [congruence|]. simpl. rewrite append_nil_r. reflexivity.
  - cbn [split_go find_sep]. rewrite prefix_strip.
    destruct (strip_prefix sep (String c t)) as [rest|] eqn:Hp.
    + rewrite append_nil_r. f_equal.
      apply strip_prefix_app in Hp.
      destruct sep as [|a sep']; [congruence|].
      simpl in Hp. injection Hp as _ ->.
      replace (String.length (String a sep') - 1)%nat with (String.length sep')
        by (simpl; lia).
      apply split_go_skip.
    + rewrite IH. destruct (find_sep sep t) as [[a rest]|].
      * rewrite append_assoc. reflexivity.
      * rewrite append_assoc. reflexivity.
Qed.

Lemma split_find (sep s : string) :
  sep <> "" ->
  split sep s =
  match find_sep sep s with
  | None => [s]
  | Some (a, rest) => a :: split sep rest
  end.
Proof.
  intro Hsep. unfold split. rewrite (split_go_find sep Hsep).
  destruct (find_sep sep s) as [[a rest]|]; reflexivity.
Qed.

Lemma find_sep_app (sep s a r : string) :
  find_sep sep s = Some (a, r) -> s = a ++ sep ++ r.
Proof.
  revert a. induction s as [|c t IH]; intros a Hf.
  - simpl in Hf. destruct (strip_prefix sep "") eqn:Hp.
    + injection Hf as <- <-. apply strip_prefix_app in Hp. exact Hp.
    + discriminate.
  - cbn [find_sep] in Hf. destruct (strip_prefix sep (String c t)) as [rest|] eqn:Hp.
    + injection Hf as <- <-. apply strip_prefix_app in Hp. exact Hp.
    + destruct (find_sep sep t) as [[a' b]|] eqn:Ht; [|discriminate].
      injection Hf as <- <-. simpl. rewrite (IH a' eq_refl). reflexivity.
Qed.

(** The first separator of a text stays the first one when what follows it
    is replaced. *)
Lemma find_sep_replace_tail (sep a r y : string) :
  find_sep sep (a ++ sep ++ r) = Some (a, r) ->
  find_sep sep (a ++ sep ++ y) = Some (a, y).
Proof.
  induction a as [|c a IH]; intro Hf.
  - simpl append. assert (Hp : strip_prefix sep (sep ++ y) = Some y)
      by (apply strip_prefix_app; reflexivity).
    destruct (sep ++ y); simpl; rewrite Hp; reflexivity.
  - simpl append in *. cbn [find_sep] in *.
    destruct (strip_prefix sep (String c (a ++ sep ++ r))) as [rest|] eqn:Hp;
      [discriminate|].
    destruct (find_sep sep (a ++ sep ++ r)) as [[a' b]|] eqn:Ht; [|discriminate].
    injection Hf as -> ->.
    assert (Hshort : strip_prefix sep (String c (a ++ sep)) = None).
    { apply (strip_prefix_none_short sep (String c (a ++ sep)) r).
      simpl. rewrite append_assoc. exact Hp. }
    assert (Hlong : strip_prefix sep (String c (a ++ sep ++ y)) = None).
    { replace (String c (a ++ sep ++ y)) with (String c (a ++ sep) ++ y)
        by (simpl; rewrite append_assoc; reflexivity).
      apply strip_prefix_none_long; [|exact Hshort].
      simpl. rewrite length_append. lia. }
    rewrite Hlong, (IH eq_refl). reflexivity.
Qed.

Lemma find_sep_short (sep w : string) :
  (String.length w < String.length sep)%nat -> find_sep sep w = None.
Proof.
  intro Hlen.
  assert (Hp : forall v, (String.length v < String.length sep)%nat ->
                         strip_prefix sep v = None).
  { intros v Hv. destruct (strip_prefix sep v) as [rest|] eqn:Hs; [|reflexivity].
    apply strip_prefix_app in Hs. subst v. rewrite length_append in Hv. lia. }
  induction w as [|c w IH].
  - simpl. rewrite (Hp "" Hlen). reflexivity.
  - cbn [find_sep]. rewrite (Hp _ Hlen). rewrite IH; [reflexivity | simpl in Hlen; lia].
Qed.

(** A piece followed by a proper beginning of the separator holds no
    separator. *)
Lemma find_sep_piece (sep d sep' a r : string) :
  sep = d ++ sep' -> sep' <> "" ->
  find_sep sep (a ++ sep ++ r) = Some (a, r) ->
  find_sep sep (a ++ d) = None.
Proof.
  intros Hsep Hne. induction a as [|c a IH]; intro Hf.
  - simpl. apply find_sep_short. subst sep. rewrite length_append.
    destruct sep'; [congruence | simpl; lia].
  - simpl append in *. cbn [find_sep] in *.
    destruct (strip_prefix sep (String c (a ++ sep ++ r))) as [rest|] eqn:Hp;
      [discriminate|].
    destruct (find_sep sep (a ++ sep ++ r)) as [[a' b]|] eqn:Ht; [|discriminate].
    injection Hf as -> ->.
    assert (Hshort : strip_prefix sep (String c (a ++ d)) = None).
    { apply (strip_prefix_none_short sep (String c (a ++ d)) (sep' ++ r)).
      simpl. rewrite append_assoc. rewrite <- (append_assoc d sep' r), <- Hsep. exact Hp. }
    rewrite Hshort, (IH eq_refl). reflexivity.
Qed.

Lemma endswith_app (x p : string) : endswith (x ++ p) p = true.
Proof.
  induction x as [|c x IH].
  - simpl append. destruct p; cbn [endswith]; rewrite String.eqb_refl; reflexivity.
  - simpl append. cbn [endswith]. rewrite IH. apply orb_true_r.
Qed.

Lemma endswith_app_r (x y p : string) :
  (String.length p <= String.length y)%nat -> endswith (x ++ y) p = endswith y p.
Proof.
  intro Hlen. induction x as [|c x IH]; [reflexivity|].
  simpl append. cbn [endswith]. rewrite IH.
  destruct (String.eqb_spec (String c (x ++ y)) p) as [Heq | Hne]; [|reflexivity].
  exfalso. subst p. simpl in Hlen. rewrite length_append in Hlen. lia.
Qed.

Lemma split_cons_inv (sep s a b : string) (l : list string) :
  sep <> "" ->
  split sep s = a :: b :: l ->
  exists r, find_sep sep (a ++ sep ++ r) = Some (a, r)
            /\ s = a ++ sep ++ r /\ split sep r = b :: l.
Proof.
  intros Hsep Hs. rewrite (split_find sep s Hsep) in Hs.
  destruct (find_sep sep s) as [[a' r]|] eqn:Hf; [|discriminate].
  injection Hs as -> Hr. exists r.
  pose proof (find_sep_app _ _ _ _ Hf) as Happ.
  rewrite <- Happ. auto.
Qed.

Lemma split_piece (sep d sep' a r : string) :
  sep = d ++ sep' -> sep' <> "" ->
  find_sep sep (a ++ sep ++ r) = Some (a, r) ->
  split sep (a ++ d) = [a ++ d].
Proof.
  intros Hsep Hne Hf.
  assert (Hs : sep <> "") by (subst sep; destruct d; [assumption | discriminate]).
  rewrite (split_find sep _ Hs), (find_sep_piece sep d sep' a r Hsep Hne Hf).
  reflexivity.
Qed.

Lemma split_replace_tail (sep a r y : string) :
  sep <> "" ->
  find_sep sep (a ++ sep ++ r) = Some (a, r) ->
  split sep (a ++ sep ++ y) = a :: split sep y.
Proof.
  intros Hs Hf.
  rewrite (split_find sep _ Hs), (find_sep_replace_tail sep a r y Hf). reflexivity.
Qed.

(** C7. When the summary of a classification splits on the separator of
    sentences (a period and a space) into more than three pieces, the
    normalized summary is the first three pieces joined again, with a period
    added unless the text already ends in one: it splits into exactly three
    pieces, the first two are each followed by their period and the third
    ends in a period. A summary of three pieces or fewer is left as it is. *)
Theorem summary_truncation :
  forall (result : Classification.t) (change_data : ChangeData.t),
    let summary := get_or "" (Classification.summary result) in
    let sentences := split ". " summary in
    let normalized :=
      Classification.summary
        (ChangeClassifier._validate_classification result change_data) in
    ((3 < List.length sentences)%nat ->
     exists p1 p2 p3 rest p3',
       sentences = p1 :: p2 :: p3 :: rest
       /\ (p3' = p3 \/ p3' = p3 ++ ".")
       /\ normalized = Some (p1 ++ ". " ++ p2 ++ ". " ++ p3')
       /\ split ". " (p1 ++ ". " ++ p2 ++ ". " ++ p3') = [p1; p2; p3']
       /\ endswith p3' "." = true)
    /\ ((List.length sentences <= 3)%nat ->
        normalized = Classification.summary result).
Proof.
  intros result change_data summary sentences normalized.
  assert (Hsep : ". " <> "") by discriminate.
  split.
  - intro Hlen.
    destruct sentences as [|p1 [|p2 [|p3 [|p4 more]]]] eqn:Hsent;
      simpl in Hlen; try lia.
    unfold sentences in Hsent.
    destruct (split_cons_inv _ _ _ _ _ Hsep Hsent) as (r1 & Hf1 & _ & Hs1).
    destruct (split_cons_inv _ _ _ _ _ Hsep Hs1) as (r2 & Hf2 & _ & Hs2).
    destruct (split_cons_inv _ _ _ _ _ Hsep Hs2) as (r3 & Hf3 & _ & _).
    set (joined := p1 ++ ". " ++ p2 ++ ". " ++ p3).
    exists p1, p2, p3, (p4 :: more), (if endswith joined "." then p3 else p3 ++ ".").
    split; [reflexivity|].
    split; [destruct (endswith joined "."); auto|].
    split; [|split].
    + unfold normalized, ChangeClassifier._validate_classification.
      cbn [Classification.summary]. fold summary. rewrite Hsent.
      cbn [List.length firstn join String.concat Nat.ltb Nat.leb].
      fold joined. destruct (endswith joined ".").
      * reflexivity.
      * unfold joined. rewrite !append_assoc. reflexivity.
    + rewrite (split_replace_tail _ _ _ _ Hsep Hf1).
      rewrite (split_replace_tail _ _ _ _ Hsep Hf2).
      f_equal. f_equal.
      destruct (endswith joined ".").
      * rewrite <- (append_nil_r p3) at 1 2.
        apply (split_piece ". " "" ". " p3 r3); [reflexivity | discriminate | exact Hf3].
      * apply (split_piece ". " "." " " p3 r3); [reflexivity | discriminate | exact Hf3].
    + destruct (endswith joined ".") eqn:He; [|apply endswith_app].
      destruct p3 as [|c p3].
      * exfalso. unfold joined in He.
        rewrite append_nil_r in He.
        rewrite <- !append_assoc in He.
        rewrite endswith_app_r in He; [| simpl; lia].
        discriminate He.
      * unfold joined in He.
        rewrite <- !append_assoc in He.
        rewrite endswith_app_r in He; [exact He | simpl; lia].
  - intro Hlen. unfold normalized, ChangeClassifier._validate_classification.
    cbn [Classification.summary]. fold summary. fold sentences.
    apply Nat.ltb_ge in Hlen. rewrite Hlen. reflexivity.
Qed.

Lemma summary_truncation_witness :
  exists p1 p2 p3 rest p3',
    split ". " "One. Two. Three. Four. Five" = p1 :: p2 :: p3 :: rest
    /\ (p3' = p3 \/ p3' = p3 ++ ".")
    /\ Classification.summary
         (ChangeClassifier._validate_classification
            Examples.classification_long Examples.evidence_small)
       = Some (p1 ++ ". " ++ p2 ++ ". " ++ p3')
    /\ split ". " (p1 ++ ". " ++ p2 ++ ". " ++ p3') = [p1; p2; p3']
    /\ endswith p3' "." = true.
Proof.
  apply (proj1 (summary_truncation Examples.classification_long
                  Examples.evidence_small)).
  vm_compute. lia.
Defined.

Example summary_truncation_example :
  Classification.summary
    (ChangeClassifier._validate_classification
       Examples.classification_long Examples.evidence_small)
  = Some "One. Two. Three.".
Proof. reflexivity. Qed.

(** ** Semantic analysis degrades, it does not fail *)

(** C9, as stated, fails: the degraded result carries no rationale, and when
    the answer is not JSON its summary is the answer itself. *)
Lemma degraded_analysis_has_no_rationale :
  (exists r,
      @SemanticDiff.analyze_change Examples.json_analysis Examples.service_down
        "before" "after" "pricing" "https://acme.test/pricing" = Ok r
      /\ SemanticAnalysis.why_it_matters r = None
      /\ SemanticAnalysis.error r = Some "timeout")
  /\ (exists r,
         @SemanticDiff.analyze_change Examples.json_analysis Examples.service_garbled
           "before" "after" "pricing" "https://acme.test/pricing" = Ok r
         /\ SemanticAnalysis.why_it_matters r = None
         /\ SemanticAnalysis.summary r = Some "not json").
Proof.
  split; eexists; (split; [vm_compute; reflexivity | split; reflexivity]).
Qed.

(** C9, amended. [analyze_change] never raises. When the call to the
    service raises, or reading the answer raises anything but a JSON decode
    error, it returns the summary [Change detected on <asset_type> page],
    change type unknown, significance medium and the text of the exception
    as error marker. When the answer is not JSON it returns the answer
    (stripped, without its code fence, cut to 200 characters and three dots
    when longer) as summary, change type unknown, significance medium and
    the error marker [Failed to parse JSON response]. Neither result has a
    rationale. *)
Theorem analyze_change_degrades :
  forall `{JsonAnalysis} (self : SemanticDiff.t)
         (before_content after_content asset_type url : string),
    let prompt :=
      SemanticDiff._build_prompt before_content after_content asset_type url in
    let call :=
      if SemanticDiff.use_openai self
      then SemanticDiff._call_openai self prompt
      else SemanticDiff._call_anthropic self prompt in
    let analysis :=
      SemanticDiff.analyze_change self before_content after_content asset_type url in
    let generic := fun e =>
      SemanticAnalysis.mk
        (Some ("Change detected on " ++ asset_type ++ " page"))
        (Some "unknown") None (Some "medium") (Some (str_exn e)) [] in
    (exists r, analysis = Ok r)
    /\ (forall e, call = Raise e -> analysis = Ok (generic e))
    /\ (forall response e,
           call = Ok response ->
           SemanticDiff._parse_response response = Raise e ->
           analysis = Ok (generic e))
    /\ (forall response msg,
           call = Ok response ->
           json_loads (SemanticDiff.strip_code_block response)
           = Raise (JSONDecodeError msg) ->
           let text := SemanticDiff.strip_code_block response in
           analysis
           = Ok (SemanticAnalysis.mk
                   (Some (if (200 <? String.length text)%nat
                          then slice_to 200 text ++ "..."
                          else text))
                   (Some "unknown") None (Some "medium")
                   (Some "Failed to parse JSON response") [])).
Proof.
  intros J self before_content after_content asset_type url prompt call analysis generic.
  assert (Hdef : analysis
                 = try_except (response <- call ;; SemanticDiff._parse_response response)
                              (fun e => Ok (generic e))) by reflexivity.
  repeat split.
  - rewrite Hdef. destruct call as [response | e]; simpl.
    + destruct (SemanticDiff._parse_response response); simpl; eauto.
    + eauto.
  - intros e Hcall. rewrite Hdef, Hcall. reflexivity.
  - intros response e Hcall Hparse. rewrite Hdef, Hcall. simpl.
    rewrite Hparse. reflexivity.
  - intros response msg Hcall Hloads text. rewrite Hdef, Hcall. simpl.
    unfold SemanticDiff._parse_response. fold text. unfold text at 1.
    rewrite Hloads. reflexivity.
Qed.

Lemma analyze_change_degrades_witness :
  @SemanticDiff.analyze_change Examples.json_analysis Examples.service_down
    "before" "after" "pricing" "https://acme.test/pricing"
  = Ok (SemanticAnalysis.mk (Some "Change detected on pricing page")
          (Some "unknown") None (Some "medium") (Some "timeout") []).
Proof.
  apply (proj1 (proj2 (@analyze_change_degrades Examples.json_analysis
                         Examples.service_down "before" "after" "pricing"
                         "https://acme.test/pricing")) (Exception "timeout")).
  reflexivity.
Defined.

(** ** Detection *)

Section DetectionFacts.
Context `{Difflib} `{FloatBuiltins} `{StructuredComparators} `{JsonAnalysis}.

Lemma _create_change_record_effect (now : Z) (db : Db.t) (asset : Asset.t)
    (snapshot_before snapshot_after : Snapshot.t) (change_data : ChangeData.t)
    (semantic_analysis : option SemanticAnalysis.t) :
  let r := ChangeDetector._create_change_record now db asset snapshot_before
             snapshot_after change_data semantic_analysis in
  snd r = Db.add_change db (fst r)
  /\ Change.snapshot_after_id (fst r) = Snapshot.id snapshot_after
  /\ Change.asset_id (fst r) = Asset.id asset.
Proof.
  unfold ChangeDetector._create_change_record.
  destruct semantic_analysis as [sa|]; [destruct (SemanticAnalysis.truthy sa)|];
    simpl; auto.
Qed.

(** A run of the detection either leaves the database as it is and reports
    nothing, or finds no change for the latest snapshot and appends one. *)
Lemma detect_changes_for_asset_effect (self : ChangeDetector.t) (now : Z)
    (db : Db.t) (asset : Asset.t) :
  let r := ChangeDetector.detect_changes_for_asset self now db asset in
  (snd r = db /\ (fst r = Ok [] \/ exists e, fst r = Raise e))
  \/ (exists asset' snapshot_after snapshot_before change,
         Db.asset_by_id db (Asset.id asset) = Some asset'
         /\ ChangeDetector.last_two_snapshots db asset' = [snapshot_after; snapshot_before]
         /\ ChangeDetector.change_for_snapshot_after db (Snapshot.id snapshot_after) = None
         /\ Change.snapshot_after_id change = Snapshot.id snapshot_after
         /\ Change.asset_id change = Asset.id asset'
         /\ r = (Ok [change], Db.add_change db change)).
Proof.
  unfold ChangeDetector.detect_changes_for_asset.
  destruct (Db.asset_by_id db (Asset.id asset)) as [asset'|]; [|left; simpl; auto].
  destruct (ChangeDetector.last_two_snapshots db asset')
    as [|snapshot_after [|snapshot_before [|x l]]] eqn:Hsnaps;
    try (left; simpl; auto; fail).
  destruct (ChangeDetector.change_for_snapshot_after db (Snapshot.id snapshot_after))
    eqn:Hex; [left; simpl; auto|].
  destruct (DiffEngine.compare_snapshots db snapshot_before snapshot_after)
    as [[change_data|]|e]; try (left; simpl; eauto; fail).
  destruct (negb (DiffEngine.is_significant_change change_data
                    DiffEngine.default_threshold)); [left; simpl; auto|].
  destruct (ChangeDetector.semantic_step self asset' snapshot_before snapshot_after
              change_data) as [semantic_analysis|]; [|left; simpl; auto].
  pose proof (_create_change_record_effect now db asset' snapshot_before
                snapshot_after change_data semantic_analysis) as Heff.
  destruct (ChangeDetector._create_change_record now db asset' snapshot_before
              snapshot_after change_data semantic_analysis) as [change db'].
  simpl in Heff. destruct Heff as (-> & Hafter & Hasset).
  right. exists asset', snapshot_after, snapshot_before, change.
  repeat split; assumption.
Qed.

(** A change recorded for the latest snapshot stops the detection. *)
Lemma detect_changes_for_asset_existing (self : ChangeDetector.t) (now : Z)
    (db : Db.t) (asset asset' : Asset.t) (snapshot_after snapshot_before : Snapshot.t)
    (change : Change.t) :
  Db.asset_by_id db (Asset.id asset) = Some asset' ->
  ChangeDetector.last_two_snapshots db asset' = [snapshot_after; snapshot_before] ->
  In change (Db.changes db) ->
  Change.snapshot_after_id change = Snapshot.id snapshot_after ->
  ChangeDetector.detect_changes_for_asset self now db asset = (Ok [], db).
Proof.
  intros Hasset Hsnaps Hin Hafter.
  unfold ChangeDetector.detect_changes_for_asset.
  rewrite Hasset, Hsnaps.
  destruct (ChangeDetector.change_for_snapshot_after db (Snapshot.id snapshot_after))
    eqn:Hex; [reflexivity|].
  exfalso. unfold ChangeDetector.change_for_snapshot_after in Hex.
  pose proof (find_none _ _ Hex change Hin) as Hno. simpl in Hno.
  rewrite Hafter, Z.eqb_refl in Hno. discriminate.
Qed.

End DetectionFacts.

Lemma NoDup_snoc {A : Type} (l : list A) (x : A) :
  NoDup l -> ~ In x l -> NoDup (l ++ [x]).
Proof.
  intros Hl Hx. induction Hl as [|y l Hy Hl IH]; simpl.
  - constructor; [intros [] | constructor].
  - constructor.
    + rewrite in_app_iff. intros [Hin | [Heq | []]]; [contradiction|].
      subst. apply Hx. left. reflexivity.
    + apply IH. intro Hin. apply Hx. right. exact Hin.
Qed.

(** C1. Detection is idempotent. When a change is recorded whose after
    pointer is the latest snapshot of the asset, [detect_changes_for_asset]
    returns the empty list and leaves the database as it is; so does a
    second run after a run that recorded a change, whatever the service
    answers and whatever the clock shows the second time; and a run keeps
    the after pointers of the recorded changes pairwise distinct, so that at
    most one change exists per after snapshot. *)
Theorem detect_changes_idempotent :
  forall `{Difflib} `{FloatBuiltins} `{StructuredComparators} `{JsonAnalysis}
         (self self' : ChangeDetector.t) (now now' : Z) (db : Db.t) (asset : Asset.t),
    let run := ChangeDetector.detect_changes_for_asset self now db asset in
    (forall asset' snapshot_after snapshot_before change,
        Db.asset_by_id db (Asset.id asset) = Some asset' ->
        ChangeDetector.last_two_snapshots db asset' = [snapshot_after; snapshot_before] ->
        In change (Db.changes db) ->
        Change.snapshot_after_id change = Snapshot.id snapshot_after ->
        run = (Ok [], db))
    /\ (forall change,
           fst run = Ok [change] ->
           ChangeDetector.detect_changes_for_asset self' now' (snd run) asset
           = (Ok [], snd run))
    /\ (NoDup (map Change.snapshot_after_id (Db.changes db)) ->
        NoDup (map Change.snapshot_after_id (Db.changes (snd run)))).
Proof.
  intros D F C J self self' now now' db asset run.
  pose proof (detect_changes_for_asset_effect self now db asset) as Heff.
  fold run in Heff. simpl in Heff.
  split; [|split].
  - intros asset' snapshot_after snapshot_before change.
    apply detect_changes_for_asset_existing.
  - intros change Hrun.
    destruct Heff as [[Hdb [Hok | [e He]]] | Hnew].
    + rewrite Hok in Hrun. discriminate.
    + rewrite He in Hrun. discriminate.
    + destruct Hnew as (asset' & sa & sb & change' & Hasset & Hsnaps & Hex & Hafter & _ & Hr).
      rewrite Hr. simpl.
      apply (detect_changes_for_asset_existing self' now' _ asset asset' sa sb change').
      * exact Hasset.
      * exact Hsnaps.
      * simpl. apply in_or_app. right. left. reflexivity.
      * exact Hafter.
  - intro Hnodup.
    destruct Heff as [[Hdb _] | Hnew].
    + rewrite Hdb. exact Hnodup.
    + destruct Hnew as (asset' & sa & sb & change' & _ & _ & Hex & Hafter & _ & Hr).
      rewrite Hr. simpl. rewrite map_app. simpl.
      apply NoDup_snoc; [exact Hnodup|].
      intro Hin. apply in_map_iff in Hin. destruct Hin as (c & Hc & Hcin).
      unfold ChangeDetector.change_for_snapshot_after in Hex.
      pose proof (find_none _ _ Hex c Hcin) as Hno. simpl in Hno.
      rewrite Hc, Hafter, Z.eqb_refl in Hno. discriminate.
Qed.

(** Two runs on a database with two snapshots and no change: the first
    records a change, the second does nothing. *)
Lemma detect_changes_idempotent_witness :
  let run :=
    @ChangeDetector.detect_changes_for_asset Examples.difflib Examples.float_builtins
      Examples.failing_comparators Examples.json_analysis
      Examples.detector_no_llm 500 Examples.db0 Examples.pricing_page in
  (exists change, fst run = Ok [change] /\ Db.changes (snd run) = [change])
  /\ @ChangeDetector.detect_changes_for_asset Examples.difflib Examples.float_builtins
       Examples.failing_comparators Examples.json_analysis
       Examples.detector_down 900 (snd run) Examples.pricing_page
     = (Ok [], snd run).
Proof.
  split.
  - eexists. split; vm_compute; reflexivity.
  - eapply (proj1 (proj2 (@detect_changes_idempotent Examples.difflib
                            Examples.float_builtins Examples.failing_comparators
                            Examples.json_analysis Examples.detector_no_llm
                            Examples.detector_down 500 900 Examples.db0
                            Examples.pricing_page))).
    vm_compute. reflexivity.
Defined.

(** ** Delivery *)

(** What [get_pending_alerts] returns is a row of the table that has not
    been sent. *)
Lemma get_pending_alerts_unsent (db : Db.t) (priority : option string)
    (since : option Z) (c : Change.t) :
  In c (AlertManager.get_pending_alerts db priority since) ->
  In c (Db.changes db) /\ Change.alert_sent c = false.
Proof.
  unfold AlertManager.get_pending_alerts. intro Hin.
  assert (Hq : In c (filter
                       (fun c => negb (Change.alert_sent c)
                                 && match Change.priority c with
                                    | Some _ => true
                                    | None => false
                                    end)
                       (filter
                          (fun c => match Db.asset_by_id db (Change.asset_id c) with
                                    | Some _ => true
                                    | None => false
                                    end) (Db.changes db)))).
  { destruct since as [t|]; [apply filter_In in Hin; destruct Hin as [Hin _]|];
      (destruct (truthy_str priority);
       [apply filter_In in Hin; destruct Hin as [Hin _]|]); exact Hin. }
  apply filter_In in Hq. destruct Hq as [Hq Hflags].
  apply filter_In in Hq. destruct Hq as [Hq _].
  apply andb_true_iff in Hflags. destruct Hflags as [Hsent _].
  split; [exact Hq | apply negb_true_iff; exact Hsent].
Qed.

(** A sweep returns when Slack is not available or nothing is pending, and
    raises at the first pending change otherwise; either way it leaves the
    state as it is. *)
Lemma send_sweep_outcome (tier : string) (lookback : Z) (title delivery_type : string)
    (self : AlertManager.t) (now : Z) (w : AlertManager.world) :
  AlertManager.send_sweep tier lookback title delivery_type self now w
  = (if negb (AlertManager.has_slack self) then Ok tt
     else match AlertManager.get_pending_alerts (AlertManager.db w) (Some tier)
                  (Some (now - lookback)%Z) with
          | [] => Ok tt
          | _ :: _ => Raise Orm.DetachedInstanceError
          end,
     w).
Proof.
  unfold AlertManager.send_sweep, AlertManager.pending_alerts.
  destruct (negb (AlertManager.has_slack self)); [reflexivity|].
  destruct (AlertManager.get_pending_alerts (AlertManager.db w) (Some tier)
              (Some (now - lookback)%Z)); reflexivity.
Qed.

(** The immediate path returns false or raises, and leaves the state as it
    is. *)
Lemma send_immediate_alert_quiet (self : AlertManager.t) (now : Z)
    (w : AlertManager.world) (change : Orm.obj Change.t) :
  let run := AlertManager.send_immediate_alert self now w change in
  snd run = w /\ (fst run = Ok false \/ exists e, fst run = Raise e).
Proof.
  cbn zeta. unfold AlertManager.send_immediate_alert.
  destruct (negb (AlertManager.has_slack self)); [cbn; auto|].
  destruct (Orm.get change Change.priority) as [priority | e]; [|cbn; eauto].
  destruct (negb (AlertManager.is_priority priority "high")); [cbn; auto|].
  destruct (Orm.get change Change.id) as [change_id | e]; [|cbn; eauto].
  destruct (Db.change_by_id (AlertManager.db w) change_id) as [stored|]; [|cbn; eauto].
  destruct (Db.asset_by_id (AlertManager.db w) (Change.asset_id stored)) as [asset|];
    [|cbn; auto].
  destruct (Db.competitor_by_id (AlertManager.db w) (Asset.competitor_id asset))
    as [competitor|]; [|cbn; auto].
  destruct (AlertManager.slack self); cbn; eauto.
Qed.

(** The loop of [process_pending_alerts] over changes whose block is left:
    without Slack every call returns false; with it the first call raises,
    and so does the log line of the handler. *)
Lemma send_each_expired (self : AlertManager.t) (now : Z) (w : AlertManager.world)
    (rows : list Change.t) :
  AlertManager.send_each self now w (map Orm.expired rows)
  = (if negb (AlertManager.has_slack self) then Ok tt
     else match rows with
          | [] => Ok tt
          | _ :: _ => Raise Orm.DetachedInstanceError
          end,
     w).
Proof.
  destruct (AlertManager.has_slack self) eqn:Hslack; cbn [negb].
  - destruct rows as [|c rest]; [reflexivity|].
    cbn [map AlertManager.send_each]. unfold AlertManager.send_immediate_alert.
    rewrite Hslack. reflexivity.
  - induction rows as [|c rest IH]; [reflexivity|].
    cbn [map AlertManager.send_each]. unfold AlertManager.send_immediate_alert at 1.
    rewrite Hslack. cbn [negb]. exact IH.
Qed.

(** C2. A change that is marked as sent is not delivered again. Calling
    [send_immediate_alert] with it, or running [process_pending_alerts],
    the daily digest or the weekly summary, posts nothing, appends no alert
    record and leaves every change, this one with its flag and its time of
    sending, as it is. The sweeps and [process_pending_alerts] are kept from
    it by the filter on the sent flag: [get_pending_alerts] never selects
    it. The immediate path has no such test; what keeps it from sending
    again is that it cannot send: it reads the competitor, the change and
    the asset after the block that loaded them, so it raises before
    anything is posted, and it returns false or raises, never true. *)
Theorem sent_change_is_not_delivered_again :
  forall (self : AlertManager.t) (now : Z) (w : AlertManager.world)
         (change : Orm.obj Change.t),
    In (Orm.row change) (Db.changes (AlertManager.db w)) ->
    Change.alert_sent (Orm.row change) = true ->
    let immediate := AlertManager.send_immediate_alert self now w change in
    let pending := AlertManager.process_pending_alerts self now w in
    let daily := AlertManager.send_daily_digest self now w in
    let weekly := AlertManager.send_weekly_summary self now w in
    Forall (fun after =>
              AlertManager.posted after = AlertManager.posted w
              /\ Db.alerts (AlertManager.db after) = Db.alerts (AlertManager.db w)
              /\ Db.changes (AlertManager.db after) = Db.changes (AlertManager.db w)
              /\ In (Orm.row change) (Db.changes (AlertManager.db after)))
           [snd immediate; snd pending; snd daily; snd weekly]
    /\ fst immediate <> Ok true
    /\ (forall priority since,
           ~ In (Orm.row change)
                (AlertManager.get_pending_alerts (AlertManager.db w) priority since)).
Proof.
  intros self now w change Hin Hsent immediate pending daily weekly.
  destruct (send_immediate_alert_quiet self now w change) as [Himmediate Hout].
  fold immediate in Himmediate, Hout.
  assert (Hpending : snd pending = w)
    by (unfold pending, AlertManager.process_pending_alerts, AlertManager.pending_alerts;
        rewrite send_each_expired; reflexivity).
  assert (Hdaily : snd daily = w)
    by (unfold daily, AlertManager.send_daily_digest; rewrite send_sweep_outcome;
        reflexivity).
  assert (Hweekly : snd weekly = w)
    by (unfold weekly, AlertManager.send_weekly_summary; rewrite send_sweep_outcome;
        reflexivity).
  split; [|split].
  - rewrite Himmediate, Hpending, Hdaily, Hweekly. repeat constructor; assumption.
  - destruct Hout as [Hfalse | [e He]]; [rewrite Hfalse | rewrite He]; discriminate.
  - intros priority since Hselected.
    apply get_pending_alerts_unsent in Hselected. destruct Hselected as [_ Hunsent].
    rewrite Hsent in Hunsent. discriminate.
Qed.

Lemma sent_change_is_not_delivered_again_witness :
  let immediate :=
    AlertManager.send_immediate_alert Examples.slack_up 900 Fixtures.world_sent
      (Orm.loaded Fixtures.sent_change) in
  In Fixtures.sent_change (Db.changes (AlertManager.db Fixtures.world_sent))
  /\ Change.alert_sent Fixtures.sent_change = true
  /\ AlertManager.posted (snd immediate) = []
  /\ Db.alerts (AlertManager.db (snd immediate))
     = [Alert.mk 1 1 "high" None (Some 260%Z) (Some "immediate")]
  /\ Db.changes (AlertManager.db (snd immediate)) = [Fixtures.sent_change]
  /\ fst immediate = Raise Orm.DetachedInstanceError.
Proof.
  destruct (sent_change_is_not_delivered_again Examples.slack_up 900 Fixtures.world_sent
              (Orm.loaded Fixtures.sent_change) (or_introl eq_refl) eq_refl)
    as [Hall _].
  apply Forall_inv in Hall. destruct Hall as (Hposted & Halerts & Hchanges & _).
  split; [left; reflexivity|]. split; [reflexivity|].
  split; [exact Hposted|]. split; [exact Halerts|]. split; [exact Hchanges|].
  reflexivity.
Defined.

(** * Further properties of the pipeline *)

(** ** Pending changes and sweeps *)

Lemma filter_and {A : Type} (f g : A -> bool) (l : list A) :
  filter f (filter g l) = filter (fun x => g x && f x) l.
Proof.
  induction l as [|x l IH]; simpl; [reflexivity|].
  destruct (g x); simpl; [destruct (f x)|]; rewrite IH; reflexivity.
Qed.

Lemma filter_all {A : Type} (l : list A) : filter (fun _ => true) l = l.
Proof. induction l as [|x l IH]; simpl; [|rewrite IH]; reflexivity. Qed.

Lemma filter_nil_iff {A : Type} (f : A -> bool) (l : list A) :
  filter f l = [] <-> forall x, In x l -> f x = false.
Proof.
  induction l as [|x l IH]; simpl.
  - split; [intros _ y [] | reflexivity].
  - destruct (f x) eqn:Hx.
    + split; [discriminate|]. intro Hall. rewrite (Hall x) in Hx; [discriminate | auto].
    + rewrite IH. split.
      * intros Hall y [<- | Hy]; auto.
      * intros Hall y Hy. apply Hall. auto.
Qed.

(** [get_pending_alerts] is one filter over the table of changes. *)
Lemma get_pending_alerts_filter (db : Db.t) (priority : option string) (since : option Z) :
  AlertManager.get_pending_alerts db priority since
  = filter (AlertFacts.is_pending db priority since) (Db.changes db).
Proof.
  unfold AlertManager.get_pending_alerts, AlertFacts.is_pending.
  destruct since as [t|]; destruct (truthy_str priority);
    rewrite ?filter_and; apply filter_ext; intro c;
    rewrite ?andb_true_r, ?andb_assoc; reflexivity.
Qed.


(** X1. The daily digest and the weekly summary deliver nothing. Each one
    returns without a word when Slack is not available or when no change
    of its tier and its window is pending. When one is, the loop that
    formats the alerts reads [change.asset_id] of a change that
    [get_pending_alerts] loaded in a block of its own, which is left: the
    sweep raises there, before anything is posted and before anything is
    marked, and the state stays as it was. *)
Theorem sweeps_stop_at_a_pending_change :
  forall (self : AlertManager.t) (now : Z) (w : AlertManager.world),
    AlertManager.send_daily_digest self now w
    = (if negb (AlertManager.has_slack self) then Ok tt
       else match AlertManager.get_pending_alerts (AlertManager.db w)
                    (Some "medium") (Some (now - 1 * AlertManager.day)%Z) with
            | [] => Ok tt
            | _ :: _ => Raise Orm.DetachedInstanceError
            end,
       w)
    /\ AlertManager.send_weekly_summary self now w
       = (if negb (AlertManager.has_slack self) then Ok tt
          else match AlertManager.get_pending_alerts (AlertManager.db w)
                       (Some "low") (Some (now - 7 * AlertManager.day)%Z) with
               | [] => Ok tt
               | _ :: _ => Raise Orm.DetachedInstanceError
               end,
          w)
    /\ (forall c,
           AlertFacts.is_pending (AlertManager.db w) (Some "medium")
             (Some (now - 1 * AlertManager.day)%Z) c = true ->
           In c (Db.changes (AlertManager.db w)) ->
           AlertManager.has_slack self = true ->
           fst (AlertManager.send_daily_digest self now w)
           = Raise Orm.DetachedInstanceError)
    /\ (forall c,
           AlertFacts.is_pending (AlertManager.db w) (Some "low")
             (Some (now - 7 * AlertManager.day)%Z) c = true ->
           In c (Db.changes (AlertManager.db w)) ->
           AlertManager.has_slack self = true ->
           fst (AlertManager.send_weekly_summary self now w)
           = Raise Orm.DetachedInstanceError).
Proof.
  intros self now w.
  assert (Hraises : forall tier lookback title delivery_type c,
             AlertFacts.is_pending (AlertManager.db w) (Some tier)
               (Some (now - lookback)%Z) c = true ->
             In c (Db.changes (AlertManager.db w)) ->
             AlertManager.has_slack self = true ->
             fst (AlertManager.send_sweep tier lookback title delivery_type self now w)
             = Raise Orm.DetachedInstanceError).
  { intros tier lookback title delivery_type c Hpending Hin Hslack.
    rewrite send_sweep_outcome, Hslack. cbn [negb fst].
    assert (Hc : In c (AlertManager.get_pending_alerts (AlertManager.db w) (Some tier)
                         (Some (now - lookback)%Z))).
    { rewrite get_pending_alerts_filter. apply filter_In. split; assumption. }
    destruct (AlertManager.get_pending_alerts (AlertManager.db w) (Some tier)
                (Some (now - lookback)%Z)); [destruct Hc | reflexivity]. }
  split; [apply send_sweep_outcome|].
  split; [apply send_sweep_outcome|].
  split; intros c; apply Hraises.
Qed.

Lemma sweeps_stop_at_a_pending_change_witness :
  AlertManager.send_daily_digest Examples.slack_up 300 Examples.world_medium
  = (Raise Orm.DetachedInstanceError, Examples.world_medium)
  /\ fst (AlertManager.send_daily_digest Examples.slack_up 300 Examples.world_medium)
     = Raise Orm.DetachedInstanceError.
Proof.
  split.
  - rewrite (proj1 (sweeps_stop_at_a_pending_change Examples.slack_up 300
                      Examples.world_medium)).
    reflexivity.
  - apply (proj1 (proj2 (proj2 (sweeps_stop_at_a_pending_change Examples.slack_up 300
                                  Examples.world_medium)))
             Examples.medium_change);
      [reflexivity | left; reflexivity | reflexivity].
Defined.


(** X3. The immediate path never delivers. Whatever change it is called
    with, [send_immediate_alert] posts nothing, records nothing and marks
    nothing. It returns false when Slack is not available, when the change
    is not of high priority, or when the asset or the competitor is not
    found. In every other case it raises: on the change it was given when
    that one is detached, on a stored change that is gone, and, when the
    change, the asset and the competitor are all found, on
    [competitor.name], which is read after the block that loaded the three.
    It never returns true. *)
Theorem send_immediate_alert_never_delivers :
  forall (self : AlertManager.t) (now : Z) (w : AlertManager.world)
         (change : Orm.obj Change.t),
    let run := AlertManager.send_immediate_alert self now w change in
    snd run = w
    /\ fst run <> Ok true
    /\ fst run
       = (if negb (AlertManager.has_slack self) then Ok false
          else if negb (Orm.attached change) then Raise Orm.DetachedInstanceError
          else if negb (AlertManager.is_priority (Change.priority (Orm.row change)) "high")
          then Ok false
          else
            match Db.change_by_id (AlertManager.db w) (Change.id (Orm.row change)) with
            | None =>
                Raise (AttributeError "'NoneType' object has no attribute 'asset_id'")
            | Some stored =>
                match Db.asset_by_id (AlertManager.db w) (Change.asset_id stored) with
                | None => Ok false
                | Some asset =>
                    match Db.competitor_by_id (AlertManager.db w)
                            (Asset.competitor_id asset) with
                    | None => Ok false
                    | Some _ =>
                        match AlertManager.slack self with
                        | None =>
                            Raise (AttributeError
                                     "'NoneType' object has no attribute 'send_alert'")
                        | Some _ => Raise Orm.DetachedInstanceError
                        end
                    end
                end
            end).
Proof.
  intros self now w change run.
  destruct (send_immediate_alert_quiet self now w change) as [Hw Hout].
  fold run in Hw, Hout.
  split; [exact Hw|].
  split.
  { destruct Hout as [Hfalse | [e He]]; [rewrite Hfalse | rewrite He]; discriminate. }
  unfold run, AlertManager.send_immediate_alert.
  destruct (negb (AlertManager.has_slack self)); [reflexivity|].
  unfold Orm.get.
  destruct (Orm.attached change); cbn [negb]; [|reflexivity].
  destruct (negb (AlertManager.is_priority (Change.priority (Orm.row change)) "high"));
    [reflexivity|].
  destruct (Db.change_by_id (AlertManager.db w) (Change.id (Orm.row change)))
    as [stored|]; [|reflexivity].
  destruct (Db.asset_by_id (AlertManager.db w) (Change.asset_id stored)) as [asset|];
    [|reflexivity].
  destruct (Db.competitor_by_id (AlertManager.db w) (Asset.competitor_id asset));
    [|reflexivity].
  destruct (AlertManager.slack self); reflexivity.
Qed.

Lemma send_immediate_alert_never_delivers_witness :
  let run :=
    AlertManager.send_immediate_alert Examples.slack_up 300 Examples.world_high
      (Orm.loaded Examples.high_change) in
  snd run = Examples.world_high /\ fst run = Raise Orm.DetachedInstanceError.
Proof.
  destruct (send_immediate_alert_never_delivers Examples.slack_up 300 Examples.world_high
              (Orm.loaded Examples.high_change)) as (Hworld & _ & Hresult).
  split; [exact Hworld | exact Hresult].
Defined.


(** X15. [process_pending_alerts] delivers nothing. Without Slack every
    call of the immediate path returns false and the function returns.
    With Slack it returns only when no high-priority change is pending:
    the first pending change is one whose block is left, so
    [send_immediate_alert] raises at [change.priority], the handler of the
    loop raises at [change.id] in its log line, and that exception leaves
    the function. Nothing is posted, recorded or marked in either case. *)
Theorem process_pending_alerts_delivers_nothing :
  forall (self : AlertManager.t) (now : Z) (w : AlertManager.world),
    AlertManager.process_pending_alerts self now w
    = (if negb (AlertManager.has_slack self) then Ok tt
       else match AlertManager.get_pending_alerts (AlertManager.db w)
                    (Some "high") None with
            | [] => Ok tt
            | _ :: _ => Raise Orm.DetachedInstanceError
            end,
       w)
    /\ (forall c,
           AlertManager.has_slack self = true ->
           In c (Db.changes (AlertManager.db w)) ->
           AlertFacts.is_pending (AlertManager.db w) (Some "high") None c = true ->
           AlertManager.process_pending_alerts self now w
           = (Raise Orm.DetachedInstanceError, w)).
Proof.
  intros self now w.
  assert (Hform : AlertManager.process_pending_alerts self now w
                  = (if negb (AlertManager.has_slack self) then Ok tt
                     else match AlertManager.get_pending_alerts (AlertManager.db w)
                                  (Some "high") None with
                          | [] => Ok tt
                          | _ :: _ => Raise Orm.DetachedInstanceError
                          end,
                     w))
    by apply send_each_expired.
  split; [exact Hform|].
  intros c Hslack Hin Hpending. rewrite Hform, Hslack. cbn [negb].
  assert (Hc : In c (AlertManager.get_pending_alerts (AlertManager.db w) (Some "high")
                       None)).
  { rewrite get_pending_alerts_filter. apply filter_In. split; assumption. }
  destruct (AlertManager.get_pending_alerts (AlertManager.db w) (Some "high") None);
    [destruct Hc | reflexivity].
Qed.

Lemma process_pending_alerts_delivers_nothing_witness :
  AlertManager.process_pending_alerts Examples.slack_up 300 Examples.world_high
  = (Raise Orm.DetachedInstanceError, Examples.world_high).
Proof.
  apply (proj2 (process_pending_alerts_delivers_nothing Examples.slack_up 300
                  Examples.world_high) Examples.high_change);
    [reflexivity | left; reflexivity | reflexivity].
Defined.


(** ** What detection records *)

Lemma length_slice_to (n : nat) (s : string) :
  (String.length (slice_to n s) <= n)%nat.
Proof.
  unfold slice_to. revert s. induction n as [|n IH]; intro s.
  - destruct s; simpl; lia.
  - destruct s as [|c s]; simpl; [lia|]. specialize (IH s). lia.
Qed.

Lemma next_id_fresh (ids : list Z) (i : Z) : In i ids -> (i < Db.next_id ids)%Z.
Proof.
  unfold Db.next_id. induction ids as [|j ids IH]; cbn [In fold_right]; [intros []|].
  intros [-> | Hin]; [lia|]. specialize (IH Hin). lia.
Qed.

Section DetectionRecords.
Context `{Difflib} `{FloatBuiltins} `{StructuredComparators} `{JsonAnalysis}.

(** Evidence is only returned for two snapshots of different hash that both
    have text, and it holds all five keys. *)
Lemma compare_snapshots_evidence (db : Db.t) (snapshot_before snapshot_after : Snapshot.t)
    (change_data : ChangeData.t) :
  DiffEngine.compare_snapshots db snapshot_before snapshot_after = Ok (Some change_data) ->
  exists text_before text_after,
    Snapshot.content_text snapshot_before = Some text_before
    /\ Snapshot.content_text snapshot_after = Some text_after
    /\ text_before <> "" /\ text_after <> ""
    /\ Snapshot.content_hash snapshot_before <> Snapshot.content_hash snapshot_after
    /\ ChangeData.before_content change_data = Some text_before
    /\ ChangeData.after_content change_data = Some text_after
    /\ ChangeData.text_diff change_data
       = Some (DiffEngine._text_diff text_before text_after)
    /\ ChangeData.content_change_percentage change_data
       = Some (DiffEngine._calculate_change_percentage text_before text_after).
Proof.
  unfold DiffEngine.compare_snapshots.
  destruct (String.eqb_spec (Snapshot.content_hash snapshot_before)
              (Snapshot.content_hash snapshot_after)) as [Heq | Hne]; [discriminate|].
  destruct (Snapshot.content_text snapshot_before) as [text_before|]; [|discriminate].
  destruct (Snapshot.content_text snapshot_after) as [text_after|];
    [|simpl; rewrite orb_true_r; discriminate].
  simpl truthy_str.
  destruct (String.eqb_spec text_before "") as [Hb | Hb]; [discriminate|].
  destruct (String.eqb_spec text_after "") as [Ha | Ha]; [discriminate|].
  simpl.
  match goal with
  | |- Py.bind ?p _ = _ -> _ => destruct p as [structured_diff | e]
  end; simpl; [|discriminate].
  intro Heq. injection Heq as <-.
  exists text_before, text_after. simpl. repeat split; auto.
Qed.

Lemma _create_change_record_fields (now : Z) (db : Db.t) (asset : Asset.t)
    (snapshot_before snapshot_after : Snapshot.t) (change_data : ChangeData.t)
    (semantic_analysis : option SemanticAnalysis.t) :
  let change := fst (ChangeDetector._create_change_record now db asset snapshot_before
                       snapshot_after change_data semantic_analysis) in
  Change.id change = Db.next_id (map Change.id (Db.changes db))
  /\ Change.snapshot_before_id change = Snapshot.id snapshot_before
  /\ Change.priority change = None
  /\ Change.alert_sent change = false
  /\ Change.alert_sent_at change = None
  /\ Change.detected_at change = Some now
  /\ Change.before_content change
     = Some (slice_to 10000 (get_or "" (ChangeData.before_content change_data)))
  /\ Change.after_content change
     = Some (slice_to 10000 (get_or "" (ChangeData.after_content change_data)))
  /\ Change.change_type change <> None
  /\ Change.summary change <> None
  /\ Change.why_it_matters change <> None.
Proof.
  unfold ChangeDetector._create_change_record.
  destruct semantic_analysis as [sa|]; [destruct (SemanticAnalysis.truthy sa)|];
    simpl; repeat split; discriminate.
Qed.

End DetectionRecords.

(** X5. What a detected change looks like. The change that
    [detect_changes_for_asset] returns points to the two latest snapshots of
    the asset (the latest as after, the one before it as before), which
    differ in hash and both have text; its excerpts are the first 10000
    characters of their texts; it is unclassified and unsent, stamped with
    the time of the run, keyed above every change of the table, and it is
    the one row appended to the table. Not being classified, it is not
    pending for any alert. *)
Theorem detected_change_record :
  forall `{Difflib} `{FloatBuiltins} `{StructuredComparators} `{JsonAnalysis}
         (self : ChangeDetector.t) (now : Z) (db : Db.t) (asset : Asset.t)
         (change : Change.t),
    let run := ChangeDetector.detect_changes_for_asset self now db asset in
    fst run = Ok [change] ->
    exists asset' snapshot_after snapshot_before text_before text_after,
      Db.asset_by_id db (Asset.id asset) = Some asset'
      /\ ChangeDetector.last_two_snapshots db asset' = [snapshot_after; snapshot_before]
      /\ Change.asset_id change = Asset.id asset'
      /\ Change.snapshot_after_id change = Snapshot.id snapshot_after
      /\ Change.snapshot_before_id change = Snapshot.id snapshot_before
      /\ Snapshot.content_hash snapshot_before <> Snapshot.content_hash snapshot_after
      /\ Snapshot.content_text snapshot_before = Some text_before
      /\ Snapshot.content_text snapshot_after = Some text_after
      /\ Change.before_content change = Some (slice_to 10000 text_before)
      /\ Change.after_content change = Some (slice_to 10000 text_after)
      /\ (String.length (slice_to 10000 text_before) <= 10000)%nat
      /\ (String.length (slice_to 10000 text_after) <= 10000)%nat
      /\ Change.priority change = None
      /\ Change.alert_sent change = false
      /\ Change.alert_sent_at change = None
      /\ Change.detected_at change = Some now
      /\ (forall c, In c (Db.changes db) -> (Change.id c < Change.id change)%Z)
      /\ Db.changes (snd run) = (Db.changes db ++ [change])%list
      /\ (forall priority since,
             ~ In change (AlertManager.get_pending_alerts (snd run) priority since)).
Proof.
  intros D F C J self now db asset change run. unfold run.
  unfold ChangeDetector.detect_changes_for_asset.
  destruct (Db.asset_by_id db (Asset.id asset)) as [asset'|]; [|discriminate].
  destruct (ChangeDetector.last_two_snapshots db asset')
    as [|snapshot_after [|snapshot_before [|x l]]] eqn:Hsnaps; try discriminate.
  destruct (ChangeDetector.change_for_snapshot_after db (Snapshot.id snapshot_after));
    [discriminate|].
  destruct (DiffEngine.compare_snapshots db snapshot_before snapshot_after)
    as [[change_data|]|e] eqn:Hcompare; try discriminate.
  destruct (negb (DiffEngine.is_significant_change change_data
                    DiffEngine.default_threshold)); [discriminate|].
  destruct (ChangeDetector.semantic_step self asset' snapshot_before snapshot_after
              change_data) as [semantic_analysis|]; [|discriminate].
  pose proof (_create_change_record_effect now db asset' snapshot_before
                snapshot_after change_data semantic_analysis) as Heff.
  pose proof (_create_change_record_fields now db asset' snapshot_before
                snapshot_after change_data semantic_analysis) as Hfields.
  destruct (ChangeDetector._create_change_record now db asset' snapshot_before
              snapshot_after change_data semantic_analysis) as [created db'].
  cbn [fst snd] in *. destruct Heff as (-> & Hafter & Hasset).
  destruct Hfields as (Hid & Hbefore & Hprio & Hsent & Hsent_at & Hat & Hbc & Hac & _).
  intro Heq. injection Heq as <-.
  destruct (compare_snapshots_evidence _ _ _ _ Hcompare)
    as (text_before & text_after & Htb & Hta & _ & _ & Hhash & Hcb & Hca & _).
  rewrite Hcb in Hbc. rewrite Hca in Hac. simpl in Hbc, Hac.
  exists asset', snapshot_after, snapshot_before, text_before, text_after.
  repeat match goal with |- _ /\ _ => split end;
    try assumption; try reflexivity; try apply length_slice_to.
  - intros c Hc. rewrite Hid. apply next_id_fresh. apply in_map. exact Hc.
  - intros priority since Hin.
    rewrite get_pending_alerts_filter in Hin. apply filter_In in Hin.
    destruct Hin as [_ Hp]. unfold AlertFacts.is_pending in Hp.
    rewrite Hprio in Hp. rewrite !andb_false_r in Hp. simpl in Hp.
    rewrite ?andb_false_r in Hp. discriminate.
Qed.

Lemma detected_change_record_witness :
  exists change,
    fst (@ChangeDetector.detect_changes_for_asset Examples.difflib Examples.float_builtins
           Examples.failing_comparators Examples.json_analysis
           Examples.detector_no_llm 500 Examples.db0 Examples.pricing_page)
    = Ok [change]
    /\ Change.priority change = None
    /\ Change.detected_at change = Some 500%Z.
Proof.
  assert (Hrun : exists change,
             fst (@ChangeDetector.detect_changes_for_asset Examples.difflib
                    Examples.float_builtins Examples.failing_comparators
                    Examples.json_analysis Examples.detector_no_llm 500 Examples.db0
                    Examples.pricing_page)
             = Ok [change])
    by (eexists; vm_compute; reflexivity).
  destruct Hrun as [change Hrun]. exists change.
  destruct (@detected_change_record Examples.difflib Examples.float_builtins
              Examples.failing_comparators Examples.json_analysis
              Examples.detector_no_llm 500 Examples.db0 Examples.pricing_page change Hrun)
    as (asset' & sa & sb & tb & ta & H).
  split; [exact Hrun|]. split; apply H.
Defined.

(** X6. No difference, no change. When the two latest snapshots of the
    asset have the same content hash, or one of them has no text,
    [detect_changes_for_asset] returns the empty list and leaves the
    database as it is, whatever the service would answer. *)
Theorem detect_changes_without_difference :
  forall `{Difflib} `{FloatBuiltins} `{StructuredComparators} `{JsonAnalysis}
         (self : ChangeDetector.t) (now : Z) (db : Db.t) (asset asset' : Asset.t)
         (snapshot_after snapshot_before : Snapshot.t),
    Db.asset_by_id db (Asset.id asset) = Some asset' ->
    ChangeDetector.last_two_snapshots db asset' = [snapshot_after; snapshot_before] ->
    Snapshot.content_hash snapshot_before = Snapshot.content_hash snapshot_after
    \/ truthy_str (Snapshot.content_text snapshot_before) = false
    \/ truthy_str (Snapshot.content_text snapshot_after) = false ->
    ChangeDetector.detect_changes_for_asset self now db asset = (Ok [], db).
Proof.
  intros D F C J self now db asset asset' snapshot_after snapshot_before
    Hasset Hsnaps Hsame.
  unfold ChangeDetector.detect_changes_for_asset. rewrite Hasset, Hsnaps.
  destruct (ChangeDetector.change_for_snapshot_after db (Snapshot.id snapshot_after));
    [reflexivity|].
  assert (Hcompare : DiffEngine.compare_snapshots db snapshot_before snapshot_after
                     = Ok None).
  { unfold DiffEngine.compare_snapshots.
    destruct (String.eqb_spec (Snapshot.content_hash snapshot_before)
                (Snapshot.content_hash snapshot_after)) as [Heq | Hne]; [reflexivity|].
    destruct Hsame as [Heq | [Hb | Ha]]; [contradiction | |].
    - rewrite Hb. reflexivity.
    - rewrite Ha, orb_true_r. reflexivity. }
  rewrite Hcompare. reflexivity.
Qed.

Lemma detect_changes_without_difference_witness :
  @ChangeDetector.detect_changes_for_asset Examples.difflib Examples.float_builtins
    Examples.failing_comparators Examples.json_analysis
    Examples.detector_down 500 Fixtures.db_same_hash Examples.pricing_page
  = (Ok [], Fixtures.db_same_hash).
Proof.
  apply (@detect_changes_without_difference Examples.difflib Examples.float_builtins
           Examples.failing_comparators Examples.json_analysis
           Examples.detector_down 500 Fixtures.db_same_hash Examples.pricing_page
           Examples.pricing_page Examples.snapshot1' Examples.snapshot1).
  - reflexivity.
  - reflexivity.
  - left. reflexivity.
Defined.



(** ** Detection over all assets *)

Section DetectAllFacts.
Context `{Difflib} `{FloatBuiltins} `{StructuredComparators} `{JsonAnalysis}.

(** The asset found for a key has that key. *)
Lemma asset_by_id_key (db : Db.t) (i : Z) (asset : Asset.t) :
  Db.asset_by_id db i = Some asset -> Asset.id asset = i.
Proof.
  unfold Db.asset_by_id. intro Hfind. apply find_some in Hfind.
  destruct Hfind as [_ Hkey]. apply Z.eqb_eq. exact Hkey.
Qed.

Lemma detect_each_effect (self : ChangeDetector.t) (clock : Z -> Z) (asset_ids : list Z) :
  forall db : Db.t,
    let r := ChangeDetectorAll.detect_each self clock db asset_ids in
    Db.changes (snd r) = (Db.changes db ++ fst r)%list
    /\ Db.competitors (snd r) = Db.competitors db
    /\ Db.assets (snd r) = Db.assets db
    /\ Db.snapshots (snd r) = Db.snapshots db
    /\ Db.alerts (snd r) = Db.alerts db
    /\ (forall i, (count_occ Z.eq_dec (map Change.asset_id (fst r)) i
                   <= count_occ Z.eq_dec asset_ids i)%nat)
    /\ (List.length (fst r) <= List.length asset_ids)%nat
    /\ (NoDup (map Change.snapshot_after_id (Db.changes db)) ->
        NoDup (map Change.snapshot_after_id (Db.changes (snd r)))).
Proof.
  induction asset_ids as [|i rest IH]; intro db; cbn zeta.
  - simpl. rewrite app_nil_r. repeat split; auto.
  - cbn [ChangeDetectorAll.detect_each].
    destruct (Db.asset_by_id db i) as [asset|] eqn:Hasset.
    + pose proof (detect_changes_for_asset_effect self (clock i) db asset) as Heff.
      cbn zeta in Heff.
      destruct (ChangeDetector.detect_changes_for_asset self (clock i) db asset)
        as [r db'] eqn:Hrun.
      destruct (IH db') as (Hc & Hco & Ha & Hs & Hal & Hocc & Hlen & Hnd).
      destruct (ChangeDetectorAll.detect_each self clock db' rest) as [more db''].
      cbn [fst snd] in *.
      destruct Heff as [[-> Hnone] | Hnew].
      * assert (Hr : match r with Ok changes => changes | Raise _ => [] end = [])
          by (destruct Hnone as [-> | [e ->]]; reflexivity).
        rewrite Hr. cbn [app].
        split; [assumption|]. split; [assumption|]. split; [assumption|].
        split; [assumption|]. split; [assumption|].
        split; [|split; [simpl; lia | assumption]].
        intro j. specialize (Hocc j). cbn [count_occ].
        destruct (Z.eq_dec i j); lia.
      * destruct Hnew
          as (asset' & sa & sb & change & Hfound & _ & Hex & Hafter & Hkey & Heq).
        injection Heq as -> ->.
        assert (Hi : Change.asset_id change = i).
        { rewrite Hkey. rewrite (asset_by_id_key db (Asset.id asset) asset' Hfound).
          apply (asset_by_id_key db i asset Hasset). }
        simpl in *.
        split; [rewrite Hc, <- app_assoc; reflexivity|]. split; [assumption|].
        split; [assumption|]. split; [assumption|]. split; [assumption|].
        split; [|split; [lia|]].
        { intro j. specialize (Hocc j). rewrite Hi.
          destruct (Z.eq_dec i j); lia. }
        intro Hnodup. apply Hnd. rewrite map_app. simpl.
        apply NoDup_snoc; [exact Hnodup|].
        intro Hin. apply in_map_iff in Hin. destruct Hin as (c & Hcid & Hcin).
        unfold ChangeDetector.change_for_snapshot_after in Hex.
        pose proof (find_none _ _ Hex c Hcin) as Hno. simpl in Hno.
        rewrite Hcid, Hafter, Z.eqb_refl in Hno. discriminate.
    + destruct (IH db) as (Hc & Hco & Ha & Hs & Hal & Hocc & Hlen & Hnd).
      split; [assumption|]. split; [assumption|]. split; [assumption|].
      split; [assumption|]. split; [assumption|].
      split; [|split; [simpl; lia | assumption]].
      intro j. specialize (Hocc j). cbn [count_occ].
      destruct (Z.eq_dec i j); lia.
Qed.

End DetectAllFacts.

(** X8. [detect_changes_for_all_assets] returns exactly the rows it appends
    to the table of changes and touches no other table: the competitors,
    the assets, the snapshots and the alerts are as they were. It returns
    at most one change per asset: a key is the asset of no more returned
    changes than there are assets of that key, so with the keys of the
    assets pairwise distinct no two returned changes are of the same
    asset, and every returned change is of an asset of the table. It keeps
    the after pointers of the recorded changes pairwise distinct. *)
Theorem detect_changes_for_all_assets_effect :
  forall `{Difflib} `{FloatBuiltins} `{StructuredComparators} `{JsonAnalysis}
         (self : ChangeDetector.t) (clock : Z -> Z) (db : Db.t),
    let run := ChangeDetectorAll.detect_changes_for_all_assets self clock db in
    Db.changes (snd run) = (Db.changes db ++ fst run)%list
    /\ Db.competitors (snd run) = Db.competitors db
    /\ Db.assets (snd run) = Db.assets db
    /\ Db.snapshots (snd run) = Db.snapshots db
    /\ Db.alerts (snd run) = Db.alerts db
    /\ (forall i, (count_occ Z.eq_dec (map Change.asset_id (fst run)) i
                   <= count_occ Z.eq_dec (map Asset.id (Db.assets db)) i)%nat)
    /\ (NoDup (map Asset.id (Db.assets db)) ->
        NoDup (map Change.asset_id (fst run)))
    /\ (forall change, In change (fst run) ->
                       exists asset, In asset (Db.assets db)
                                     /\ Asset.id asset = Change.asset_id change)
    /\ (List.length (fst run) <= List.length (Db.assets db))%nat
    /\ (NoDup (map Change.snapshot_after_id (Db.changes db)) ->
        NoDup (map Change.snapshot_after_id (Db.changes (snd run)))).
Proof.
  intros D F C J self clock db run.
  pose proof (detect_each_effect self clock (map Asset.id (Db.assets db)) db) as Heff.
  cbn zeta in Heff. rewrite length_map in Heff.
  destruct Heff as (Hc & Hco & Ha & Hs & Hal & Hocc & Hlen & Hnd).
  fold (ChangeDetectorAll.detect_changes_for_all_assets self clock db) in *.
  fold run in Hc, Hco, Ha, Hs, Hal, Hocc, Hlen, Hnd.
  split; [exact Hc|]. split; [exact Hco|]. split; [exact Ha|]. split; [exact Hs|].
  split; [exact Hal|]. split; [exact Hocc|].
  split; [|split; [|split; [exact Hlen | exact Hnd]]].
  - intro Hkeys. apply (NoDup_count_occ Z.eq_dec). intro i.
    specialize (Hocc i).
    pose proof (proj1 (NoDup_count_occ Z.eq_dec _) Hkeys i). lia.
  - intros change Hin.
    assert (Hkey : In (Change.asset_id change) (map Asset.id (Db.assets db))).
    { apply (count_occ_In Z.eq_dec).
      assert (Hpos : (count_occ Z.eq_dec (map Change.asset_id (fst run))
                        (Change.asset_id change) > 0)%nat)
        by (apply (count_occ_In Z.eq_dec); apply in_map; exact Hin).
      specialize (Hocc (Change.asset_id change)). lia. }
    apply in_map_iff in Hkey. destruct Hkey as (asset & Hid & Hasset).
    exists asset. split; assumption.
Qed.

Lemma detect_changes_for_all_assets_effect_witness :
  let run :=
    @ChangeDetectorAll.detect_changes_for_all_assets Examples.difflib
      Examples.float_builtins Examples.failing_comparators Examples.json_analysis
      Examples.detector_no_llm (fun _ => 300%Z) Examples.db0 in
  map Change.asset_id (fst run) = [1%Z]
  /\ Db.changes (snd run) = fst run
  /\ Db.competitors (snd run) = [Examples.acme].
Proof.
  intro run.
  destruct (@detect_changes_for_all_assets_effect Examples.difflib
              Examples.float_builtins Examples.failing_comparators Examples.json_analysis
              Examples.detector_no_llm (fun _ => 300%Z) Examples.db0)
    as (Hchanges & Hcompetitors & _).
  split; [reflexivity|]. split; [exact Hchanges | exact Hcompetitors].
Defined.

(** ** The keyword rules and the normal form of a classification *)

Lemma prefix_append (k s : string) : prefix k (k ++ s) = true.
Proof.
  induction k as [|c k IH]; simpl; [destruct s; reflexivity|].
  destruct (ascii_dec c c) as [_ | Hne]; [exact IH | contradiction].
Qed.

Lemma contains_append (k s : string) : contains k (k ++ s) = true.
Proof.
  pose proof (prefix_append k s) as Hp.
  destruct (k ++ s); cbn [contains]; rewrite Hp; reflexivity.
Qed.

Lemma combined_text_lower (change : Change.t) (classification : Classification.t) :
  PriorityAssigner.combined_text change classification
  = lower (PriorityAssigner.combined_text change classification).
Proof.
  unfold PriorityAssigner.combined_text, PriorityAssigner.field_lower.
  rewrite !lower_app, !lower_idem. reflexivity.
Qed.

(** X9. Four of the fifteen high-priority keywords never count. The text
    the keywords are matched against is in lower case, so SOC, ISO, GDPR and
    HIPAA occur in none: matching [HIGH_PRIORITY_KEYWORDS] is matching the
    eleven keywords written in lower case, and so is the priority the rules
    give. *)
Theorem capital_keywords_never_count :
  forall (change : Change.t) (classification : Classification.t),
    let text := PriorityAssigner.combined_text change classification in
    any_in PriorityAssigner.HIGH_PRIORITY_KEYWORDS text
    = any_in PriorityFacts.effective_high_keywords text
    /\ Forall (fun k => contains k text = false) ["SOC"; "ISO"; "GDPR"; "HIPAA"].
Proof.
  intros change classification text.
  assert (Hdead : forall c k,
             (65 <=? nat_of_ascii c)%nat && (nat_of_ascii c <=? 90)%nat = true ->
             contains (String c k) text = false).
  { intros c k Hc. unfold text. rewrite combined_text_lower.
    apply capital_keyword_never_matches. exact Hc. }
  split.
  - unfold any_in, PriorityAssigner.HIGH_PRIORITY_KEYWORDS,
      PriorityFacts.effective_high_keywords.
    cbn [existsb].
    rewrite (Hdead "S"%char "OC" eq_refl), (Hdead "I"%char "SO" eq_refl),
      (Hdead "G"%char "DPR" eq_refl), (Hdead "H"%char "IPAA" eq_refl).
    reflexivity.
  - repeat constructor; apply Hdead; reflexivity.
Qed.

(** X10. The default by change type never decides. The change type opens
    the text the keywords are matched against, and each change type of the
    default table (pricing, compliance, changelog, news) is itself a
    keyword: a change whose type is in the table is settled by the keywords
    before the table is read, and what reaches the table gets low. The
    priority of the rules is thus a function of the keyword matches alone,
    and a pricing change that mentions a blog is not high. *)
Theorem default_by_type_never_decides :
  forall (change : Change.t) (classification : Classification.t),
    let change_type :=
      PriorityAssigner.field_lower (Classification.change_type classification)
                                   (Change.change_type change) in
    let text := PriorityAssigner.combined_text change classification in
    PriorityAssigner._rule_based_priority change classification
    = PriorityFacts.keyword_rules text
    /\ (str_in change_type ["pricing"; "compliance"] = true ->
        any_in PriorityAssigner.HIGH_PRIORITY_KEYWORDS text = true)
    /\ (str_in change_type ["changelog"; "news"] = true ->
        any_in PriorityAssigner.MEDIUM_PRIORITY_KEYWORDS text = true)
    /\ (str_in change_type ["pricing"; "compliance"] = true ->
        any_in PriorityAssigner.LOW_PRIORITY_KEYWORDS text = true ->
        PriorityAssigner._rule_based_priority change classification <> "high").
Proof.
  intros change classification change_type text.
  assert (Hopen : forall k, change_type = k -> contains k text = true).
  { intros k <-. unfold text, PriorityAssigner.combined_text. fold change_type.
    apply contains_append. }
  assert (Hhigh : str_in change_type ["pricing"; "compliance"] = true ->
                  any_in PriorityAssigner.HIGH_PRIORITY_KEYWORDS text = true).
  { rewrite str_in_2. intro Hin. apply orb_true_iff in Hin.
    unfold any_in, PriorityAssigner.HIGH_PRIORITY_KEYWORDS. cbn [existsb].
    destruct Hin as [Hk | Hk]; apply String.eqb_eq in Hk;
      rewrite (Hopen _ Hk), ?orb_true_r; reflexivity. }
  assert (Hmedium : str_in change_type ["changelog"; "news"] = true ->
                    any_in PriorityAssigner.MEDIUM_PRIORITY_KEYWORDS text = true).
  { rewrite str_in_2. intro Hin. apply orb_true_iff in Hin.
    unfold any_in, PriorityAssigner.MEDIUM_PRIORITY_KEYWORDS. cbn [existsb].
    destruct Hin as [Hk | Hk]; apply String.eqb_eq in Hk;
      rewrite (Hopen _ Hk), ?orb_true_r; reflexivity. }
  assert (Hrules : PriorityAssigner._rule_based_priority change classification
                   = PriorityFacts.keyword_rules text).
  { unfold PriorityAssigner._rule_based_priority, PriorityFacts.keyword_rules.
    fold change_type. fold text.
    destruct (any_in PriorityAssigner.HIGH_PRIORITY_KEYWORDS text) eqn:Hh;
      destruct (any_in PriorityAssigner.LOW_PRIORITY_KEYWORDS text) eqn:Hl;
      destruct (any_in PriorityAssigner.MEDIUM_PRIORITY_KEYWORDS text) eqn:Hm;
      cbn [andb negb]; try reflexivity.
    - destruct (str_in change_type ["pricing"; "compliance"]) eqn:Hp.
      + specialize (Hhigh eq_refl). discriminate.
      + destruct (str_in change_type ["changelog"; "news"]) eqn:Hc; [|reflexivity].
        specialize (Hmedium eq_refl). discriminate. }
  split; [exact Hrules|]. split; [exact Hhigh|]. split; [exact Hmedium|].
  intros _ Hlow. rewrite Hrules. unfold PriorityFacts.keyword_rules.
  rewrite Hlow, andb_false_r.
  destruct (any_in PriorityAssigner.MEDIUM_PRIORITY_KEYWORDS text); discriminate.
Qed.

(** *** Confidence, clamped *)

Lemma float_ltb_leb (x y : float) : (x <? y)%float = true -> (x <=? y)%float = true.
Proof.
  rewrite FloatAxioms.ltb_spec, FloatAxioms.leb_spec. unfold SFltb, SFleb.
  destruct (SFcompare (Prim2SF x) (Prim2SF y)) as [[]|]; auto; discriminate.
Qed.

Lemma clamp_cases (c : float) :
  ((c <? 1)%float = true /\ (0 <? c)%float = true /\ PriorityFacts.clamp c = c)
  \/ PriorityFacts.clamp c = 0%float
  \/ PriorityFacts.clamp c = 1%float.
Proof.
  unfold PriorityFacts.clamp, max_float, min_float.
  destruct (c <? 1)%float eqn:H1.
  - destruct (0 <? c)%float eqn:H0; auto.
  - right. right. reflexivity.
Qed.

Lemma clamp_bounds (c : float) :
  (0 <=? PriorityFacts.clamp c)%float = true /\ (PriorityFacts.clamp c <=? 1)%float = true.
Proof.
  destruct (clamp_cases c) as [(H1 & H0 & ->) | [-> | ->]].
  - split; apply float_ltb_leb; assumption.
  - split; reflexivity.
  - split; reflexivity.
Qed.

Lemma clamp_idem (c : float) :
  PriorityFacts.clamp (PriorityFacts.clamp c) = PriorityFacts.clamp c.
Proof.
  destruct (clamp_cases c) as [(H1 & H0 & Hc) | [-> | ->]].
  - rewrite Hc. unfold PriorityFacts.clamp, max_float, min_float.
    rewrite H1, H0. reflexivity.
  - reflexivity.
  - reflexivity.
Qed.

(** *** Sentences of a normalized summary *)

Lemma normalized_summary_pieces (result : Classification.t) (change_data : ChangeData.t) :
  let normalized :=
    Classification.summary
      (ChangeClassifier._validate_classification result change_data) in
  (List.length (split ". " (get_or "" normalized)) <= 3)%nat
  /\ truthy_str normalized = truthy_str (Classification.summary result).
Proof.
  cbn zeta. unfold ChangeClassifier._validate_classification.
  cbn [Classification.summary].
  assert (Hsep : ". " <> "") by discriminate.
  destruct (3 <? List.length (split ". " (get_or "" (Classification.summary result))))%nat
    eqn:Hlen.
  - destruct (split ". " (get_or "" (Classification.summary result)))
      as [|p1 [|p2 [|p3 [|p4 more]]]] eqn:Hsent;
      try (simpl in Hlen; discriminate).
    destruct (split_cons_inv _ _ _ _ _ Hsep Hsent) as (r1 & Hf1 & Hs & Hs1).
    destruct (split_cons_inv _ _ _ _ _ Hsep Hs1) as (r2 & Hf2 & _ & Hs2).
    destruct (split_cons_inv _ _ _ _ _ Hsep Hs2) as (r3 & Hf3 & _ & _).
    cbn [firstn join String.concat get_or].
    set (joined := p1 ++ ". " ++ p2 ++ ". " ++ p3).
    assert (Hpieces : forall p3',
               split ". " (p3' : string) = [p3'] ->
               List.length (split ". " (p1 ++ ". " ++ p2 ++ ". " ++ p3')) = 3%nat).
    { intros p3' Hp.
      rewrite (split_replace_tail _ _ _ _ Hsep Hf1).
      rewrite (split_replace_tail _ _ _ _ Hsep Hf2).
      rewrite Hp. reflexivity. }
    assert (Horig : truthy_str (Classification.summary result) = true).
    { destruct (Classification.summary result) as [s|]; simpl in *.
      - destruct s; [discriminate | reflexivity].
      - discriminate. }
    rewrite Horig.
    destruct (endswith joined ".").
    + split.
      * unfold joined. rewrite Hpieces; [lia|].
        rewrite <- (append_nil_r p3).
        apply (split_piece ". " "" ". " p3 r3); [reflexivity | discriminate | exact Hf3].
      * unfold joined. destruct p1; reflexivity.
    + split.
      * unfold joined. rewrite !append_assoc.
        rewrite Hpieces; [lia|].
        apply (split_piece ". " "." " " p3 r3); [reflexivity | discriminate | exact Hf3].
      * unfold joined. destruct p1; reflexivity.
  - apply Nat.ltb_ge in Hlen. split; [exact Hlen | reflexivity].
Qed.

(** The fields of a validated classification. *)
Lemma _validate_classification_fields (result : Classification.t)
    (change_data : ChangeData.t) :
  let normal := ChangeClassifier._validate_classification result change_data in
  exists priority confidence,
    Classification.priority normal = Some priority
    /\ str_in priority ["high"; "medium"; "low"] = true
    /\ Classification.confidence normal = Some confidence
    /\ (0 <=? confidence)%float = true
    /\ (confidence <=? 1)%float = true
    /\ Classification.change_type normal = Classification.change_type result
    /\ Classification.why_it_matters normal = Classification.why_it_matters result
    /\ (Classification.summary result <> None ->
        exists s, Classification.summary normal = Some s).
Proof.
  intro normal.
  set (p0 := lower (get_or "medium" (Classification.priority result))).
  exists (if str_in p0 ["high"; "medium"; "low"] then p0 else "medium"),
    (PriorityFacts.clamp (get_or 0.5%float (Classification.confidence result))).
  destruct (clamp_bounds (get_or 0.5%float (Classification.confidence result))).
  split; [reflexivity|].
  split; [destruct (str_in p0 ["high"; "medium"; "low"]) eqn:Hin;
          [exact Hin | reflexivity]|].
  split; [reflexivity|]. split; [assumption|]. split; [assumption|].
  split; [reflexivity|]. split; [reflexivity|].
  intro Hsome. unfold normal, ChangeClassifier._validate_classification.
  cbn [Classification.summary].
  destruct (3 <? _)%nat; [eexists; reflexivity|].
  destruct (Classification.summary result) as [s|]; [eexists; reflexivity | contradiction].
Qed.

(** X11. [_validate_classification] brings a classification to a normal
    form and leaves a normal form alone: the priority is one of the three
    tiers, the confidence lies between 0 and 1, the summary has at most
    three sentences, the change type and the rationale are untouched, and
    validating the result again (with any change data) changes nothing. *)
Theorem _validate_classification_normal_form :
  forall (result : Classification.t) (change_data change_data' : ChangeData.t),
    let normal := ChangeClassifier._validate_classification result change_data in
    (exists priority confidence,
        Classification.priority normal = Some priority
        /\ str_in priority ["high"; "medium"; "low"] = true
        /\ Classification.confidence normal = Some confidence
        /\ (0 <=? confidence)%float = true
        /\ (confidence <=? 1)%float = true)
    /\ (List.length (split ". " (get_or "" (Classification.summary normal))) <= 3)%nat
    /\ Classification.change_type normal = Classification.change_type result
    /\ Classification.why_it_matters normal = Classification.why_it_matters result
    /\ ChangeClassifier._validate_classification normal change_data' = normal.
Proof.
  intros result change_data change_data' normal.
  pose proof (normalized_summary_pieces result change_data) as [Hpieces _].
  cbn zeta in Hpieces. fold normal in Hpieces.
  set (p0 := lower (get_or "medium" (Classification.priority result))).
  set (priority := if str_in p0 ["high"; "medium"; "low"] then p0 else "medium").
  set (confidence := PriorityFacts.clamp (get_or 0.5%float (Classification.confidence result))).
  assert (Hp : Classification.priority normal = Some priority) by reflexivity.
  assert (Hc : Classification.confidence normal = Some confidence) by reflexivity.
  assert (Htier : str_in priority ["high"; "medium"; "low"] = true).
  { unfold priority. destruct (str_in p0 ["high"; "medium"; "low"]) eqn:Hin;
      [exact Hin | reflexivity]. }
  assert (Hlow : lower priority = priority).
  { unfold priority. destruct (str_in p0 ["high"; "medium"; "low"]);
      [apply lower_idem | reflexivity]. }
  split; [|split; [exact Hpieces | split; [reflexivity | split; [reflexivity|]]]].
  - exists priority, confidence.
    destruct (clamp_bounds (get_or 0.5%float (Classification.confidence result))).
    auto.
  - unfold ChangeClassifier._validate_classification at 1.
    rewrite Hp, Hc. cbn [get_or]. rewrite Hlow, Htier.
    apply Nat.ltb_ge in Hpieces. rewrite Hpieces.
    fold (PriorityFacts.clamp confidence). unfold confidence. rewrite clamp_idem.
    reflexivity.
Qed.

(** ** Classification with the service, and the manager *)

Lemma assign_priority_tier (change : Change.t) (classification : Classification.t) :
  str_in (PriorityAssigner.assign_priority change classification)
         ["high"; "medium"; "low"] = true.
Proof.
  unfold PriorityAssigner.assign_priority.
  destruct (0.7 <=? get_or 0 (Classification.confidence classification))%float.
  - destruct (str_in (lower (get_or "medium" (Classification.priority classification)))
                ["high"; "medium"; "low"]) eqn:Hin; [exact Hin|].
    rewrite _rule_based_priority_keyword. apply keyword_priority_tier.
  - rewrite _rule_based_priority_keyword. apply keyword_priority_tier.
Qed.

Lemma _rule_based_classification_fields :
  forall `{FloatBuiltins} (change_data : ChangeData.t) (asset_type : string)
         (change_type : option string) (classification : Classification.t),
    ChangeClassifier._rule_based_classification_static change_data asset_type change_type
    = Ok classification ->
    exists priority summary why_it_matters,
      classification
      = Classification.mk (Some priority) (Some (or_lit change_type asset_type))
          (Some summary) (Some why_it_matters) (Some 0.6%float)
      /\ str_in priority ["high"; "medium"; "low"] = true.
Proof.
  intros F cd asset_type change_type cl.
  unfold ChangeClassifier._rule_based_classification_static.
  match goal with
  | |- Py.bind ?p _ = _ -> _ => destruct p as [priority | e] eqn:Hp
  end; simpl; intro Heq; [|discriminate].
  injection Heq as <-. do 3 eexists. split; [reflexivity|].
  repeat match type of Hp with
         | (if ?b then _ else _) = _ => destruct b
         end;
    try (injection Hp as <-; reflexivity).
  destruct (ChangeClassifier.json_len _) as [n|]; simpl in Hp; [|discriminate].
  injection Hp as <-. destruct (0 <? n)%Z; reflexivity.
Qed.

(** X12. A normalized summary passes the sentence test of the quality gate.
    For a classification that went through [_validate_classification] and
    whose summary is not empty, [validate_quality] never answers that the
    summary is missing or has too many sentences: it accepts, or rejects for
    the rationale, the confidence or the excerpts. *)
Theorem normalized_summary_passes_the_gate :
  forall `{FloatBuiltins} (change : Change.t) (result : Classification.t)
         (change_data : ChangeData.t),
    truthy_str (Classification.summary result) = true ->
    let classification := ChangeClassifier._validate_classification result change_data in
    let verdict := PriorityAssigner.validate_quality change classification in
    verdict = (true, None)
    \/ verdict = (false, Some "Why it matters is missing or too short")
    \/ verdict = (false, Some "Why it matters contains speculative language")
    \/ verdict
       = (false,
          Some ("Classification confidence too low: "
                  ++ float_str (get_or 0%float (Classification.confidence classification))))
    \/ verdict = (false, Some "Before/after content is missing").
Proof.
  intros F change result change_data Hsummary classification verdict.
  destruct (normalized_summary_pieces result change_data) as [Hpieces Htruthy].
  cbn zeta in Hpieces, Htruthy. fold classification in Hpieces, Htruthy.
  rewrite Hsummary in Htruthy.
  unfold verdict, PriorityAssigner.validate_quality.
  cbv zeta.
  replace (or_str (Classification.summary classification) (Change.summary change))
    with (Classification.summary classification)
    by (unfold or_str; rewrite Htruthy; reflexivity).
  rewrite Htruthy. cbn [negb].
  apply Nat.ltb_ge in Hpieces. rewrite Hpieces.
  repeat match goal with
         | |- context [if ?b then (false, _) else _] => destruct b
         end;
    repeat (first [left; reflexivity | right]); reflexivity.
Qed.

Lemma normalized_summary_passes_the_gate_witness :
  @PriorityAssigner.validate_quality Examples.float_builtins Examples.change_unclassified
    (ChangeClassifier._validate_classification Examples.classification_long
       Examples.evidence_small)
  = (true, None).
Proof.
  destruct (@normalized_summary_passes_the_gate Examples.float_builtins
              Examples.change_unclassified Examples.classification_long
              Examples.evidence_small eq_refl)
    as [H | [H | [H | [H | H]]]]; [exact H | | | |];
    exfalso; revert H; vm_compute; discriminate.
Defined.

(** X13. Whatever the service answers, the classifier returns a complete
    classification within range: its five fields are there, the priority is
    one of the three tiers and the confidence lies between 0 and 1. This
    holds for the answer of the service, once parsed and validated, and for
    the rule-based fallback taken when the call or the parsing raises; the
    classifier raises only when the fallback does. *)
Theorem classify_change_complete :
  forall `{FloatBuiltins} `{ClassifierService}
         (self : ChangeClassifierLLM.t) (change_data : ChangeData.t) (text_diff : json)
         (asset_type url : string) (change_type summary why_it_matters : option string),
    let run :=
      ChangeClassifierLLM.classify_change self change_data text_diff asset_type url
        change_type summary why_it_matters in
    (forall classification,
        run = Ok classification ->
        exists priority change_type' summary' why_it_matters' confidence,
          classification
          = Classification.mk (Some priority) (Some change_type') (Some summary')
              (Some why_it_matters') (Some confidence)
          /\ str_in priority ["high"; "medium"; "low"] = true
          /\ (0 <=? confidence)%float = true
          /\ (confidence <=? 1)%float = true)
    /\ (forall e,
           run = Raise e ->
           ChangeClassifier._rule_based_classification_static change_data asset_type
             change_type = Raise e).
Proof.
  intros F S self change_data text_diff asset_type url change_type summary
    why_it_matters run.
  unfold run, ChangeClassifierLLM.classify_change.
  set (prompt := _build_classification_prompt _ _ _ _ _ _ _ _).
  set (call := if ChangeClassifierLLM.use_openai self
               then ChangeClassifierLLM._call_openai self prompt
               else ChangeClassifierLLM._call_anthropic self prompt).
  assert (Hfallback :
            forall classification,
              ChangeClassifier._rule_based_classification_static change_data asset_type
                change_type = Ok classification ->
              exists priority change_type' summary' why_it_matters' confidence,
                classification
                = Classification.mk (Some priority) (Some change_type') (Some summary')
                    (Some why_it_matters') (Some confidence)
                /\ str_in priority ["high"; "medium"; "low"] = true
                /\ (0 <=? confidence)%float = true
                /\ (confidence <=? 1)%float = true).
  { intros classification Hrule.
    destruct (_rule_based_classification_fields _ _ _ _ Hrule)
      as (priority & s & y & -> & Htier).
    do 5 eexists. split; [reflexivity|]. split; [exact Htier|].
    split; reflexivity. }
  destruct call as [response | e0]; cbn [Py.bind try_except];
    [|split; [exact Hfallback | auto]].
  unfold ChangeClassifierLLM._parse_classification_response.
  destruct (json_loads_classification (SemanticDiff.strip_code_block response))
    as [result | e1]; cbn [Py.bind try_except];
    [|split; [exact Hfallback | auto]].
  split; [|discriminate].
  intros classification Heq. injection Heq as <-.
  match goal with
  | |- context [ChangeClassifier._validate_classification ?r _] => set (parsed := r)
  end.
  destruct (_validate_classification_fields parsed change_data)
    as (priority & confidence & Hp & Htier & Hc & H0 & H1 & Hct & Hwhy & Hsum).
  cbn zeta in *. specialize (Hsum ltac:(discriminate)).
  destruct (ChangeClassifier._validate_classification parsed change_data)
    as [p ct s y c] eqn:Hv.
  cbn [Classification.priority Classification.confidence Classification.change_type
       Classification.why_it_matters Classification.summary] in *.
  subst p c ct y. destruct Hsum as [s' ->].
  do 5 eexists. split; [reflexivity|]. auto.
Qed.

(** *** What classifying a change leaves behind *)

(** What follows the update raises on the first read of the change that
    was read again, whose block is left. *)
Lemma after_update_expired `{FloatBuiltins} `{ClassifierService}
    (self : ClassifierManager.t) (now : Z) (w : AlertManager.world)
    (stored : Change.t) (priority : string) (should_alert : bool) :
  ClassifierManager.after_update self now w (Orm.expired stored) priority should_alert
  = (Raise Orm.DetachedInstanceError, w).
Proof. unfold ClassifierManager.after_update. destruct should_alert; reflexivity. Qed.

(** X14. What classifying a change leaves behind. [classify_change] never
    returns true and never has a message posted. Called with a change
    whose block is left it raises at its first log line and changes
    nothing. Called with a live change it returns false when the asset is
    not found or the classifier raises; when the change is not found
    again, the handler reads [change.id] of [None] and an [AttributeError]
    leaves the function. When the change is found, the rows with its key
    take the priority [assign_priority] gives, one of the three tiers, and
    what the classification states of the change type, the summary and the
    rationale; that update is committed, and then the log line that
    follows reads [change.id] of the row whose block is left, so the call
    raises, in the handler too, with the update in place and the verdict
    of [should_alert] never returned. *)
Theorem classify_change_outcome :
  forall `{FloatBuiltins} `{ClassifierService}
         (self : ClassifierManager.t) (now : Z) (w : AlertManager.world)
         (change : Orm.obj Change.t),
    let run := ClassifierManager.classify_change self now w change in
    let row := Orm.row change in
    fst run <> Ok true
    /\ AlertManager.posted (snd run) = AlertManager.posted w
    /\ Db.alerts (AlertManager.db (snd run)) = Db.alerts (AlertManager.db w)
    /\ (Orm.attached change = false -> run = (Raise Orm.DetachedInstanceError, w))
    /\ (Orm.attached change = true ->
        match Db.asset_by_id (AlertManager.db w) (Change.asset_id row) with
        | None => run = (Ok false, w)
        | Some asset =>
            match ClassifierManager.classify self asset row with
            | Raise _ => run = (Ok false, w)
            | Ok classification =>
                let priority := PriorityAssigner.assign_priority row classification in
                match Db.change_by_id (AlertManager.db w) (Change.id row) with
                | None =>
                    run = (Raise (AttributeError "'NoneType' object has no attribute 'id'"),
                           w)
                | Some _ =>
                    str_in priority ["high"; "medium"; "low"] = true
                    /\ run
                       = (Raise Orm.DetachedInstanceError,
                          AlertManager.mk_world
                            (Db.mk (Db.competitors (AlertManager.db w))
                               (Db.assets (AlertManager.db w))
                               (Db.snapshots (AlertManager.db w))
                               (map (fun c =>
                                       if (Change.id c =? Change.id row)%Z
                                       then ClassifierManager.classified priority
                                              classification c
                                       else c)
                                    (Db.changes (AlertManager.db w)))
                               (Db.alerts (AlertManager.db w)))
                            (AlertManager.posted w))
                end
            end
        end).
Proof.
  intros F S self now w change run row.
  assert (Hcases :
            (Orm.attached change = false -> run = (Raise Orm.DetachedInstanceError, w))
            /\ (Orm.attached change = true ->
                match Db.asset_by_id (AlertManager.db w) (Change.asset_id row) with
                | None => run = (Ok false, w)
                | Some asset =>
                    match ClassifierManager.classify self asset row with
                    | Raise _ => run = (Ok false, w)
                    | Ok classification =>
                        let priority :=
                          PriorityAssigner.assign_priority row classification in
                        match Db.change_by_id (AlertManager.db w) (Change.id row) with
                        | None =>
                            run = (Raise (AttributeError
                                            "'NoneType' object has no attribute 'id'"),
                                   w)
                        | Some _ =>
                            str_in priority ["high"; "medium"; "low"] = true
                            /\ run
                               = (Raise Orm.DetachedInstanceError,
                                  AlertManager.mk_world
                                    (Db.update_change (AlertManager.db w) (Change.id row)
                                       (ClassifierManager.classified priority
                                          classification))
                                    (AlertManager.posted w))
                        end
                    end
                end)).
  { split; intro Hattached; unfold run, ClassifierManager.classify_change, Orm.read, Orm.get;
      rewrite Hattached; [reflexivity|]. fold row.
    destruct (Db.asset_by_id (AlertManager.db w) (Change.asset_id row)) as [asset|];
      [|reflexivity].
    destruct (ClassifierManager.classify self asset row) as [classification | e].
    - cbv zeta.
      destruct (Db.change_by_id (AlertManager.db w) (Change.id row)) as [stored|];
        [|reflexivity].
      split; [apply assign_priority_tier|].
      rewrite after_update_expired. reflexivity.
    - unfold ClassifierManager.handler, Orm.get. rewrite Hattached. reflexivity. }
  destruct Hcases as [Hdetached Hlive].
  assert (Hrun : run = (Raise Orm.DetachedInstanceError, w)
                 \/ run = (Ok false, w)
                 \/ run = (Raise (AttributeError "'NoneType' object has no attribute 'id'"),
                           w)
                 \/ exists f, run = (Raise Orm.DetachedInstanceError,
                                     AlertManager.mk_world
                                       (Db.update_change (AlertManager.db w)
                                          (Change.id row) f)
                                       (AlertManager.posted w))).
  { destruct (Orm.attached change); [|left; apply Hdetached; reflexivity].
    specialize (Hlive eq_refl).
    destruct (Db.asset_by_id (AlertManager.db w) (Change.asset_id row)) as [asset|];
      [|auto].
    destruct (ClassifierManager.classify self asset row) as [classification | e]; [|auto].
    cbv zeta in Hlive.
    destruct (Db.change_by_id (AlertManager.db w) (Change.id row)); [|auto].
    destruct Hlive as [_ Hlive]. right. right. right. eexists. exact Hlive. }
  split; [|split; [|split; [|split; [exact Hdetached | exact Hlive]]]].
  - destruct Hrun as [Hr | [Hr | [Hr | [f Hr]]]]; rewrite Hr; discriminate.
  - destruct Hrun as [Hr | [Hr | [Hr | [f Hr]]]]; rewrite Hr; reflexivity.
  - destruct Hrun as [Hr | [Hr | [Hr | [f Hr]]]]; rewrite Hr; reflexivity.
Qed.

Lemma classify_change_outcome_witness :
  let run :=
    @ClassifierManager.classify_change Examples.float_builtins
      Fixtures.classifier_service Fixtures.manager_rules 300 Fixtures.world_unclassified
      (Orm.loaded Examples.change_unclassified) in
  fst run = Raise Orm.DetachedInstanceError
  /\ Db.changes (AlertManager.db (snd run)) = [Fixtures.change_classified]
  /\ AlertManager.posted (snd run) = [].
Proof.
  intro run.
  assert (Hrun : run
                 = (Raise Orm.DetachedInstanceError,
                    AlertManager.mk_world
                      (Db.mk [Examples.acme] [Examples.pricing_page]
                         [Examples.snapshot1; Examples.snapshot2]
                         [Fixtures.change_classified] [])
                      [])).
  { exact (proj2 (proj2 (proj2 (proj2 (proj2
                    (@classify_change_outcome Examples.float_builtins
                       Fixtures.classifier_service Fixtures.manager_rules 300
                       Fixtures.world_unclassified
                       (Orm.loaded Examples.change_unclassified)))))
                   eq_refl)). }
  rewrite Hrun. repeat split.
Defined.


(** The loop of [classify_pending_changes] raises at its first change:
    [classify_change] at its first log line, the handler of the loop at
    its own. *)
Lemma classify_each_expired `{FloatBuiltins} `{ClassifierService}
    (self : ClassifierManager.t) (now : Z) (w : AlertManager.world)
    (rows : list Change.t) :
  ClassifierManager.classify_each self now w (map Orm.expired rows)
  = (match rows with
     | [] => Ok []
     | _ :: _ => Raise Orm.DetachedInstanceError
     end, w).
Proof. destruct rows; reflexivity. Qed.

(** X16. [classify_pending_changes] classifies nothing. It returns the
    empty list when no change waits for its classification. When one does,
    the first of them is a change whose block is left: [classify_change]
    raises at its first log line, the handler of the loop raises at
    [change.id] in its own, and that exception leaves the function with
    the database as it was: no row gets a priority. [reclassify_change]
    returns false for a key that is not in the table and raises the same
    way for one that is. *)
Theorem classify_pending_changes_classifies_nothing :
  forall `{FloatBuiltins} `{ClassifierService}
         (self : ClassifierManager.t) (now : Z) (w : AlertManager.world),
    ClassifierManager.classify_pending_changes self now w
    = (match filter ClassifierManager.unclassified (Db.changes (AlertManager.db w)) with
       | [] => Ok []
       | _ :: _ => Raise Orm.DetachedInstanceError
       end, w)
    /\ (forall c,
           In c (Db.changes (AlertManager.db w)) ->
           Change.priority c = None ->
           Change.alert_sent c = false ->
           ClassifierManager.classify_pending_changes self now w
           = (Raise Orm.DetachedInstanceError, w))
    /\ (forall change_id,
           ClassifierManager.reclassify_change self now w change_id
           = (match Db.change_by_id (AlertManager.db w) change_id with
              | None => Ok false
              | Some _ => Raise Orm.DetachedInstanceError
              end, w)).
Proof.
  intros F S self now w.
  assert (Hform : ClassifierManager.classify_pending_changes self now w
                  = (match filter ClassifierManager.unclassified
                             (Db.changes (AlertManager.db w)) with
                     | [] => Ok []
                     | _ :: _ => Raise Orm.DetachedInstanceError
                     end, w)).
  { unfold ClassifierManager.classify_pending_changes.
    rewrite classify_each_expired, filter_and. reflexivity. }
  split; [exact Hform|]. split.
  - intros c Hin Hpriority Hsent. rewrite Hform.
    assert (Hc : In c (filter ClassifierManager.unclassified
                         (Db.changes (AlertManager.db w)))).
    { apply filter_In. split; [exact Hin|].
      unfold ClassifierManager.unclassified. rewrite Hpriority, Hsent. reflexivity. }
    destruct (filter ClassifierManager.unclassified (Db.changes (AlertManager.db w)));
      [destruct Hc | reflexivity].
  - intro change_id. unfold ClassifierManager.reclassify_change.
    destruct (Db.change_by_id (AlertManager.db w) change_id); reflexivity.
Qed.

Lemma classify_pending_changes_classifies_nothing_witness :
  @ClassifierManager.classify_pending_changes Examples.float_builtins
    Fixtures.classifier_service Fixtures.manager_rules 300 Fixtures.world_unclassified
  = (Raise Orm.DetachedInstanceError, Fixtures.world_unclassified)
  /\ @ClassifierManager.reclassify_change Examples.float_builtins
       Fixtures.classifier_service Fixtures.manager_rules 300 Fixtures.world_unclassified 1
     = (Raise Orm.DetachedInstanceError, Fixtures.world_unclassified).
Proof.
  destruct (@classify_pending_changes_classifies_nothing Examples.float_builtins
              Fixtures.classifier_service Fixtures.manager_rules 300
              Fixtures.world_unclassified) as (_ & Hpending & Hagain).
  split.
  - apply (Hpending Examples.change_unclassified); [left; reflexivity | reflexivity..].
  - rewrite Hagain. reflexivity.
Defined.


(** ** Text handling: code fences, the prompt and the line diff *)

Lemma contains_false_find_sep (sep s : string) :
  contains sep s = false -> find_sep sep s = None.
Proof.
  induction s as [|c t IH]; cbn [contains find_sep]; rewrite prefix_strip.
  - destruct (strip_prefix sep ""); [discriminate | reflexivity].
  - destruct (strip_prefix sep (String c t)); [discriminate|].
    cbn [orb]. intro Hc. rewrite (IH Hc). reflexivity.
Qed.

(** A piece without the separator, followed by the separator: the
    separator of one character is found right after the piece. *)
Lemma find_sep_char_line (c : ascii) (a r : string) :
  find_sep (String c "") a = None ->
  find_sep (String c "") (a ++ String c "" ++ r) = Some (a, r).
Proof.
  induction a as [|x a IH]; intro Hnone.
  - cbn. destruct (ascii_dec c c) as [_ | Hne]; [reflexivity | contradiction].
  - cbn [find_sep] in Hnone. cbn [append find_sep].
    cbn [strip_prefix] in *.
    destruct (ascii_dec c x) as [Heq | Hne]; [discriminate|].
    destruct (find_sep (String c "") a) as [[a0 r0]|] eqn:Hrec; [discriminate|].
    change (a ++ String c r) with (a ++ String c "" ++ r).
    rewrite (IH eq_refl). reflexivity.
Qed.

Lemma split_not_nil (sep s : string) : sep <> "" -> split sep s <> [].
Proof.
  intro Hsep. rewrite (split_find sep s Hsep).
  destruct (find_sep sep s) as [[a r]|]; discriminate.
Qed.

Lemma find_sep_shorter (sep s a r : string) :
  sep <> "" -> find_sep sep s = Some (a, r) -> (String.length r < String.length s)%nat.
Proof.
  intros Hsep Hf. apply find_sep_app in Hf. subst s.
  rewrite !length_append. destruct sep; [contradiction | simpl; lia].
Qed.

Lemma join_split (sep s : string) : sep <> "" -> join sep (split sep s) = s.
Proof.
  intro Hsep.
  assert (Hgen : forall n s, (String.length s < n)%nat -> join sep (split sep s) = s).
  { induction n as [|n IH]; intros s0 Hlen; [lia|].
    rewrite (split_find sep s0 Hsep).
    destruct (find_sep sep s0) as [[a r]|] eqn:Hf; [|reflexivity].
    pose proof (find_sep_shorter sep s0 a r Hsep Hf) as Hshort.
    pose proof (find_sep_app _ _ _ _ Hf) as Hs0.
    pose proof (split_not_nil sep r Hsep) as Hne.
    specialize (IH r ltac:(lia)).
    unfold join in *. destruct (split sep r) as [|p l]; [contradiction|].
    cbn [String.concat]. cbn [String.concat] in IH.
    rewrite IH. symmetry. exact Hs0. }
  apply (Hgen (S (String.length s))). lia.
Qed.

Lemma split_char_app (c : ascii) (body y : string) :
  split (String c "") (body ++ String c "" ++ y)
  = (split (String c "") body ++ split (String c "") y)%list.
Proof.
  assert (Hsep : String c "" <> "") by discriminate.
  assert (Hgen : forall n body,
             (String.length body < n)%nat ->
             split (String c "") (body ++ String c "" ++ y)
             = (split (String c "") body ++ split (String c "") y)%list).
  { induction n as [|n IH]; intros b Hlen; [lia|].
    rewrite (split_find _ b Hsep).
    destruct (find_sep (String c "") b) as [[a r]|] eqn:Hf.
    - pose proof (find_sep_shorter _ b a r Hsep Hf) as Hshort.
      pose proof (find_sep_app _ _ _ _ Hf) as Hb.
      rewrite Hb in Hf. rewrite Hb.
      rewrite append_assoc, append_assoc.
      rewrite (split_replace_tail _ a r (r ++ String c "" ++ y) Hsep Hf).
      rewrite (IH r ltac:(lia)). reflexivity.
    - rewrite (split_find _ (b ++ String c "" ++ y) Hsep).
      rewrite (find_sep_char_line c b y Hf). reflexivity. }
  apply (Hgen (S (String.length body))). lia.
Qed.

Lemma rstrip_last (s : string) (c : ascii) :
  is_space c = false -> rstrip (s ++ String c "") = s ++ String c "".
Proof.
  intro Hc. induction s as [|x s IH].
  - cbn. rewrite Hc. reflexivity.
  - cbn [append rstrip]. rewrite IH.
    destruct (s ++ String c "") eqn:Heq; [|reflexivity].
    destruct s; discriminate.
Qed.

(** X17. A fenced answer is unwrapped. For an answer that is a markdown
    code block (three backquotes and a tag on the first line, the body, and
    three backquotes on the last line), the text that is parsed is the body,
    whatever the body is: the reading of an analysis and the reading of a
    classification both decode the body. *)
Theorem strip_code_block_unwraps :
  forall (tag body : string),
    contains nl tag = false ->
    let fenced := "```" ++ tag ++ nl ++ body ++ nl ++ "```" in
    SemanticDiff.strip_code_block fenced = body
    /\ (forall (J : JsonAnalysis) r,
           json_loads body = Ok r -> SemanticDiff._parse_response fenced = Ok r)
    /\ (forall (F : FloatBuiltins) (S : ClassifierService),
           ChangeClassifierLLM._parse_classification_response fenced
           = ChangeClassifierLLM._parse_classification_response
               ("```" ++ nl ++ body ++ nl ++ "```")).
Proof.
  intros tag body Htag fenced.
  assert (Hunwrap : forall tag0,
             contains nl tag0 = false ->
             SemanticDiff.strip_code_block ("```" ++ tag0 ++ nl ++ body ++ nl ++ "```")
             = body).
  { clear tag Htag fenced. intros tag Htag.
    set (fenced := "```" ++ tag ++ nl ++ body ++ nl ++ "```").
    assert (Hsep : nl <> "") by discriminate.
    assert (Hstrip : strip fenced = fenced).
    { unfold strip.
      assert (Hl : lstrip fenced = fenced) by reflexivity.
      rewrite Hl.
      replace fenced with (("```" ++ tag ++ nl ++ body ++ nl ++ "``") ++ "`").
      - apply rstrip_last. reflexivity.
      - unfold fenced. rewrite !append_assoc. reflexivity. }
    assert (Hlines : split nl fenced
                     = ("```" ++ tag) :: (split nl body ++ ["```"])%list).
    { unfold fenced.
      replace ("```" ++ tag ++ nl ++ body ++ nl ++ "```")
        with (("```" ++ tag) ++ nl ++ (body ++ nl ++ "```"))
        by (rewrite !append_assoc; reflexivity).
      unfold nl at 1 2 3. rewrite split_char_app. fold nl.
      unfold nl at 2 3. rewrite split_char_app. fold nl.
      rewrite (split_find nl ("```" ++ tag) Hsep).
      rewrite (contains_false_find_sep nl ("```" ++ tag)); [reflexivity|].
      cbn. exact Htag. }
    unfold SemanticDiff.strip_code_block. rewrite Hstrip.
    assert (Hstart : startswith fenced "```" = true)
      by (unfold fenced, startswith; apply prefix_append).
    rewrite Hstart, Hlines.
    pose proof (split_not_nil nl body Hsep) as Hne.
    assert (Hlen : (2 <? List.length (("```" ++ tag) :: (split nl body ++ ["```"])%list))%nat
                   = true).
    { apply Nat.ltb_lt. cbn [List.length]. rewrite length_app. cbn [List.length].
      destruct (split nl body); [contradiction | simpl; lia]. }
    rewrite Hlen. unfold slice_inner. cbn [tl].
    rewrite removelast_last. apply join_split. exact Hsep. }
  split; [apply Hunwrap; exact Htag|]. split.
  - intros J r Hr. unfold SemanticDiff._parse_response.
    unfold fenced. rewrite (Hunwrap tag Htag), Hr. reflexivity.
  - intros F S. unfold ChangeClassifierLLM._parse_classification_response.
    unfold fenced. rewrite (Hunwrap tag Htag).
    change ("```" ++ nl ++ body ++ nl ++ "```")
      with ("```" ++ "" ++ nl ++ body ++ nl ++ "```").
    rewrite (Hunwrap "" eq_refl). reflexivity.
Qed.

Lemma strip_code_block_unwraps_witness :
  SemanticDiff.strip_code_block ("```" ++ "json" ++ nl ++ "{}" ++ nl ++ "```") = "{}".
Proof.
  apply (proj1 (strip_code_block_unwraps "json" "{}" eq_refl)).
Defined.

(** X18. The service is shown no more than the first 5000 characters of
    each text. Two pairs of texts longer than that which agree on their
    first 5000 characters give the same prompt and the same analysis; so
    when the two versions of a page differ only after their first 5000
    characters, the service is shown the same text twice. *)
Theorem _build_prompt_reads_a_prefix :
  forall `{JsonAnalysis} (self : SemanticDiff.t)
         (before_content after_content before_content' after_content' asset_type url : string),
    (SemanticDiff.max_length < String.length before_content)%nat ->
    (SemanticDiff.max_length < String.length after_content)%nat ->
    (SemanticDiff.max_length < String.length before_content')%nat ->
    (SemanticDiff.max_length < String.length after_content')%nat ->
    slice_to SemanticDiff.max_length before_content
    = slice_to SemanticDiff.max_length before_content' ->
    slice_to SemanticDiff.max_length after_content
    = slice_to SemanticDiff.max_length after_content' ->
    SemanticDiff._build_prompt before_content after_content asset_type url
    = SemanticDiff._build_prompt before_content' after_content' asset_type url
    /\ SemanticDiff.analyze_change self before_content after_content asset_type url
       = SemanticDiff.analyze_change self before_content' after_content' asset_type url
    /\ (slice_to SemanticDiff.max_length before_content
        = slice_to SemanticDiff.max_length after_content ->
        SemanticDiff.analyze_change self before_content after_content asset_type url
        = SemanticDiff.analyze_change self before_content before_content asset_type url).
Proof.
  intros J self b a b' a' asset_type url Hb Ha Hb' Ha' Hbb Haa.
  assert (Hprompt : forall x y x' y',
             (SemanticDiff.max_length < String.length x)%nat ->
             (SemanticDiff.max_length < String.length y)%nat ->
             (SemanticDiff.max_length < String.length x')%nat ->
             (SemanticDiff.max_length < String.length y')%nat ->
             slice_to SemanticDiff.max_length x = slice_to SemanticDiff.max_length x' ->
             slice_to SemanticDiff.max_length y = slice_to SemanticDiff.max_length y' ->
             SemanticDiff._build_prompt x y asset_type url
             = SemanticDiff._build_prompt x' y' asset_type url).
  { intros x y x' y' Hx Hy Hx' Hy' Hxx Hyy. unfold SemanticDiff._build_prompt.
    apply Nat.ltb_lt in Hx, Hy, Hx', Hy'.
    rewrite Hx, Hy, Hx', Hy', Hxx, Hyy. reflexivity. }
  split; [apply Hprompt; assumption|]. split.
  - unfold SemanticDiff.analyze_change.
    rewrite (Hprompt b a b' a'); auto.
  - intro Hsame. unfold SemanticDiff.analyze_change.
    rewrite (Hprompt b a b b); auto.
Qed.

Lemma _build_prompt_reads_a_prefix_witness :
  SemanticDiff._build_prompt (Fixtures.long_text "x") (Fixtures.long_text "y")
    "pricing" "https://acme.test/pricing"
  = SemanticDiff._build_prompt (Fixtures.long_text "x") (Fixtures.long_text "x")
      "pricing" "https://acme.test/pricing".
Proof.
  assert (Hlen : forall last,
             (SemanticDiff.max_length <? String.length (Fixtures.long_text (String last "")))%nat
             = true)
    by (intro last; vm_compute; reflexivity).
  assert (Hsame : slice_to SemanticDiff.max_length (Fixtures.long_text "y")
                  = slice_to SemanticDiff.max_length (Fixtures.long_text "x"))
    by (vm_compute; reflexivity).
  apply (proj1 (@_build_prompt_reads_a_prefix Examples.json_analysis Examples.service_down
                  (Fixtures.long_text "x") (Fixtures.long_text "y")
                  (Fixtures.long_text "x") (Fixtures.long_text "x")
                  "pricing" "https://acme.test/pricing"
                  (proj1 (Nat.ltb_lt _ _) (Hlen "x"%char))
                  (proj1 (Nat.ltb_lt _ _) (Hlen "y"%char))
                  (proj1 (Nat.ltb_lt _ _) (Hlen "x"%char))
                  (proj1 (Nat.ltb_lt _ _) (Hlen "x"%char))
                  eq_refl Hsame)).
Defined.

(** *** The line diff *)

Lemma plus_space_not_plusses (p : ascii) (line : string) :
  startswith line (String p " ") = true ->
  p <> " "%char ->
  startswith line (String p (String p (String p ""))) = false.
Proof.
  unfold startswith. intros Hstart Hp.
  destruct line as [|c1 [|c2 rest]]; cbn [prefix] in *; try discriminate.
  - destruct (ascii_dec p c1); discriminate.
  - destruct (ascii_dec p c1); [|discriminate].
    destruct (ascii_dec " " c2) as [Heq | Hne]; [|discriminate].
    subst c2. destruct (ascii_dec p " "); [contradiction | reflexivity].
Qed.

(** X19. The samples of the line diff. The tests that leave out the lines
    beginning with three plus or three minus signs leave out nothing, since
    the lines kept begin with the sign and a space: the sample of added
    lines holds the first twenty of the lines counted as added, the sample
    of removed lines the first twenty of those counted as removed, each
    without its two-character mark; and a text, even empty, counts as one
    line at least. *)
Theorem _text_diff_samples :
  forall `{Difflib} (text_before text_after : string),
    let lines_before := split nl text_before in
    let lines_after := split nl text_after in
    let diff := differ_compare lines_before lines_after in
    let plus := filter (fun line => startswith line "+ ") diff in
    let minus := filter (fun line => startswith line "- ") diff in
    let text_diff := DiffEngine._text_diff text_before text_after in
    TextDiff.added_count text_diff = Some (Z.of_nat (List.length plus))
    /\ TextDiff.removed_count text_diff = Some (Z.of_nat (List.length minus))
    /\ TextDiff.added_lines text_diff = Some (firstn 20 (map (slice_from 2) plus))
    /\ TextDiff.removed_lines text_diff = Some (firstn 20 (map (slice_from 2) minus))
    /\ (exists added_lines removed_lines,
           TextDiff.added_lines text_diff = Some added_lines
           /\ TextDiff.removed_lines text_diff = Some removed_lines
           /\ Z.of_nat (List.length added_lines)
              = Z.min 20 (Z.of_nat (List.length plus))
           /\ Z.of_nat (List.length removed_lines)
              = Z.min 20 (Z.of_nat (List.length minus)))
    /\ (exists before after,
           TextDiff.total_lines_before text_diff = Some before
           /\ TextDiff.total_lines_after text_diff = Some after
           /\ (1 <= before)%Z /\ (1 <= after)%Z).
Proof.
  intros D text_before text_after lines_before lines_after diff plus minus text_diff.
  assert (Hplus : filter (fun line => startswith line "+ " && negb (startswith line "+++"))
                    diff = plus).
  { unfold plus. apply filter_ext. intro line.
    destruct (startswith line "+ ") eqn:Hs; [|reflexivity].
    rewrite (plus_space_not_plusses "+" line Hs); [reflexivity | discriminate]. }
  assert (Hminus : filter (fun line => startswith line "- " && negb (startswith line "---"))
                     diff = minus).
  { unfold minus. apply filter_ext. intro line.
    destruct (startswith line "- ") eqn:Hs; [|reflexivity].
    rewrite (plus_space_not_plusses "-" line Hs); [reflexivity | discriminate]. }
  assert (Hsep : nl <> "") by discriminate.
  unfold text_diff, DiffEngine._text_diff.
  fold lines_before lines_after. fold diff. rewrite Hplus, Hminus.
  cbn [TextDiff.added_count TextDiff.removed_count TextDiff.added_lines
       TextDiff.removed_lines TextDiff.total_lines_before TextDiff.total_lines_after].
  split; [reflexivity|]. split; [reflexivity|]. split; [reflexivity|].
  split; [reflexivity|]. split.
  - do 2 eexists. split; [reflexivity|]. split; [reflexivity|].
    rewrite !length_firstn, !length_map. split; lia.
  - do 2 eexists. split; [reflexivity|]. split; [reflexivity|].
    pose proof (split_not_nil nl text_before Hsep).
    pose proof (split_not_nil nl text_after Hsep).
    unfold lines_before, lines_after.
    destruct (split nl text_before); [contradiction|].
    destruct (split nl text_after); [contradiction|].
    cbn [List.length]. lia.
Qed.

(** ** The scheduler: what is due, and the rows of the configuration *)

Lemma order_by_head (l : list Snapshot.t) :
  match ChangeDetector.order_by_crawl_timestamp_desc l with
  | [] => l = []
  | latest :: _ =>
      In latest l
      /\ forall s, In s l -> (Snapshot.crawl_timestamp s <= Snapshot.crawl_timestamp latest)%Z
  end.
Proof.
  induction l as [|s l IH]; [reflexivity|].
  unfold ChangeDetector.order_by_crawl_timestamp_desc in *. cbn [fold_right].
  destruct (fold_right ChangeDetector.insert_desc [] l) as [|x r].
  - subst l. cbn. split; [auto|]. intros s0 [<- | []]. lia.
  - destruct IH as [Hin Hmax]. cbn [ChangeDetector.insert_desc].
    destruct (Snapshot.crawl_timestamp x <=? Snapshot.crawl_timestamp s)%Z eqn:Hle.
    + apply Z.leb_le in Hle. split; [left; reflexivity|].
      intros s0 [<- | Hs0]; [lia|]. specialize (Hmax s0 Hs0). lia.
    + apply Z.leb_gt in Hle. split; [right; exact Hin|].
      intros s0 [<- | Hs0]; [lia|]. apply Hmax. exact Hs0.
Qed.

(** X20. An asset is due exactly when every snapshot of it is at least one
    period old, the period being a week for the weekly assets and a day for
    all others, whatever their frequency says. The snapshot that decides is
    the one detection takes as the after snapshot; an asset without a
    snapshot is due, and an asset that is due stays so as time passes. *)
Theorem _is_crawl_due_iff :
  forall (session : Db.t) (now now' : Z) (asset : Asset.t),
    let period :=
      if Asset.crawl_frequency asset =? "weekly"
      then CrawlScheduler.week else AlertManager.day in
    let snapshots :=
      filter (fun s => (Snapshot.asset_id s =? Asset.id asset)%Z) (Db.snapshots session) in
    CrawlScheduler._is_crawl_due session now asset
    = forallb (fun s => (period <=? now - Snapshot.crawl_timestamp s)%Z) snapshots
    /\ CrawlScheduler._get_last_snapshot session (Asset.id asset)
       = hd_error (ChangeDetector.last_two_snapshots session asset)
    /\ (snapshots = [] -> CrawlScheduler._is_crawl_due session now asset = true)
    /\ ((now <= now')%Z ->
        CrawlScheduler._is_crawl_due session now asset = true ->
        CrawlScheduler._is_crawl_due session now' asset = true).
Proof.
  intros session now now' asset period snapshots.
  assert (Hdue : forall t,
             CrawlScheduler._is_crawl_due session t asset
             = forallb (fun s => (period <=? t - Snapshot.crawl_timestamp s)%Z) snapshots).
  { intro t. unfold CrawlScheduler._is_crawl_due, CrawlScheduler._get_last_snapshot.
    fold snapshots. pose proof (order_by_head snapshots) as Hhead.
    destruct (ChangeDetector.order_by_crawl_timestamp_desc snapshots) as [|latest r].
    - rewrite Hhead. reflexivity.
    - destruct Hhead as [Hin Hmax]. cbn [hd_error].
      assert (Hperiod :
                (if Asset.crawl_frequency asset =? "daily"
                 then (1 * AlertManager.day <=? t - Snapshot.crawl_timestamp latest)%Z
                 else if Asset.crawl_frequency asset =? "weekly"
                 then (CrawlScheduler.week <=? t - Snapshot.crawl_timestamp latest)%Z
                 else (1 * AlertManager.day <=? t - Snapshot.crawl_timestamp latest)%Z)
                = (period <=? t - Snapshot.crawl_timestamp latest)%Z).
      { unfold period. rewrite Z.mul_1_l.
        destruct (String.eqb_spec (Asset.crawl_frequency asset) "daily") as [-> | _];
          [reflexivity|].
        destruct (Asset.crawl_frequency asset =? "weekly"); reflexivity. }
      rewrite Hperiod.
      destruct (period <=? t - Snapshot.crawl_timestamp latest)%Z eqn:Hle.
      + symmetry. apply forallb_forall. intros s Hs. apply Z.leb_le.
        apply Z.leb_le in Hle. specialize (Hmax s Hs). lia.
      + symmetry. apply not_true_is_false. intro Hall.
        rewrite forallb_forall in Hall. specialize (Hall latest Hin).
        rewrite Hall in Hle. discriminate. }
  split; [apply Hdue|]. split; [|split].
  - unfold CrawlScheduler._get_last_snapshot, ChangeDetector.last_two_snapshots.
    destruct (ChangeDetector.order_by_crawl_timestamp_desc _); reflexivity.
  - intro Hnone. rewrite Hdue, Hnone. reflexivity.
  - intros Hnow. rewrite !Hdue, !forallb_forall. intros Hall s Hs.
    specialize (Hall s Hs). apply Z.leb_le in Hall. apply Z.leb_le. lia.
Qed.

(** *** The rows of the configuration *)

Lemma extends_refl (db : Db.t) : SyncFacts.extends db db.
Proof.
  unfold SyncFacts.extends.
  repeat split; try (exists []; rewrite app_nil_r; reflexivity).
Qed.

Lemma extends_trans (db1 db2 db3 : Db.t) :
  SyncFacts.extends db1 db2 -> SyncFacts.extends db2 db3 -> SyncFacts.extends db1 db3.
Proof.
  intros ((c1 & Hc1) & (i1 & Hi1) & (k1 & Hk1) & (t1 & Ht1) & Hs1 & Hch1 & Ha1)
         ((c2 & Hc2) & (i2 & Hi2) & (k2 & Hk2) & (t2 & Ht2) & Hs2 & Hch2 & Ha2).
  unfold SyncFacts.extends.
  split; [exists (c1 ++ c2)%list; rewrite Hc2, Hc1, app_assoc; reflexivity|].
  split; [exists (i1 ++ i2)%list; rewrite Hi2, Hi1, app_assoc; reflexivity|].
  split; [exists (k1 ++ k2)%list; rewrite Hk2, Hk1, app_assoc; reflexivity|].
  split; [exists (t1 ++ t2)%list; rewrite Ht2, Ht1, app_assoc; reflexivity|].
  repeat split; congruence.
Qed.

Lemma map_update_same {A B : Type} (key : A -> B) (test : A -> bool) (f : A -> A)
    (l : list A) :
  (forall a, key (f a) = key a) ->
  map key (map (fun a => if test a then f a else a) l) = map key l.
Proof.
  intro Hf. rewrite map_map. apply map_ext. intro a.
  destruct (test a); [apply Hf | reflexivity].
Qed.

Lemma find_app_some {A : Type} (test : A -> bool) (l new : list A) (a : A) :
  find test l = Some a -> find test (l ++ new) = Some a.
Proof.
  induction l as [|x l IH]; [discriminate|].
  cbn [find app]. destruct (test x); [auto | exact IH].
Qed.

Lemma find_map_some {A : Type} (test : A -> bool) (f : A -> A) (l : list A) (a : A) :
  (forall x, test (f x) = test x) ->
  find test l = Some a -> find test (map f l) = Some (f a).
Proof.
  intros Hf. induction l as [|x l IH]; [discriminate|].
  cbn [find map]. rewrite Hf. destruct (test x).
  - intro Heq. injection Heq as ->. reflexivity.
  - exact IH.
Qed.

Lemma _get_or_create_competitor_effect (now : Z) (db : Db.t)
    (competitor_name base_url : string) :
  let r := CrawlScheduler._get_or_create_competitor now db competitor_name base_url in
  SyncFacts.extends db (snd r)
  /\ (SyncFacts.well_keyed db -> SyncFacts.well_keyed (snd r))
  /\ find (fun c => Competitor.name c =? competitor_name) (Db.competitors (snd r))
     = Some (fst r).
Proof.
  cbn zeta. unfold CrawlScheduler._get_or_create_competitor.
  destruct (find (fun c => Competitor.name c =? competitor_name) (Db.competitors db))
    as [competitor|] eqn:Hfind; cbn [fst snd].
  - split; [apply extends_refl|]. split; [auto | exact Hfind].
  - split; [|split].
    + unfold SyncFacts.extends, CrawlScheduler.add_competitor.
      cbn [Db.competitors Db.assets Db.snapshots Db.changes Db.alerts].
      split; [eexists; reflexivity|].
      repeat split; try (exists []; rewrite app_nil_r; reflexivity).
    + intros (Hids & Hnames & Haids & Hkeys).
      unfold SyncFacts.well_keyed, CrawlScheduler.add_competitor.
      cbn [Db.competitors Db.assets Db.snapshots Db.changes Db.alerts].
      rewrite !map_app. cbn [map Competitor.id Competitor.name].
      split; [|split; [|split; assumption]].
      * apply NoDup_snoc; [exact Hids|]. intro Hin.
        apply next_id_fresh in Hin. unfold Db.next_id in Hin. lia.
      * apply NoDup_snoc; [exact Hnames|]. intro Hin.
        apply in_map_iff in Hin. destruct Hin as (c & Hname & Hc).
        pose proof (find_none _ _ Hfind c Hc) as Hno. cbn in Hno.
        rewrite Hname, String.eqb_refl in Hno. discriminate.
    + unfold CrawlScheduler.add_competitor. cbn [Db.competitors].
      assert (Hgen : forall l,
                 find (fun c => Competitor.name c =? competitor_name) l = None ->
                 forall c, Competitor.name c = competitor_name ->
                           find (fun c => Competitor.name c =? competitor_name) (l ++ [c])
                           = Some c).
      { induction l as [|x l IH]; intros Hn c Hc; cbn [find app] in *.
        - rewrite Hc, String.eqb_refl. reflexivity.
        - destruct (Competitor.name x =? competitor_name); [discriminate | auto]. }
      apply Hgen; [exact Hfind | reflexivity].
Qed.

Lemma _get_or_create_asset_effect (now : Z) (db : Db.t) (competitor : Competitor.t)
    (asset_config : Config.asset) :
  let r := CrawlScheduler._get_or_create_asset now db competitor asset_config in
  SyncFacts.extends db (snd r)
  /\ (SyncFacts.well_keyed db -> SyncFacts.well_keyed (snd r))
  /\ (truthy_str (Config.url asset_config) = true ->
      exists asset,
        find (fun a => (Asset.competitor_id a =? Competitor.id competitor)%Z
                       && (Asset.url a =? get_or "" (Config.url asset_config)))
             (Db.assets (snd r)) = Some asset).
Proof.
  cbn zeta. unfold CrawlScheduler._get_or_create_asset.
  destruct (truthy_str (Config.url asset_config)) eqn:Hurl; cbn [negb];
    [|cbn [snd]; split; [apply extends_refl | split; [auto | discriminate]]].
  set (url := get_or "" (Config.url asset_config)).
  set (test := fun a => (Asset.competitor_id a =? Competitor.id competitor)%Z
                        && (Asset.url a =? url)).
  destruct (find test (Db.assets db)) as [asset|] eqn:Hfind; cbn [snd].
  - assert (Hid : forall a, Asset.id (CrawlScheduler.configured asset_config a) = Asset.id a)
      by reflexivity.
    split; [|split].
    + unfold SyncFacts.extends, CrawlScheduler.update_asset.
      cbn [Db.competitors Db.assets Db.snapshots Db.changes Db.alerts].
      split; [exists []; rewrite app_nil_r; reflexivity|].
      split; [exists []; rewrite app_nil_r; apply map_update_same; reflexivity|].
      split; [exists []; rewrite app_nil_r; apply map_update_same; reflexivity|].
      split; [exists []; rewrite app_nil_r; apply map_update_same; reflexivity|].
      auto.
    + intros (Hids & Hnames & Haids & Hkeys).
      unfold SyncFacts.well_keyed, CrawlScheduler.update_asset.
      cbn [Db.competitors Db.assets Db.snapshots Db.changes Db.alerts].
      rewrite !map_update_same by reflexivity. auto.
    + intros _. unfold CrawlScheduler.update_asset. cbn [Db.assets].
      eexists. apply find_map_some; [|exact Hfind].
      intro a. destruct (Asset.id a =? Asset.id asset)%Z; reflexivity.
  - split; [|split].
    + unfold SyncFacts.extends, CrawlScheduler.add_asset.
      cbn [Db.competitors Db.assets Db.snapshots Db.changes Db.alerts].
      split; [exists []; rewrite app_nil_r; reflexivity|].
      rewrite !map_app.
      split; [eexists; reflexivity|]. split; [eexists; reflexivity|].
      split; [eexists; reflexivity|]. auto.
    + intros (Hids & Hnames & Haids & Hkeys).
      unfold SyncFacts.well_keyed, CrawlScheduler.add_asset.
      cbn [Db.competitors Db.assets Db.snapshots Db.changes Db.alerts].
      rewrite !map_app. cbn [map Asset.id SyncFacts.asset_key Asset.competitor_id Asset.url].
      split; [assumption|]. split; [assumption|]. split.
      * apply NoDup_snoc; [exact Haids|]. intro Hin. cbn [Asset.id] in Hin.
        apply next_id_fresh in Hin. unfold Db.next_id in Hin. lia.
      * apply NoDup_snoc; [exact Hkeys|]. intro Hin.
        apply in_map_iff in Hin. destruct Hin as (a & Hkey & Ha).
        pose proof (find_none _ _ Hfind a Ha) as Hno. unfold test in Hno.
        unfold SyncFacts.asset_key in Hkey.
        cbn [Asset.competitor_id Asset.url] in Hkey.
        assert (Hc : Asset.competitor_id a = Competitor.id competitor) by congruence.
        assert (Hu : Asset.url a = url) by congruence.
        rewrite Hc, Hu, Z.eqb_refl, String.eqb_refl in Hno. discriminate.
    + intros _. unfold CrawlScheduler.add_asset. cbn [Db.assets].
      eexists.
      assert (Hgen : forall l,
                 find test l = None ->
                 forall a, test a = true -> find test (l ++ [a]) = Some a).
      { induction l as [|x l IH]; intros Hn a Ha; cbn [find app] in *.
        - rewrite Ha. reflexivity.
        - destruct (test x); [discriminate | auto]. }
      apply Hgen; [exact Hfind|].
      unfold test. cbn. rewrite Z.eqb_refl, String.eqb_refl. reflexivity.
Qed.

Lemma synced_extends (db db' : Db.t) (asset_config : Config.asset_with_competitor) :
  SyncFacts.extends db db' ->
  SyncFacts.synced db asset_config -> SyncFacts.synced db' asset_config.
Proof.
  intros ((cs & Hcs) & _ & (ks & Hks) & _) (competitor & Hc & Ha).
  exists competitor. split.
  - rewrite Hcs. apply find_app_some. exact Hc.
  - intro Hurl. destruct (Ha Hurl) as [asset Hasset].
    set (u := get_or "" (Config.url (Config.the_asset asset_config))) in *.
    assert (Hgen : forall l l' new,
               map SyncFacts.asset_key l' = (map SyncFacts.asset_key l ++ new)%list ->
               forall a,
                 find (fun a => (Asset.competitor_id a =? Competitor.id competitor)%Z
                                && (Asset.url a =? u)) l = Some a ->
                 exists a',
                   find (fun a => (Asset.competitor_id a =? Competitor.id competitor)%Z
                                  && (Asset.url a =? u)) l' = Some a').
    { induction l as [|x l IH]; intros l' new Hmap a Hfind; [discriminate|].
      destruct l' as [|x' l']; [discriminate|].
      cbn [map app] in Hmap. unfold SyncFacts.asset_key at 1 3 in Hmap.
      injection Hmap as Hkc Hku Hrest.
      cbn [find] in *. rewrite Hkc, Hku.
      destruct ((Asset.competitor_id x =? Competitor.id competitor)%Z && (Asset.url x =? u)).
      - eexists. reflexivity.
      - apply (IH l' new Hrest a Hfind). }
    apply (Hgen _ _ _ Hks asset Hasset).
Qed.

Lemma sync_asset_effect (now : Z) (db : Db.t)
    (asset_config : Config.asset_with_competitor) :
  let db' := CrawlScheduler.sync_asset now db asset_config in
  SyncFacts.extends db db'
  /\ (SyncFacts.well_keyed db -> SyncFacts.well_keyed db')
  /\ SyncFacts.synced db' asset_config.
Proof.
  cbn zeta. unfold CrawlScheduler.sync_asset.
  pose proof (_get_or_create_competitor_effect now db
                (Config.competitor_name asset_config)
                (Config.competitor_base_url asset_config)) as Hc.
  cbn zeta in Hc.
  destruct (CrawlScheduler._get_or_create_competitor now db
              (Config.competitor_name asset_config)
              (Config.competitor_base_url asset_config)) as [competitor db1].
  cbn [fst snd] in Hc. destruct Hc as (Hext1 & Hkeys1 & Hfound).
  pose proof (_get_or_create_asset_effect now db1 competitor
                (Config.the_asset asset_config)) as Ha.
  cbn zeta in Ha. destruct Ha as (Hext2 & Hkeys2 & Hasset).
  split; [eapply extends_trans; eassumption|]. split; [auto|].
  exists competitor. split; [|exact Hasset].
  destruct Hext2 as ((cs & Hcs) & _). rewrite Hcs. apply find_app_some. exact Hfound.
Qed.

(** X21. Syncing the configuration keeps the keys of the schema and loses
    nothing. After [_sync_assets_from_config], in a database whose
    competitors and assets had distinct keys, distinct names and one asset
    per competitor and url, they still have; the competitors that were there
    are unchanged and in place, every asset that was there keeps its key,
    its competitor, its url and its creation time, and snapshots, changes
    and alerts are untouched. Every configured asset has its competitor in
    the database and, when it has a url, its own row. *)
Theorem _sync_assets_from_config_keeps_keys :
  forall (config : Config.t) (now : Z) (db : Db.t),
    let db' := CrawlScheduler._sync_assets_from_config config now db in
    SyncFacts.extends db db'
    /\ (SyncFacts.well_keyed db -> SyncFacts.well_keyed db')
    /\ Forall (SyncFacts.synced db') (Config.get_all_assets config).
Proof.
  intros config now db db'. unfold db', CrawlScheduler._sync_assets_from_config.
  clear db'. generalize (Config.get_all_assets config) as all_assets_config.
  intro all_assets_config. revert db.
  induction all_assets_config as [|asset_config rest IH]; intro db; cbn [fold_left].
  - split; [apply extends_refl|]. split; [auto | constructor].
  - destruct (sync_asset_effect now db asset_config) as (Hext & Hkeys & Hsynced).
    cbn zeta in *.
    destruct (IH (CrawlScheduler.sync_asset now db asset_config))
      as (Hext' & Hkeys' & Hall).
    split; [eapply extends_trans; eassumption|]. split; [auto|].
    constructor; [|exact Hall].
    eapply synced_extends; eassumption.
Qed.

(** ** The digest *)

Lemma add_to_company_keys (company : string) (alert : Slack.alert)
    (by_company : list (string * list Slack.alert)) :
  map fst (SlackFormat.add_to_company company alert by_company)
  = if existsb (fun c => c =? company) (map fst by_company)
    then map fst by_company
    else (map fst by_company ++ [company])%list.
Proof.
  induction by_company as [|[c l] rest IH]; [reflexivity|].
  cbn [SlackFormat.add_to_company map fst existsb].
  destruct (c =? company); [reflexivity|].
  cbn [map fst orb]. rewrite IH.
  destruct (existsb (fun c0 => c0 =? company) (map fst rest)); reflexivity.
Qed.

Lemma add_to_company_entries (company : string) (alert : Slack.alert)
    (by_company : list (string * list Slack.alert)) (c : string) (l : list Slack.alert) :
  NoDup (map fst by_company) ->
  In (c, l) (SlackFormat.add_to_company company alert by_company) ->
  (c <> company /\ In (c, l) by_company)
  \/ (c = company
      /\ ((exists l0, In (c, l0) by_company /\ l = (l0 ++ [alert])%list)
          \/ (~ In c (map fst by_company) /\ l = [alert]))).
Proof.
  induction by_company as [|[c0 l0] rest IH]; intros Hnodup Hin.
  - cbn in Hin. destruct Hin as [Heq | []]. injection Heq as <- <-.
    right. split; [reflexivity|]. right. split; [intros [] | reflexivity].
  - cbn [SlackFormat.add_to_company] in Hin. cbn [map fst] in Hnodup.
    inversion Hnodup as [|k ks Hnotin Hrest]; subst.
    destruct (String.eqb_spec c0 company) as [-> | Hne].
    + destruct Hin as [Heq | Hin].
      * injection Heq as <- <-. right. split; [reflexivity|].
        left. exists l0. split; [left; reflexivity | reflexivity].
      * left. split; [|right; exact Hin].
        intros ->. apply Hnotin. apply (in_map fst) in Hin. exact Hin.
    + destruct Hin as [Heq | Hin].
      * injection Heq as <- <-. left. split; [exact Hne | left; reflexivity].
      * destruct (IH Hrest Hin) as [[Hc Hold] | [Hc [(l1 & Hold & Hl) | [Hnew Hl]]]].
        -- left. split; [exact Hc | right; exact Hold].
        -- right. split; [exact Hc|]. left. exists l1. split; [right; exact Hold | exact Hl].
        -- right. split; [exact Hc|]. right. split; [|exact Hl].
           cbn [map fst]. intros [Heq | Hin']; [subst; contradiction | contradiction].
Qed.

Lemma add_to_company_total (company : string) (alert : Slack.alert)
    (by_company : list (string * list Slack.alert)) :
  List.length (flat_map snd (SlackFormat.add_to_company company alert by_company))
  = S (List.length (flat_map snd by_company)).
Proof.
  induction by_company as [|[c l] rest IH]; [reflexivity|].
  cbn [SlackFormat.add_to_company]. destruct (c =? company).
  - cbn [flat_map snd]. rewrite !length_app. cbn [List.length]. lia.
  - cbn [flat_map snd]. rewrite !length_app, IH. lia.
Qed.

Lemma group_by_company_snoc (alerts : list Slack.alert) (alert : Slack.alert) :
  SlackFormat.group_by_company (alerts ++ [alert])
  = SlackFormat.add_to_company (Slack.company alert) alert
      (SlackFormat.group_by_company alerts).
Proof. unfold SlackFormat.group_by_company. rewrite fold_left_app. reflexivity. Qed.

Lemma company_blocks_total (groups : list (string * list Slack.alert)) :
  List.length (flat_map SlackFormat.company_blocks groups)
  = (2 * List.length groups + List.length (flat_map snd groups))%nat.
Proof.
  induction groups as [|[c l] rest IH]; [reflexivity|].
  cbn [flat_map SlackFormat.company_blocks snd List.length].
  rewrite !length_app, IH. cbn [List.length]. rewrite length_app, length_map.
  cbn [List.length]. lia.
Qed.

Lemma existsb_filter_other (x y : string) (l : list string) :
  x <> y ->
  existsb (fun c => c =? x) (filter (fun z => negb (z =? y)) l)
  = existsb (fun c => c =? x) l.
Proof.
  intro Hne. induction l as [|z l IH]; [reflexivity|].
  cbn [filter existsb].
  destruct (String.eqb_spec z y) as [-> | Hzy]; cbn [negb].
  - rewrite IH. destruct (String.eqb_spec y x) as [Heq | _]; [|reflexivity].
    exfalso. apply Hne. symmetry. exact Heq.
  - cbn [existsb]. rewrite IH. reflexivity.
Qed.

(** A value put last is new or was seen before. *)
Lemma first_appearances_snoc (l : list string) (x : string) :
  DigestFacts.first_appearances (l ++ [x])
  = if existsb (fun c => c =? x) (DigestFacts.first_appearances l)
    then DigestFacts.first_appearances l
    else (DigestFacts.first_appearances l ++ [x])%list.
Proof.
  induction l as [|y l IH]; [reflexivity|].
  cbn [app DigestFacts.first_appearances existsb]. rewrite IH.
  destruct (String.eqb_spec y x) as [-> | Hne]; cbn [orb].
  - destruct (existsb (fun c => c =? x) (DigestFacts.first_appearances l));
      [reflexivity|].
    rewrite filter_app. cbn [filter]. rewrite String.eqb_refl. cbn [negb].
    rewrite app_nil_r. reflexivity.
  - rewrite existsb_filter_other by (intro Heq; apply Hne; symmetry; exact Heq).
    destruct (existsb (fun c => c =? x) (DigestFacts.first_appearances l));
      [reflexivity|].
    rewrite filter_app. cbn [filter].
    destruct (String.eqb_spec x y) as [Heq | _];
      [exfalso; apply Hne; symmetry; exact Heq|].
    reflexivity.
Qed.

(** The companies of the groups are those of the alerts in the order of
    their first appearance. *)
Lemma group_by_company_keys (alerts : list Slack.alert) :
  map fst (SlackFormat.group_by_company alerts)
  = DigestFacts.first_appearances (map Slack.company alerts).
Proof.
  induction alerts as [|alert alerts IH] using rev_ind; [reflexivity|].
  rewrite group_by_company_snoc, add_to_company_keys, map_app. cbn [map].
  rewrite first_appearances_snoc, IH. reflexivity.
Qed.

(** X22. A digest shows every alert once, under its company. The groups of
    [format_digest] have distinct companies, in the order in which the
    companies first appear; the group of a company holds the alerts of that
    company, all of them and in their order, and is never empty; the groups
    hold as many alerts as were given. So the groups are, for each company
    in the order of first appearance among the alerts, that company with
    its alerts. The payload has the three opening blocks, then for each
    company its heading, one block per alert and a divider. There is no
    payload for an empty list. *)
Theorem format_digest_groups :
  forall (alerts : list Slack.alert) (title : string) (priority : option string),
    let groups := SlackFormat.group_by_company alerts in
    NoDup (map fst groups)
    /\ map fst groups = DigestFacts.first_appearances (map Slack.company alerts)
    /\ groups
       = map (fun company =>
                (company, filter (fun a => Slack.company a =? company) alerts))
             (DigestFacts.first_appearances (map Slack.company alerts))
    /\ (forall company company_alerts,
           In (company, company_alerts) groups ->
           company_alerts = filter (fun a => Slack.company a =? company) alerts
           /\ company_alerts <> [])
    /\ (forall alert, In alert alerts -> In (Slack.company alert) (map fst groups))
    /\ List.length (flat_map snd groups) = List.length alerts
    /\ (SlackFormat.format_digest alerts title priority = None <-> alerts = [])
    /\ (forall payload,
           SlackFormat.format_digest alerts title priority = Some payload ->
           SlackFormat.blocks payload
           = ([SlackFormat.Header ("📊 " ++ title);
               SlackFormat.Section
                 ("*" ++ str_int (Z.of_nat (List.length alerts)) ++ " change(s) detected*");
               SlackFormat.Divider]
                ++ flat_map SlackFormat.company_blocks groups)%list
           /\ List.length (SlackFormat.blocks payload)
              = (3 + 2 * List.length groups + List.length alerts)%nat).
Proof.
  intros alerts title priority groups.
  assert (Hgroups :
            NoDup (map fst groups)
            /\ (forall company company_alerts,
                   In (company, company_alerts) groups ->
                   company_alerts = filter (fun a => Slack.company a =? company) alerts
                   /\ company_alerts <> [])
            /\ (forall alert, In alert alerts -> In (Slack.company alert) (map fst groups))
            /\ List.length (flat_map snd groups) = List.length alerts).
  { unfold groups. clear groups.
    induction alerts as [|alert alerts IH] using rev_ind.
    - cbn. split; [constructor|]. split; [intros ? ? []|]. split; [intros ? []|reflexivity].
    - destruct IH as (Hnodup & Hfilter & Hall & Htotal).
      rewrite group_by_company_snoc.
      set (groups := SlackFormat.group_by_company alerts) in *.
      assert (Hkeys := add_to_company_keys (Slack.company alert) alert groups).
      assert (Hmem : existsb (fun c => c =? Slack.company alert) (map fst groups) = true
                     <-> In (Slack.company alert) (map fst groups)).
      { rewrite existsb_exists. split.
        - intros (c & Hc & Heq). apply String.eqb_eq in Heq. subst c. exact Hc.
        - intro Hc. exists (Slack.company alert). split; [exact Hc | apply String.eqb_refl]. }
      split; [|split; [|split]].
      + rewrite Hkeys.
        destruct (existsb (fun c => c =? Slack.company alert) (map fst groups)) eqn:Hex;
          [exact Hnodup|].
        apply NoDup_snoc; [exact Hnodup|]. intro Hin. apply Hmem in Hin. discriminate.
      + intros c l Hin. rewrite filter_app. cbn [filter].
        destruct (add_to_company_entries (Slack.company alert) alert groups c l Hnodup Hin)
          as [[Hc Hold] | [Hc [(l0 & Hold & Hl) | [Hnew Hl]]]].
        * destruct (Hfilter c l Hold) as [Hl Hne].
          destruct (String.eqb_spec (Slack.company alert) c) as [Heq | _];
            [exfalso; apply Hc; symmetry; exact Heq|].
          rewrite app_nil_r. auto.
        * destruct (Hfilter c l0 Hold) as [Hl0 Hne].
          replace (Slack.company alert =? c) with true
            by (symmetry; apply String.eqb_eq; auto).
          rewrite Hl, Hl0.
          split; [reflexivity|]. intro Hnil. apply app_eq_nil in Hnil.
          destruct Hnil as [_ Hnil]. discriminate.
        * replace (Slack.company alert =? c) with true
            by (symmetry; apply String.eqb_eq; auto).
          assert (Hnone : filter (fun a => Slack.company a =? c) alerts = []).
          { apply filter_nil_iff. intros a Ha.
            destruct (String.eqb_spec (Slack.company a) c) as [Heq|];
              [|reflexivity].
            exfalso. apply Hnew. rewrite <- Heq. apply Hall. exact Ha. }
          rewrite Hnone, Hl. split; [reflexivity | discriminate].
      + intros a Ha. rewrite Hkeys. apply in_app_or in Ha.
        destruct (existsb (fun c => c =? Slack.company alert) (map fst groups)) eqn:Hex.
        * destruct Ha as [Ha | [<- | []]]; [apply Hall; exact Ha | apply Hmem; reflexivity].
        * apply in_or_app.
          destruct Ha as [Ha | [<- | []]]; [left; apply Hall; exact Ha | right; left; reflexivity].
      + rewrite add_to_company_total, Htotal, length_app. cbn [List.length]. lia. }
  destruct Hgroups as (Hnodup & Hfilter & Hall & Htotal).
  split; [exact Hnodup|].
  split; [apply group_by_company_keys|].
  split.
  { rewrite <- group_by_company_keys. fold groups. rewrite map_map.
    rewrite <- (map_id groups) at 1. apply map_ext_in.
    intros [company company_alerts] Hin. cbn [fst].
    destruct (Hfilter company company_alerts Hin) as [-> _]. reflexivity. }
  split; [exact Hfilter|]. split; [exact Hall|].
  split; [exact Htotal|]. split.
  - destruct alerts; cbn; split; intro; congruence.
  - intros payload Hp. destruct alerts as [|a alerts]; [discriminate|].
    cbn [SlackFormat.format_digest] in Hp. injection Hp as <-.
    cbn [SlackFormat.blocks]. split; [reflexivity|].
    fold groups. cbn [app List.length]. rewrite company_blocks_total, Htotal.
    cbn [List.length]. lia.
Qed.

Lemma format_digest_groups_witness :
  SlackFormat.group_by_company
    [Fixtures.digest_alert "Beta" "one"; Fixtures.digest_alert "Acme" "two";
     Fixtures.digest_alert "Beta" "three"]
  = [("Beta", [Fixtures.digest_alert "Beta" "one"; Fixtures.digest_alert "Beta" "three"]);
     ("Acme", [Fixtures.digest_alert "Acme" "two"])].
Proof.
  rewrite (proj1 (proj2 (proj2 (format_digest_groups
                                  [Fixtures.digest_alert "Beta" "one";
                                   Fixtures.digest_alert "Acme" "two";
                                   Fixtures.digest_alert "Beta" "three"]
                                  "Daily Competitive Intelligence Digest" None)))).
  reflexivity.
Defined.
